(** * Letterboxd rating icons: the ranking lookup and badge mounting of the
    userscript "Letterboxd Add Rating Icons"

    The development embeds the userscript (load handler, [getData],
    [getActors], [createTop250Element], [addCrown], [addIcon],
    [addActorIcon]) as Rocq functions over an explicit page state, and states
    the properties of the ranking specification about them. *)

From Stdlib Require Import ZArith List Bool Arith Lia.
From Stdlib Require Import Strings.String Strings.Ascii Numbers.DecimalString.
Import ListNotations.

Set Warnings "-register-all".

Open Scope string_scope.
Open Scope list_scope.
Open Scope Z_scope.

(** ** Completions

    A JavaScript computation either returns or throws.  Effects made before
    the throw stay: the state is returned in both cases. *)

Inductive error : Type :=
| TypeError
| SyntaxError
| NetworkFailure.

Inductive completion (A : Type) : Type :=
| Normal (a : A)
| Throw (e : error).

Arguments Normal {A} a.
Arguments Throw {A} e.

Definition threw {A : Type} (c : completion A) : bool :=
  match c with
  | Normal _ => false
  | Throw _ => true
  end.

(** ** JavaScript values *)

(** The numbers the scripts compute with are integers or NaN: the result of
    [parseInt], array indices and ranks. *)
Inductive number : Type :=
| NaN
| Num (z : Z).

(** A value as [JSON.parse] returns it, and [undefined].  The numbers of a
    ranking file are film identifiers, kept as integers. *)
Inductive jsval : Type :=
| JUndefined
| JNull
| JBool (b : bool)
| JNumber (z : Z)
| JString (s : string)
| JArray (elems : list jsval)
| JObject (fields : list (string * jsval)).

Definition string_of_Z (z : Z) : string :=
  NilZero.string_of_int (Z.to_int z).

Fixpoint join_with (sep : string) (parts : list string) : string :=
  match parts with
  | [] => ""
  | [p] => p
  | p :: rest => (p ++ sep ++ join_with sep rest)%string
  end.

(** [String(v)] *)
Fixpoint js_String (v : jsval) : string :=
  match v with
  | JUndefined => "undefined"
  | JNull => "null"
  | JBool true => "true"
  | JBool false => "false"
  | JNumber z => string_of_Z z
  | JString s => s
  | JArray elems =>
      join_with ","
        (map (fun e => match e with
                       | JUndefined | JNull => ""
                       | _ => js_String e
                       end) elems)
  | JObject _ => "[object Object]"
  end.

Fixpoint assoc {A : Type} (k : string) (l : list (string * A)) : option A :=
  match l with
  | [] => None
  | (k', v) :: rest => if String.eqb k k' then Some v else assoc k rest
  end.

(** [v.name] for the names the scripts read ([Date], [id], [actor]), none of
    which is a member of a built-in prototype: reading it from [undefined] or
    [null] throws, from an object it gives the field or [undefined], from any
    other value [undefined]. *)
Definition get_prop (v : jsval) (name : string) : completion jsval :=
  match v with
  | JUndefined | JNull => Throw TypeError
  | JObject fields =>
      match assoc name fields with
      | Some x => Normal x
      | None => Normal JUndefined
      end
  | _ => Normal JUndefined
  end.

(** [v === id] where [id] is a number: NaN is equal to nothing. *)
Definition strict_eq_number (v : jsval) (id : number) : bool :=
  match v, id with
  | JNumber a, Num b => a =? b
  | _, _ => false
  end.

(** *** [parseInt] of a string *)

Definition is_whitespace (c : ascii) : bool :=
  let n := nat_of_ascii c in
  ((9 <=? n) && (n <=? 13))%nat || (n =? 32)%nat.

Fixpoint skip_whitespace (s : string) : string :=
  match s with
  | String c rest => if is_whitespace c then skip_whitespace rest else s
  | EmptyString => s
  end.

Definition digit_value (c : ascii) : option Z :=
  let n := nat_of_ascii c in
  if ((48 <=? n) && (n <=? 57))%nat then Some (Z.of_nat (n - 48))
  else if ((97 <=? n) && (n <=? 122))%nat then Some (Z.of_nat (n - 87))
  else if ((65 <=? n) && (n <=? 90))%nat then Some (Z.of_nat (n - 55))
  else None.

(** The longest prefix of digits of the radix, read from the left; [None]
    when there is no digit. *)
Fixpoint read_digits (radix : Z) (acc : option Z) (s : string) : option Z :=
  match s with
  | EmptyString => acc
  | String c rest =>
      match digit_value c with
      | Some d =>
          if d <? radix
          then read_digits radix
                 (Some (match acc with Some a => a * radix + d | None => d end))
                 rest
          else acc
      | None => acc
      end
  end.

(** [parseInt(input)], for a numeral whose value a number of the language
    holds exactly: an integer of at most [2 ^ 53] in absolute value.  Beyond
    that the script gets the nearest value a double has, which the integers
    of this development do not follow; the statements about numerals taken
    from the page are bounded accordingly. *)
Definition parseInt (input : string) : number :=
  let s := skip_whitespace input in
  let '(sign, s) :=
    match s with
    | String "-" rest => (-1, rest)
    | String "+" rest => (1, rest)
    | _ => (1, s)
    end in
  let '(radix, s) :=
    match s with
    | String "0" (String "x" rest) => (16, rest)
    | String "0" (String "X" rest) => (16, rest)
    | _ => (10, s)
    end in
  match read_digits radix None s with
  | Some n => Num (sign * n)
  | None => NaN
  end.

(** ** Page numbers

    [parseInt(ranking / 100) + 1].  [ranking] is an array index plus one, so
    the quotient prints as a plain decimal numeral, of which [parseInt] keeps
    the digits before the point: the quotient truncated towards zero. *)
Definition pageOf (ranking : Z) : Z :=
  Z.quot ranking 100 + 1.

(** ** The page

    An element carries the identity the document gave it when it was created:
    [appendChild] moves a node that is already in the tree, it never copies
    it.  The inline style is the [style] attribute as [setAttribute] last
    wrote it, followed by the properties assigned through [.style], kept
    under their script names. *)

Record element : Type := {
  ident : nat;
  tagName : string;
  className : string;
  attributes : list (string * string);
  style : list (string * string)
}.

Inductive node : Type :=
| Element (e : element) (children : list node)
| TextNode (data : string).

Inductive mount : Type :=
| CrownMount
| IconMount.

(** A [MutationObserver] made by [addCrown] or [addIcon]: the closure holds
    the badge it will insert. *)
Record observer : Type := {
  mount_of : mount;
  badge : node;
  connected : bool
}.

(** The page as the script sees it, one field per query it makes:
    - [film_poster]: [document.getElementsByClassName("film-poster")[0]],
      then its [parentElement], then the attributes of that element;
    - [cast_list]: the child nodes of the elements [#tab-cast .cast-list];
    - [statistic_list]: the first element of class
      [production-statistic-list] and its child nodes;
    - [elsewhere]: the other elements of the document;
    - [observers]: the mutation observers created so far;
    - [next_ident]: the identity of the next node created. *)
Record page : Type := {
  next_ident : nat;
  film_poster : option (option (list (string * string)));
  cast_list : list node;
  statistic_list : option (element * list node);
  elsewhere : list node;
  observers : list observer
}.

Record mutation_record : Type := {
  addedNodes : list node
}.

Definition with_next_ident (n : nat) (p : page) : page :=
  {| next_ident := n; film_poster := film_poster p; cast_list := cast_list p;
     statistic_list := statistic_list p; elsewhere := elsewhere p;
     observers := observers p |}.

Definition with_cast_list (l : list node) (p : page) : page :=
  {| next_ident := next_ident p; film_poster := film_poster p; cast_list := l;
     statistic_list := statistic_list p; elsewhere := elsewhere p;
     observers := observers p |}.

Definition with_statistic_list (s : option (element * list node)) (p : page)
  : page :=
  {| next_ident := next_ident p; film_poster := film_poster p;
     cast_list := cast_list p; statistic_list := s; elsewhere := elsewhere p;
     observers := observers p |}.

Definition with_elsewhere (l : list node) (p : page) : page :=
  {| next_ident := next_ident p; film_poster := film_poster p;
     cast_list := cast_list p; statistic_list := statistic_list p;
     elsewhere := l; observers := observers p |}.

Definition with_observers (l : list observer) (p : page) : page :=
  {| next_ident := next_ident p; film_poster := film_poster p;
     cast_list := cast_list p; statistic_list := statistic_list p;
     elsewhere := elsewhere p; observers := l |}.

(** *** Element construction *)

Definition createElement (tag : string) (p : page) : element * page :=
  ({| ident := next_ident p; tagName := tag; className := "";
      attributes := []; style := [] |},
   with_next_ident (S (next_ident p)) p).

Fixpoint set_assoc {A : Type} (k : string) (v : A) (l : list (string * A))
  : list (string * A) :=
  match l with
  | [] => [(k, v)]
  | (k', v') :: rest =>
      if String.eqb k k' then (k, v) :: rest else (k', v') :: set_assoc k v rest
  end.

Definition set_className (c : string) (e : element) : element :=
  {| ident := ident e; tagName := tagName e; className := c;
     attributes := attributes e; style := style e |}.

(** The [class] attribute and [className] are one.  The name is kept as it
    is given: that is what the DOM does for the names the scripts write on
    their HTML elements, which are attribute names without a capital
    letter, and for any name on an SVG element.  A name with a capital
    letter is stored in lower case on an HTML element, and a name that is
    no attribute name is refused with an exception: the statements that
    take the names from the outside leave such names out. *)
Definition setAttribute (name value : string) (e : element) : element :=
  if String.eqb name "class" then set_className value e
  else
    {| ident := ident e; tagName := tagName e; className := className e;
       attributes := set_assoc name value (attributes e); style := style e |}.

Definition set_style (property value : string) (e : element) : element :=
  {| ident := ident e; tagName := tagName e; className := className e;
     attributes := attributes e; style := set_assoc property value (style e) |}.

(** [Object.entries(size).forEach(([key, value]) => e.setAttribute(key, value))] *)
Definition set_entries (entries : list (string * string)) (e : element)
  : element :=
  fold_left (fun e kv => setAttribute (fst kv) (snd kv) e) entries e.

(** *** Queries *)

Definition is_html_space (c : ascii) : bool :=
  let n := nat_of_ascii c in
  ((n =? 9) || (n =? 10) || (n =? 12) || (n =? 13) || (n =? 32))%nat.

(** The class tokens of a [className]: [cur] is the token being read. *)
Fixpoint class_tokens (cur : string) (s : string) : list string :=
  match s with
  | EmptyString =>
      match cur with
      | EmptyString => []
      | _ => [cur]
      end
  | String c rest =>
      if is_html_space c
      then match cur with
           | EmptyString => class_tokens "" rest
           | _ => cur :: class_tokens "" rest
           end
      else class_tokens (cur ++ String c "")%string rest
  end.

Definition has_class (c : string) (e : element) : bool :=
  existsb (String.eqb c) (class_tokens "" (className e)).

Definition has_tag (t : string) (e : element) : bool :=
  String.eqb t (tagName e).

(** The elements of a subtree that satisfy [P], the root included. *)
Fixpoint count_in (P : element -> bool) (n : node) : nat :=
  match n with
  | Element e children =>
      (if P e then 1 else 0) + list_sum (map (count_in P) children)
  | TextNode _ => 0
  end%nat.

Definition count_forest (P : element -> bool) (l : list node) : nat :=
  list_sum (map (count_in P) l).

(** [document.getElementsByClassName(c).length] *)
Definition count_class (c : string) (p : page) : nat :=
  (count_forest (has_class c) (elsewhere p)
   + count_forest (has_class c) (cast_list p)
   + match statistic_list p with
     | Some (e, children) => count_in (has_class c) (Element e children)
     | None => 0
     end)%nat.

Fixpoint textContent (n : node) : string :=
  match n with
  | Element _ children => String.concat "" (map textContent children)
  | TextNode data => data
  end.

(** The elements with tag [t] of a subtree, in document order. *)
Fixpoint elements_by_tag (t : string) (n : node) : list (element * list node) :=
  match n with
  | Element e children =>
      (if has_tag t e then [(e, children)] else [])
      ++ flat_map (elements_by_tag t) children
  | TextNode _ => []
  end.

(** [document.querySelectorAll('#tab-cast .cast-list a')] *)
Definition cast_anchors (p : page) : list (element * list node) :=
  flat_map (elements_by_tag "a") (cast_list p).

(** *** Tree updates *)

Definition is_node (i : nat) (n : node) : bool :=
  match n with
  | Element e _ => Nat.eqb (ident e) i
  | TextNode _ => false
  end.

(** The forest without the element of identity [i]. *)
Fixpoint remove_in (i : nat) (n : node) : node :=
  match n with
  | Element e children =>
      Element e
        (filter (fun c => negb (is_node i c)) (map (remove_in i) children))
  | TextNode _ => n
  end.

Definition remove_forest (i : nat) (l : list node) : list node :=
  filter (fun c => negb (is_node i c)) (map (remove_in i) l).

Definition detach (i : nat) (p : page) : page :=
  with_elsewhere (remove_forest i (elsewhere p))
    (with_cast_list (remove_forest i (cast_list p))
       (with_statistic_list
          (match statistic_list p with
           | Some (e, children) => Some (e, remove_forest i children)
           | None => None
           end) p)).

(** [parent.appendChild(child)] inside a subtree, [parent] given by its
    identity; [child] is not in the tree. *)
Fixpoint append_in (parent : nat) (child : node) (n : node) : node :=
  match n with
  | Element e children =>
      let children' := map (append_in parent child) children in
      Element e
        (if Nat.eqb (ident e) parent then children' ++ [child] else children')
  | TextNode _ => n
  end.

(** ** Badges *)

Record parameters : Type := {
  list_path : string;
  icon : string;
  size : list (string * string)
}.

(** [createTop250Element(ranking)] *)
Definition createTop250Element (ranking : Z) (p : page) : node * page :=
  let '(div, p) := createElement "div" p in
  let div := set_className "production-statistic -top250" div in
  let div :=
    setAttribute "aria-label"
      ("№ " ++ string_of_Z ranking ++ " in the Letterboxd Top 2000")%string
      div in
  let '(a, p) := createElement "a" p in
  let a := set_className "tooltip" a in
  let page := pageOf ranking in
  let a :=
    setAttribute "href"
      ("/el_duderinno/list/letterboxds-top-2000-narrative-feature-films-1/page/"
       ++ string_of_Z page)%string a in
  let a := setAttribute "data-html" "true" a in
  let a :=
    setAttribute "data-original-title"
      ("№ " ++ string_of_Z ranking ++ " in the Letterboxd Top 250")%string
      a in
  let svgNS := "http://www.w3.org/2000/svg" in
  let '(svg, p) := createElement "svg" p in
  let svg := setAttribute "xmlns" svgNS svg in
  let svg := setAttribute "role" "presentation" svg in
  let svg := setAttribute "class" "glyph" svg in
  let svg := setAttribute "width" "14" svg in
  let svg := setAttribute "height" "11" svg in
  let svg := setAttribute "viewBox" "0 0 14 11" svg in
  let '(path, p) := createElement "path" p in
  let path := setAttribute "fill" "#000" path in
  let path :=
    setAttribute "d"
      "M0 2.169c0-.252.126-.48.32-.576.194-.097.417-.043.566.135l2.546 3.056c.05.062.12.095.192.091a.248.248 0 0 0 .188-.108l2.535-3.55A.488.488 0 0 1 6.74 1c.151 0 .295.08.394.218l2.547 3.565c.045.064.109.103.178.108a.236.236 0 0 0 .189-.077l3.091-3.248a.452.452 0 0 1 .556-.098c.185.102.304.323.304.567V10H0V2.169Z"
      path in
  let svg_node := Element svg [Element path []] in
  let '(span, p) := createElement "span" p in
  let span := set_className "label" span in
  let span_node := Element span [TextNode (string_of_Z ranking)] in
  (Element div [Element a [svg_node; span_node]], p).

(** The elements [addIcon] builds before it creates its observer. *)
Definition icon_badge (ranking : Z) (parameters : parameters) (p : page)
  : node * page :=
  let '(div_mov, p) := createElement "div" p in
  let div_mov := set_className "production-statistic" div_mov in
  let '(a_mov, p) := createElement "a" p in
  let page := pageOf ranking in
  let a_mov :=
    setAttribute "href" (list_path parameters ++ string_of_Z page)%string
      a_mov in
  let a_mov := set_style "fontSize" ".92307692rem" a_mov in
  let '(movie, p) := createElement "img" p in
  let movie := setAttribute "src" (icon parameters) movie in
  let movie := set_entries (size parameters) movie in
  let movie := set_style "float" "left" movie in
  let movie := set_style "marginLeft" "-1px" movie in
  let movie := set_style "marginRight" "3px" movie in
  (Element div_mov
     [Element a_mov [Element movie []; TextNode (string_of_Z ranking)]], p).

(** The anchor [addActorIcon] builds before it appends it. *)
Definition actor_badge (ranking : Z) (parameters : parameters) (p : page)
  : node * page :=
  let '(a_mov, p) := createElement "a" p in
  let page := pageOf ranking in
  let a_mov :=
    setAttribute "href" (list_path parameters ++ string_of_Z page)%string
      a_mov in
  let a_mov := set_style "fontSize" ".92307692rem" a_mov in
  let '(movie, p) := createElement "img" p in
  let movie := setAttribute "src" (icon parameters) movie in
  let movie := set_entries (size parameters) movie in
  let movie := set_style "display" "inline" movie in
  let movie := set_style "marginBottom" "-1px" movie in
  let movie := set_style "marginLeft" "3px" movie in
  let movie := set_style "marginRight" "3px" movie in
  (Element a_mov [Element movie []; TextNode (string_of_Z ranking)], p).

(** [new MutationObserver(callback).observe(document, ...)] *)
Definition observe (m : mount) (b : node) (p : page) : page :=
  with_observers
    (observers p ++ [{| mount_of := m; badge := b; connected := true |}]) p.

Definition addCrown (ranking : Z) (p : page) : page :=
  let '(div_crown, p) := createTop250Element ranking p in
  observe CrownMount div_crown p.

Definition addIcon (ranking : Z) (parameters : parameters) (p : page) : page :=
  let '(div_mov, p) := icon_badge ranking parameters p in
  observe IconMount div_mov p.

Definition addActorIcon (element : nat) (ranking : Z) (parameters : parameters)
    (p : page) : page :=
  let '(a_mov, p) := actor_badge ranking parameters p in
  with_cast_list (map (append_in element a_mov) (cast_list p)) p.

(** The display parameters [getData] gives to [addIcon], by type code. *)
Definition parameters_of (type : Z) : option parameters :=
  match type with
  | 2 =>
      Some {| list_path := "/el_duderinno/list/every-movie-with-more-than-100000-watched/page/";
              icon := "https://raw.githubusercontent.com/frozenpandaman/letterboxd-userscripts/master/top-2000-flame.svg";
              size := [("height", "12"); ("width", "12")] |}
  | 3 =>
      Some {| list_path := "/prof_ratigan/list/top-5000-films-of-all-time-calculated/page/";
              icon := "https://raw.githubusercontent.com/afchatfield/lb-list-to-json/main/Icons/camera_icon.png";
              size := [("height", "16"); ("width", "16")] |}
  | 4 =>
      Some {| list_path := "/el_duderinno/list/letterboxds-top-250-highest-rated-french-1/page/";
              icon := "https://raw.githubusercontent.com/afchatfield/lb-list-to-json/main/Icons/france.png";
              size := [("height", "16"); ("width", "16")] |}
  | 5 =>
      Some {| list_path := "/el_duderinno/list/letterboxds-top-250-spanish-speaking-films/page/";
              icon := "https://raw.githubusercontent.com/afchatfield/lb-list-to-json/main/Icons/spain.png";
              size := [("height", "16"); ("width", "16")] |}
  | 6 =>
      Some {| list_path := "/slinkyman/list/letterboxds-top-250-highest-rated-british/page/";
              icon := "https://raw.githubusercontent.com/afchatfield/lb-list-to-json/main/Icons/united_kingdom.png";
              size := [("height", "16"); ("width", "16")] |}
  | 7 =>
      Some {| list_path := "/alexanderh/list/top-100-german-films-of-german-members/page/";
              icon := "https://raw.githubusercontent.com/afchatfield/lb-list-to-json/main/Icons/germany.png";
              size := [("height", "16"); ("width", "16")] |}
  | 8 =>
      Some {| list_path := "/el_duderinno/list/letterboxds-top-100-italian-films-as-rated/page/";
              icon := "https://raw.githubusercontent.com/afchatfield/lb-list-to-json/main/Icons/italy.png";
              size := [("height", "16"); ("width", "16")] |}
  | 9 =>
      Some {| list_path := "/el_duderinno/list/letterboxds-top-100-scandinavian-films-as/page/";
              icon := "https://raw.githubusercontent.com/afchatfield/lb-list-to-json/main/Icons/scandinavia.png";
              size := [("height", "16"); ("width", "16")] |}
  | 10 =>
      Some {| list_path := "/el_duderinno/list/top-250-spanish-speaking-films-as-rated-by/page/";
              icon := "https://raw.githubusercontent.com/afchatfield/lb-list-to-json/main/Icons/spain_circle.png";
              size := [("height", "14"); ("width", "14")] |}
  | 11 =>
      Some {| list_path := "/el_duderinno/list/top-250-japanese-films-as-rated-by-japanese/page/";
              icon := "https://raw.githubusercontent.com/afchatfield/lb-list-to-json/main/Icons/japan.png";
              size := [("height", "16"); ("width", "16")] |}
  | 12 =>
      Some {| list_path := "/el_duderinno/list/letterboxds-top-100-korean-films-as-rated/page/";
              icon := "https://raw.githubusercontent.com/afchatfield/lb-list-to-json/main/Icons/south-korea.png";
              size := [("height", "16"); ("width", "16")] |}
  | 13 =>
      Some {| list_path := "/el_duderinno/list/letterboxds-top-100-african-narrative-films/page/";
              icon := "https://raw.githubusercontent.com/afchatfield/lb-list-to-json/main/Icons/africa_orange.png";
              size := [("height", "14"); ("width", "14")] |}
  | 14 =>
      Some {| list_path := "/el_duderinno/list/top-250-romance-films/page/";
              icon := "https://raw.githubusercontent.com/afchatfield/lb-list-to-json/main/Icons/romance2.png";
              size := [("height", "14"); ("width", "14")] |}
  | 15 =>
      Some {| list_path := "/el_duderinno/list/top-250-comedy-films/page/";
              icon := "https://raw.githubusercontent.com/afchatfield/lb-list-to-json/main/Icons/comedy1.png";
              size := [("height", "14"); ("width", "14")] |}
  | 16 =>
      Some {| list_path := "/el_duderinno/list/top-500-european-films-as-rated-by-european/page/";
              icon := "https://raw.githubusercontent.com/afchatfield/lb-list-to-json/main/Icons/european-union.png";
              size := [("height", "16"); ("width", "16")] |}
  | 17 =>
      Some {| list_path := "/el_duderinno/list/letterboxds-top-250-south-american-films/page/";
              icon := "https://raw.githubusercontent.com/afchatfield/lb-list-to-json/main/Icons/south-america.png";
              size := [("height", "16"); ("width", "16")] |}
  | 18 =>
      Some {| list_path := "/jack/list/official-top-250-documentary-films/page/";
              icon := "https://raw.githubusercontent.com/afchatfield/lb-list-to-json/main/Icons/book.png";
              size := [("height", "14"); ("width", "16")] |}
  | 19 =>
      Some {| list_path := "/el_duderinno/list/top-1000-actors-biggest-film/page/";
              icon := "https://raw.githubusercontent.com/afchatfield/lb-list-to-json/main/Icons/actor_red.png";
              size := [("height", "12"); ("width", "12"); ("style", "margin-top: 1px;")] |}
  | 20 =>
      Some {| list_path := "/el_duderinno/list/top-100-chinese-films/page/";
              icon := "https://raw.githubusercontent.com/afchatfield/lb-list-to-json/main/Icons/china.png";
              size := [("height", "16"); ("width", "16")] |}
  | 21 =>
      Some {| list_path := "/el_duderinno/list/letterboxds-top-250-indian-films-as-rated/page/";
              icon := "https://raw.githubusercontent.com/afchatfield/lb-list-to-json/main/Icons/india.png";
              size := [("height", "16"); ("width", "16")] |}
  | 22 =>
      Some {| list_path := "/el_duderinno/list/top-100-australian-films-as-rated-by-australian/page/";
              icon := "https://raw.githubusercontent.com/afchatfield/lb-list-to-json/main/Icons/australia.png";
              size := [("height", "16"); ("width", "16")] |}
  | 23 =>
      Some {| list_path := "/el_duderinno/list/top-100-south-east-asian-films/page/";
              icon := "https://raw.githubusercontent.com/afchatfield/lb-list-to-json/main/Icons/south_east_asia.png";
              size := [("height", "16"); ("width", "16")] |}
  | 24 =>
      Some {| list_path := "/el_duderinno/list/top-200-middle-eastern-films/page/";
              icon := "https://raw.githubusercontent.com/afchatfield/lb-list-to-json/main/Icons/middle_east.png";
              size := [("height", "16"); ("width", "16")] |}
  | 25 =>
      Some {| list_path := "/el_duderinno/list/letterboxds-top-100-russian-language-films/page/";
              icon := "https://raw.githubusercontent.com/afchatfield/lb-list-to-json/main/Icons/russia.png";
              size := [("height", "16"); ("width", "16")] |}
  | 26 =>
      Some {| list_path := "/el_duderinno/list/letterboxds-top-50-new-zealand-films-as-rated/page/";
              icon := "https://raw.githubusercontent.com/afchatfield/lb-list-to-json/main/Icons/new-zealand.png";
              size := [("height", "16"); ("width", "16")] |}
  | 27 =>
      Some {| list_path := "/el_duderinno/list/letterboxds-top-250-us-films-as-rated-by/page/";
              icon := "https://raw.githubusercontent.com/afchatfield/lb-list-to-json/main/Icons/united-states.png";
              size := [("height", "16"); ("width", "16")] |}
  | 28 =>
      Some {| list_path := "/el_duderinno/list/letterboxds-top-100-canadian-films-as-rated/page/";
              icon := "https://raw.githubusercontent.com/afchatfield/lb-list-to-json/main/Icons/canada.png";
              size := [("height", "16"); ("width", "16")] |}
  | _ => None
  end.

(** ** Deferred mounting *)

Definition node_ident (n : node) : option nat :=
  match n with
  | Element e _ => Some (ident e)
  | TextNode _ => None
  end.

(** [icon_div.appendChild(b)]: [b] leaves the place it had, if any, and
    becomes the last child of the statistic list. *)
Definition appendChild_statistic (b : node) (p : page) : page :=
  let p :=
    match node_ident b with
    | Some i => detach i p
    | None => p
    end in
  match statistic_list p with
  | Some (e, children) => with_statistic_list (Some (e, children ++ [b])) p
  | None => p
  end.

(** What the body of the two loops did for one added element. *)
Record visited : Type := {
  page_after : page;
  disconnect : bool;
  appendChild_calls : nat
}.

(** The loop body of the observer of [addCrown], for an element node. *)
Definition crown_visit (div_crown : node) (p : page) : completion visited :=
  match statistic_list p with
  | None => Throw TypeError
  | Some (_, children) =>
      if (1 <? count_forest (has_tag "div") children)%nat
      then
        if (count_class "-top250" p =? 0)%nat
        then Normal {| page_after := appendChild_statistic div_crown p;
                       disconnect := true; appendChild_calls := 1 |}
        else Normal {| page_after := p; disconnect := true;
                       appendChild_calls := 0 |}
      else Normal {| page_after := p; disconnect := false;
                     appendChild_calls := 0 |}
  end.

(** The loop body of the observer of [addIcon], for an element node. *)
Definition icon_visit (div_mov : node) (p : page) : completion visited :=
  match statistic_list p with
  | None => Throw TypeError
  | Some (icon_div, children) =>
      let p :=
        with_statistic_list (Some (set_style "flexWrap" "wrap" icon_div, children))
          p in
      if (1 <? count_forest (has_tag "div") children)%nat
      then Normal {| page_after := appendChild_statistic div_mov p;
                     disconnect := true; appendChild_calls := 1 |}
      else Normal {| page_after := p; disconnect := false;
                     appendChild_calls := 0 |}
  end.

Definition visit (o : observer) (p : page) : completion visited :=
  match mount_of o with
  | CrownMount => crown_visit (badge o) p
  | IconMount => icon_visit (badge o) p
  end.

Definition disconnected (o : observer) : observer :=
  {| mount_of := mount_of o; badge := badge o; connected := false |}.

(** The state of a callback run: the page, the observer, the number of
    [appendChild] calls made so far, and how the run ended. *)
Record delivered : Type := {
  page_of : page;
  observer_of : observer;
  calls_of : nat;
  outcome : completion unit
}.

(** The two loops over the added nodes of a batch.  [this.disconnect()] does
    not leave them: the nodes that follow are visited all the same. *)
Fixpoint callback_nodes (nodes : list node) (o : observer) (p : page)
    (calls : nat) : delivered :=
  match nodes with
  | [] => {| page_of := p; observer_of := o; calls_of := calls;
             outcome := Normal tt |}
  | TextNode _ :: rest => callback_nodes rest o p calls
  | Element _ _ :: rest =>
      match visit o p with
      | Throw e => {| page_of := p; observer_of := o; calls_of := calls;
                      outcome := Throw e |}
      | Normal v =>
          callback_nodes rest
            (if disconnect v then disconnected o else o)
            (page_after v) (calls + appendChild_calls v)
      end
  end.

Definition callback (mutations : list mutation_record) (o : observer)
    (p : page) : delivered :=
  callback_nodes (flat_map addedNodes mutations) o p 0.

Fixpoint set_nth {A : Type} (k : nat) (x : A) (l : list A) : list A :=
  match l, k with
  | [], _ => []
  | _ :: rest, O => x :: rest
  | y :: rest, S k' => y :: set_nth k' x rest
  end.

(** The browser hands a batch of mutation records to the [k]-th observer:
    its callback runs if the observer is still connected. *)
Definition deliver (k : nat) (mutations : list mutation_record) (p : page)
  : page * nat * completion unit :=
  match nth_error (observers p) k with
  | Some o =>
      if connected o
      then
        let d := callback mutations o p in
        (with_observers (set_nth k (observer_of d) (observers (page_of d)))
           (page_of d),
         calls_of d, outcome d)
      else (p, 0%nat, Normal tt)
  | None => (p, 0%nat, Normal tt)
  end.

(** What happens on a page after the script has set up its observers: the
    host page rewrites the document (the observers stay), or a batch is
    delivered to an observer. *)
Inductive event : Type :=
| HostChange (document : page)
| Deliver (k : nat) (mutations : list mutation_record).

Definition step (ev : event) (p : page) : page * list (nat * nat) :=
  match ev with
  | HostChange document => (with_observers (observers p) document, [])
  | Deliver k mutations =>
      let '(p', calls, _) := deliver k mutations p in
      (p', [(k, calls)])
  end.

(** The page after the events, and for every delivery the observer and the
    number of [appendChild] calls its callback made. *)
Fixpoint run (events : list event) (p : page) : page * list (nat * nat) :=
  match events with
  | [] => (p, [])
  | ev :: rest =>
      let '(p', log) := step ev p in
      let '(p'', log') := run rest p' in
      (p'', log ++ log')
  end.

Definition inserting (k : nat) (entry : nat * nat) : bool :=
  (fst entry =? k)%nat && (0 <? snd entry)%nat.

(** ** Promises *)

Inductive promise (A : Type) : Type :=
| Fulfilled (a : A)
| Rejected (e : error).

Arguments Fulfilled {A} a.
Arguments Rejected {A} e.

Definition settled {A : Type} (c : completion A) : promise A :=
  match c with
  | Normal a => Fulfilled a
  | Throw e => Rejected e
  end.

(** [pr.then(onFulfilled)]: a rejection passes through; the handler's promise,
    or the rejection with what it threw, is the result. *)
Definition then_ {A B : Type} (pr : promise A)
    (onFulfilled : A -> page -> page * promise B) (p : page)
  : page * promise B :=
  match pr with
  | Fulfilled a => onFulfilled a p
  | Rejected e => (p, Rejected e)
  end.

(** The scripts attach no rejection handler: a chain that ends rejected is
    reported by the browser as an unhandled rejection. *)
Definition unhandled_rejection {A : Type} (pr : promise A) : bool :=
  match pr with
  | Fulfilled _ => false
  | Rejected _ => true
  end.

(** A response: [res.json()] parses the body whatever the status, [None]
    stands for a body that is not JSON. *)
Record response : Type := {
  body : option jsval
}.

Definition json (res : response) : promise jsval :=
  match body res with
  | Some v => Fulfilled v
  | None => Rejected SyntaxError
  end.

(** ** [Array.prototype.find] *)

Section Find.

Context {State : Type}.
Variable callbackfn : jsval -> nat -> State -> State * completion bool.

(** The state, the number of elements visited and the element found.  The
    bool of the callback is the truthiness of what it returned. *)
Fixpoint find_from (items : list jsval) (i : nat) (s : State)
  : State * nat * completion jsval :=
  match items with
  | [] => (s, O, Normal JUndefined)
  | item :: rest =>
      match callbackfn item i s with
      | (s', Throw e) => (s', 1%nat, Throw e)
      | (s', Normal true) => (s', 1%nat, Normal item)
      | (s', Normal false) =>
          let '(s'', visits, found) := find_from rest (S i) s' in
          (s'', S visits, found)
      end
  end.

(** [out.find(callbackfn)]: only an array has the method. *)
Definition find (out : jsval) (s : State)
  : State * nat * completion jsval :=
  match out with
  | JArray items => find_from items 0 s
  | _ => (s, O, Throw TypeError)
  end.

End Find.

(** ** [getData] *)

(** [item.Date === id || item.id === id] *)
Definition is_film (item : jsval) (id : number) : completion bool :=
  match get_prop item "Date" with
  | Throw e => Throw e
  | Normal date =>
      if strict_eq_number date id then Normal true
      else
        match get_prop item "id" with
        | Throw e => Throw e
        | Normal v => Normal (strict_eq_number v id)
        end
  end.

(** The chain of [if (type == ...)] on a hit. *)
Definition add_badge (type : Z) (ranking : Z) (p : page) : page :=
  if type =? 1 then addCrown ranking p
  else
    match parameters_of type with
    | Some parameters => addIcon ranking parameters p
    | None => p
    end.

(** The function given to [out.find]: it returns nothing, which is falsy. *)
Definition getData_callback (type : Z) (id : number) (item : jsval) (i : nat)
    (p : page) : page * completion bool :=
  match is_film item id with
  | Throw e => (p, Throw e)
  | Normal true => (add_badge type (Z.of_nat i + 1) p, Normal false)
  | Normal false => (p, Normal false)
  end.

(** [getData(type, id, json_link)], given how the fetch of [json_link]
    settles; the promise is the one the chain ends with. *)
Definition getData (type : Z) (id : number) (fetched : promise response)
    (p : page) : page * promise unit :=
  let '(p, parsed) := then_ fetched (fun res p => (p, json res)) p in
  then_ parsed
    (fun out p =>
       let '(p, _, found) := find (getData_callback type id) out p in
       (p, settled (match found with
                    | Normal _ => Normal tt
                    | Throw e => Throw e
                    end)))
    p.

(** ** [getActors] *)

Definition actors_parameters : parameters :=
  {| list_path := "/el_duderinno/list/top-1000-actors-biggest-film/page/";
     icon := "https://raw.githubusercontent.com/afchatfield/lb-list-to-json/main/Icons/actor_red.png";
     size := [("height", "12"); ("width", "12"); ("style", "margin-top: 1px;")] |}.

(** [top1000Actors.push(String(item.actor))] *)
Definition getActors_callback (item : jsval) (i : nat)
    (top1000Actors : list string) : list string * completion bool :=
  match get_prop item "actor" with
  | Throw e => (top1000Actors, Throw e)
  | Normal actor => (top1000Actors ++ [js_String actor], Normal false)
  end.

(** [l.indexOf(x)], counted from [i]: -1 when [x] is not in [l]. *)
Fixpoint indexOf_from (x : string) (l : list string) (i : Z) : Z :=
  match l with
  | [] => -1
  | y :: rest => if String.eqb y x then i else indexOf_from x rest (i + 1)
  end.

Definition indexOf (x : string) (l : list string) : Z :=
  indexOf_from x l 0.

Definition first_some {A : Type} (l : list (option A)) : option A :=
  fold_right (fun o acc => match o with Some _ => o | None => acc end) None l.

(** The element of identity [i] in a subtree. *)
Fixpoint lookup_in (i : nat) (n : node) : option (element * list node) :=
  match n with
  | Element e children =>
      if Nat.eqb (ident e) i then Some (e, children)
      else first_some (map (lookup_in i) children)
  | TextNode _ => None
  end.

Definition lookup_forest (i : nat) (l : list node)
  : option (element * list node) :=
  first_some (map (lookup_in i) l).

Section Actors.

(** [String.prototype.normalize('NFC')], a built-in of the language. *)
Variable normalize : string -> string.

(** One turn of [castAnchors.forEach].  An anchor that is no longer in the
    cast list by then is outside what the page keeps, and is skipped. *)
Definition cast_visit (top1000Actors : list string) (p : page)
    (element : nat) : page :=
  match lookup_forest element (cast_list p) with
  | Some (e, children) =>
      let position :=
        indexOf (normalize (textContent (Element e children)))
          top1000Actors in
      if 0 <=? position
      then addActorIcon element (position + 1) actors_parameters p
      else p
  | None => p
  end.

(** The second [then] of [getActors]: the names are collected once, then
    every anchor of the list taken at call time is looked up in them. *)
Definition getActors_then (castAnchors : list nat) (out : jsval) (p : page)
  : page * promise unit :=
  match find getActors_callback out [] with
  | (_, _, Throw e) => (p, Rejected e)
  | (top1000Actors, _, Normal _) =>
      (fold_left (cast_visit top1000Actors) castAnchors p, Fulfilled tt)
  end.

Definition getActors (castAnchors : list nat) (fetched : promise response)
    (p : page) : page * promise unit :=
  let '(p, parsed) := then_ fetched (fun res p => (p, json res)) p in
  then_ parsed (getActors_then castAnchors) p.

End Actors.

(** ** The load handler *)

(** [parseInt(document.getElementsByClassName("film-poster")[0]
             .parentElement.getAttribute("data-film-id"))] *)
Definition film_id (p : page) : completion number :=
  match film_poster p with
  | None => Throw TypeError
  | Some None => Throw TypeError
  | Some (Some attrs) =>
      match assoc "data-film-id" attrs with
      | Some value => Normal (parseInt value)
      | None => Normal (parseInt (js_String JNull))
      end
  end.

(** The type codes and files of the [getData] calls, in order. *)
Definition ranking_files : list (Z * string) :=
  [
    (1, "https://raw.githubusercontent.com/afchatfield/lb-list-to-json/main/Ratings/top_2000_highest_rated.json");
    (2, "https://raw.githubusercontent.com/afchatfield/lb-list-to-json/main/Ratings/movies_with_100000_or_more_watched.json");
    (3, "https://raw.githubusercontent.com/afchatfield/lb-list-to-json/main/Ratings/top_5000_all_time.json");
    (4, "https://raw.githubusercontent.com/afchatfield/lb-list-to-json/main/Ratings/top_250_french_films_by_french_users.json");
    (5, "https://raw.githubusercontent.com/afchatfield/lb-list-to-json/main/Ratings/top_250_spanish_films_by_spanish_users.json");
    (6, "https://raw.githubusercontent.com/afchatfield/lb-list-to-json/main/Ratings/top_250_british_films_by_british_users.json");
    (7, "https://raw.githubusercontent.com/afchatfield/lb-list-to-json/main/Ratings/top_100_german_films_by_german_users.json");
    (8, "https://raw.githubusercontent.com/afchatfield/lb-list-to-json/main/Ratings/top_100_italian_films_by_italian_users.json");
    (9, "https://raw.githubusercontent.com/afchatfield/lb-list-to-json/main/Ratings/top_100_scandinavian_films_by_scandinavian_users.json");
    (10, "https://raw.githubusercontent.com/afchatfield/lb-list-to-json/main/Ratings/top_250_spanish_speaking_films_by_spanish_speaking_users.json");
    (11, "https://raw.githubusercontent.com/afchatfield/lb-list-to-json/main/Ratings/top_250_japanese_films.json");
    (12, "https://raw.githubusercontent.com/afchatfield/lb-list-to-json/main/Ratings/top_100_korean_films.json");
    (13, "https://raw.githubusercontent.com/afchatfield/lb-list-to-json/main/Ratings/top_100_african_films.json");
    (14, "https://raw.githubusercontent.com/afchatfield/lb-list-to-json/main/Ratings/top_250_romance_films.json");
    (15, "https://raw.githubusercontent.com/afchatfield/lb-list-to-json/main/Ratings/top_250_comedy_films.json");
    (16, "https://raw.githubusercontent.com/afchatfield/lb-list-to-json/main/Ratings/top_500_european_films.json");
    (17, "https://raw.githubusercontent.com/afchatfield/lb-list-to-json/main/Ratings/top_250_south_american_films.json");
    (18, "https://raw.githubusercontent.com/afchatfield/lb-list-to-json/main/Ratings/official-top-250-documentary-films.json");
    (19, "https://raw.githubusercontent.com/afchatfield/lb-list-to-json/main/Ratings/top_1000_actor_films.json");
    (20, "https://raw.githubusercontent.com/afchatfield/lb-list-to-json/main/Ratings/top_200_chinese_films.json");
    (21, "https://raw.githubusercontent.com/afchatfield/lb-list-to-json/main/Ratings/top_250_indian_films.json");
    (22, "https://raw.githubusercontent.com/afchatfield/lb-list-to-json/main/Ratings/top_100_australian_films.json");
    (23, "https://raw.githubusercontent.com/afchatfield/lb-list-to-json/main/Ratings/top_100_south_east_asian_films.json");
    (24, "https://raw.githubusercontent.com/afchatfield/lb-list-to-json/main/Ratings/top_200_middle_eastern_films.json");
    (25, "https://raw.githubusercontent.com/afchatfield/lb-list-to-json/main/Ratings/top_100_russian_films.json");
    (26, "https://raw.githubusercontent.com/afchatfield/lb-list-to-json/main/Ratings/top_50_new_zealand_films.json");
    (27, "https://raw.githubusercontent.com/afchatfield/lb-list-to-json/main/Ratings/top_250_usa_films.json");
    (28, "https://raw.githubusercontent.com/afchatfield/lb-list-to-json/main/Ratings/top_100_canadian_films.json")
  ].

Definition actors_file : string :=
  "https://raw.githubusercontent.com/afchatfield/lb-list-to-json/main/Ratings/top_1000_actors.json".

(** A fetch issued by the load handler, with what its continuation holds. *)
Inductive task : Type :=
| DataTask (type : Z) (id : number) (json_link : string)
| ActorsTask (json_link : string) (castAnchors : list nat).

Definition task_link (t : task) : string :=
  match t with
  | DataTask _ _ json_link => json_link
  | ActorsTask json_link _ => json_link
  end.

(** The handler itself: it reads the identifier and issues the fetches.  The
    continuations run later, one task at a time. *)
Definition load (p : page) : completion (list task) :=
  match film_id p with
  | Throw e => Throw e
  | Normal id =>
      Normal
        (map (fun r => DataTask (fst r) id (snd r)) ranking_files
         ++ [ActorsTask actors_file (map (fun a => ident (fst a)) (cast_anchors p))])
  end.

Section Resume.

Variable normalize : string -> string.

(** How the fetch of each file settles. *)
Variable network : string -> promise response.

(** The continuation of a task, run when its fetch has settled. *)
Definition resume (t : task) (p : page) : page * promise unit :=
  match t with
  | DataTask type id json_link => getData type id (network json_link) p
  | ActorsTask json_link castAnchors =>
      getActors normalize castAnchors (network json_link) p
  end.

(** The continuations in the order their fetches settle: the page at the
    end and the promise each chain ended with. *)
Fixpoint resume_all (schedule : list task) (p : page)
  : page * list (promise unit) :=
  match schedule with
  | [] => (p, [])
  | t :: rest =>
      let '(p', pr) := resume t p in
      let '(p'', prs) := resume_all rest p' in
      (p'', pr :: prs)
  end.

(** The fetch of a task fails: the request is rejected, or the body of the
    response is not JSON, or it is JSON but no array. *)
Definition fails (t : task) : bool :=
  match network (task_link t) with
  | Rejected _ => true
  | Fulfilled res =>
      match body res with
      | None => true
      | Some (JArray _) => false
      | Some _ => true
      end
  end.

End Resume.

(** ** Definitions used to state the properties *)

(** The largest rank: an array has fewer than 2^32 elements. *)
Definition max_rank : Z := 2 ^ 32 - 1.

(** Reading a property of the value does not throw. *)
Definition has_properties (v : jsval) : bool :=
  match v with
  | JUndefined | JNull => false
  | _ => true
  end.

(** The entry is the film: the test of [getData_callback] holds. *)
Definition is_hit (id : number) (item : jsval) : bool :=
  match is_film item id with
  | Normal true => true
  | _ => false
  end.

(** The 1-based positions of the entries that satisfy [hit], the first entry
    of [items] being at index [i]. *)
Fixpoint ranks_from (hit : jsval -> bool) (items : list jsval) (i : nat)
  : list Z :=
  match items with
  | [] => []
  | item :: rest =>
      (if hit item then [Z.of_nat i + 1] else []) ++ ranks_from hit rest (S i)
  end.

(** The page after the badge path has run for each rank in turn. *)
Definition add_badges (type : Z) (ranks : list Z) (p : page) : page :=
  fold_left (fun p ranking => add_badge type ranking p) ranks p.

(** Whether the [k]-th observer of the page exists and is connected. *)
Definition connected_at (k : nat) (p : page) : bool :=
  match nth_error (observers p) k with
  | Some o => connected o
  | None => false
  end.

(** The statistic list has exactly one child of identity [i]. *)
Definition mounted_once (i : nat) (p : page) : Prop :=
  exists e children,
    statistic_list p = Some (e, children)
    /\ List.length (filter (is_node i) children) = 1%nat.

(** The page is as an [appendChild] of the observer's badge has made it,
    the statistic list having the wrap style if the observer is one of
    [addIcon]. *)
Definition mounted_by (o : observer) (p : page) : Prop :=
  exists q e children,
    p = appendChild_statistic (badge o) q
    /\ statistic_list q = Some (e, children)
    /\ (mount_of o = IconMount -> set_style "flexWrap" "wrap" e = e).

(** A node without the identities: what two nodes built alike share. *)
Definition anonymous (e : element) : element :=
  {| ident := 0; tagName := tagName e; className := className e;
     attributes := attributes e; style := style e |}.

Fixpoint structure (n : node) : node :=
  match n with
  | Element e children => Element (anonymous e) (map structure children)
  | TextNode _ => n
  end.

Definition statistics (p : page) : list node :=
  match statistic_list p with
  | Some (_, children) => children
  | None => []
  end.

(** The ranking files of the load handler, as tasks for the film [id]. *)
Definition data_tasks (id : number) : list task :=
  map (fun r => DataTask (fst r) id (snd r)) ranking_files.

Definition root_tag (n : node) : option string :=
  match n with
  | Element e _ => Some (tagName e)
  | TextNode _ => None
  end.

(** The [href] of the first anchor of a subtree, in document order. *)
Fixpoint link_of (n : node) : option string :=
  match n with
  | Element e children =>
      if has_tag "a" e then assoc "href" (attributes e)
      else first_some (map link_of children)
  | TextNode _ => None
  end.

Definition is_lower (c : ascii) : bool :=
  let n := nat_of_ascii c in ((97 <=? n) && (n <=? 122))%nat.

Definition is_digit (c : ascii) : bool :=
  let n := nat_of_ascii c in ((48 <=? n) && (n <=? 57))%nat.

Fixpoint name_tail (s : string) : bool :=
  match s with
  | EmptyString => true
  | String c rest =>
      (is_lower c || is_digit c || Ascii.eqb c "-") && name_tail rest
  end.

(** An attribute name that the DOM stores as it is written: a small letter,
    then small letters, digits and hyphens.  It has no capital letter for
    [setAttribute] to lower, and is a name under every rule the DOM has had
    for attribute names. *)
Definition attribute_name (s : string) : bool :=
  match s with
  | EmptyString => false
  | String c rest => is_lower c && name_tail rest
  end.

(** The keys of a size object are distinct attribute names, and they name
    neither the source nor the class of the image. *)
Definition size_attributes (size : list (string * string)) : Prop :=
  NoDup (map fst size)
  /\ ~ In "src" (map fst size)
  /\ ~ In "class" (map fst size)
  /\ forallb attribute_name (map fst size) = true.

(** The name [getActors_callback] pushes for an entry. *)
Definition actor_name (item : jsval) : string :=
  match get_prop item "actor" with
  | Normal actor => js_String actor
  | Throw _ => ""
  end.

(** An element whose only child is a text. *)
Definition simple_anchor (a : element * string) : node :=
  Element (fst a) [TextNode (snd a)].

Definition anchor_ident (a : element * string) : nat := ident (fst a).

(** An anchor of a row after [icon] has been appended to the anchor [target]. *)
Definition with_icon (target : nat) (icon : node) (a : element * string)
  : node :=
  if Nat.eqb (anchor_ident a) target
  then Element (fst a) [TextNode (snd a); icon]
  else simple_anchor a.

(** The cast list of the page is a row of anchors, each holding its name as
    text, with distinct identities that the page has given out. *)
Definition flat_cast (p : page) (anchors : list (element * string)) : Prop :=
  cast_list p = map simple_anchor anchors
  /\ Forall (fun a => tagName (fst a) = "a") anchors
  /\ NoDup (map anchor_ident anchors)
  /\ Forall (fun a => (anchor_ident a < next_ident p)%nat) anchors.

(** The actor file of the scenario, with its entries as the script reads
    them, and its names. *)
Definition two_actors : jsval :=
  JArray [JObject [("actor", JString "Name A")];
          JObject [("actor", JString "Name B")]].

Definition two_names : list string := ["Name A"; "Name B"].

(** ** A film page, for the scenarios *)

Module Scenario.

Definition statistic (i : nat) (text : string) : node :=
  Element {| ident := i; tagName := "div"; className := "production-statistic";
             attributes := []; style := [] |}
    [TextNode text].

Definition anchor_element (i : nat) : element :=
  {| ident := i; tagName := "a"; className := "text-slug tooltip";
     attributes := []; style := [] |}.

Definition anchor (i : nat) (name : string) : node :=
  Element (anchor_element i) [TextNode name].

(** The page of film 20: two statistics are already in the statistic list,
    the cast has two names. *)
Definition film_page : page :=
  {| next_ident := 10;
     film_poster := Some (Some [("data-film-id", "20")]);
     cast_list := [anchor 4 "Name C"; anchor 5 "Name B"];
     statistic_list :=
       Some ({| ident := 1; tagName := "div";
                className := "production-statistic-list";
                attributes := []; style := [] |},
             [statistic 2 "12K"; statistic 3 "3K"]);
     elsewhere := [];
     observers := [] |}.

(** The same page when the parent of the poster has no [data-film-id]. *)
Definition page_without_id : page :=
  {| next_ident := next_ident film_page;
     film_poster := Some (Some []);
     cast_list := cast_list film_page;
     statistic_list := statistic_list film_page;
     elsewhere := elsewhere film_page;
     observers := observers film_page |}.

Definition watched_file : string :=
  "https://raw.githubusercontent.com/afchatfield/lb-list-to-json/main/Ratings/movies_with_100000_or_more_watched.json".

Definition all_time_file : string :=
  "https://raw.githubusercontent.com/afchatfield/lb-list-to-json/main/Ratings/top_5000_all_time.json".

(** Film 20 is first of the most watched and second of all time; every
    other ranking file cannot be fetched. *)
Definition network (link : string) : promise response :=
  if String.eqb link watched_file
  then Fulfilled {| body := Some (JArray [JObject [("id", JNumber 20)]]) |}
  else if String.eqb link all_time_file
  then Fulfilled {| body := Some (JArray [JObject [("Date", JNumber 10)];
                                          JObject [("Date", JNumber 20)]]) |}
  else if String.eqb link actors_file
  then Fulfilled {| body := Some (JArray [JObject [("actor", JString "Name A")];
                                          JObject [("actor", JString "Name B")]]) |}
  else Rejected NetworkFailure.

(** Canonical composition leaves text without combining marks as it is;
    the names of the scenarios are such. *)
Definition composed (s : string) : string := s.

(** The combining acute accent U+0301 and the letter U+00E9 that it makes
    of an "e", in the bytes of the encoding the strings are kept in. *)
Definition combining_acute : string :=
  String (ascii_of_nat 204) (String (ascii_of_nat 129) "").

Definition e_acute : string :=
  String (ascii_of_nat 195) (String (ascii_of_nat 169) "").

(** Canonical composition of a text of unaccented Latin letters, spaces and
    acute accents on an "e": the letter and the accent become the one
    letter, the rest is in composed form as it stands. *)
Fixpoint compose_acute (s : string) : string :=
  match s with
  | EmptyString => EmptyString
  | String c rest =>
      match rest with
      | String c2 (String c3 rest') =>
          if Ascii.eqb c "e" && Ascii.eqb c2 (ascii_of_nat 204)
             && Ascii.eqb c3 (ascii_of_nat 129)
          then (e_acute ++ compose_acute rest')%string
          else String c (compose_acute rest)
      | _ => String c (compose_acute rest)
      end
  end.

(** The host page adds one statistic, then another two at once. *)
Definition batch : list mutation_record :=
  [{| addedNodes := [statistic 6 "1K"] |}].

Definition batch_of_two : list mutation_record :=
  [{| addedNodes := [statistic 7 "2K"; TextNode " "; statistic 8 "4K"] |}].

Definition watched_task : task := DataTask 2 (Num 20) watched_file.

(** The annotation of the most watched category, run once: the file is
    looked up, then the first batch of mutations reaches the observer. *)
Definition annotated_once : page :=
  fst (fst (deliver 0 batch (fst (resume composed network watched_task film_page)))).

(** And run a second time on the page so annotated. *)
Definition annotated_twice : page :=
  fst (fst (deliver 1 batch
              (fst (resume composed network watched_task annotated_once)))).

Definition watched_parameters : parameters :=
  {| list_path := "/el_duderinno/list/every-movie-with-more-than-100000-watched/page/";
     icon := "https://raw.githubusercontent.com/frozenpandaman/letterboxd-userscripts/master/top-2000-flame.svg";
     size := [("height", "12"); ("width", "12")] |}.

End Scenario.

(** ** Definitions for the further properties *)

From Stdlib Require DecimalPos.

(** The number that the decimal digits [d], read from the left, make of
    [acc]. *)
Fixpoint digits_value (acc : Z) (d : Decimal.uint) : Z :=
  match d with
  | Decimal.Nil => acc
  | Decimal.D0 l => digits_value (acc * 10 + 0) l
  | Decimal.D1 l => digits_value (acc * 10 + 1) l
  | Decimal.D2 l => digits_value (acc * 10 + 2) l
  | Decimal.D3 l => digits_value (acc * 10 + 3) l
  | Decimal.D4 l => digits_value (acc * 10 + 4) l
  | Decimal.D5 l => digits_value (acc * 10 + 5) l
  | Decimal.D6 l => digits_value (acc * 10 + 6) l
  | Decimal.D7 l => digits_value (acc * 10 + 7) l
  | Decimal.D8 l => digits_value (acc * 10 + 8) l
  | Decimal.D9 l => digits_value (acc * 10 + 9) l
  end.

(** What a continuation may change of a page: it adds connected observers
    after those there are and takes identities; the document stays. *)
Definition only_observes (p p' : page) : Prop :=
  (exists added,
      observers p' = observers p ++ added
      /\ Forall (fun o => connected o = true) added)
  /\ (next_ident p <= next_ident p')%nat
  /\ film_poster p' = film_poster p
  /\ cast_list p' = cast_list p
  /\ statistic_list p' = statistic_list p
  /\ elsewhere p' = elsewhere p.

(** The cast list apart, the page is the same but for identities taken. *)
Definition only_casts (p p' : page) : Prop :=
  observers p' = observers p
  /\ (next_ident p <= next_ident p')%nat
  /\ film_poster p' = film_poster p
  /\ statistic_list p' = statistic_list p
  /\ elsewhere p' = elsewhere p.

Definition is_element (n : node) : bool :=
  match n with
  | Element _ _ => true
  | TextNode _ => false
  end.

(** No element of the forest has the identity [i]. *)
Definition absent_in (i : nat) (l : list node) : Prop :=
  count_forest (fun e => Nat.eqb (ident e) i) l = 0%nat.

(** No element of the document has the identity [i]. *)
Definition absent (i : nat) (p : page) : Prop :=
  absent_in i (elsewhere p)
  /\ absent_in i (cast_list p)
  /\ absent_in i (statistics p).


(** The identities of the elements of a subtree, in document order. *)
Fixpoint idents_in (n : node) : list nat :=
  match n with
  | Element e children => ident e :: flat_map idents_in children
  | TextNode _ => []
  end.

(** The document holds no identity that [createElement] has yet to give. *)
Definition fresh (p : page) : bool :=
  forallb (fun i => (i <? next_ident p)%nat)
    (flat_map idents_in (elsewhere p)
     ++ flat_map idents_in (cast_list p)
     ++ flat_map idents_in (statistics p)).

(** The entries of a file before the first whose properties cannot be
    read. *)
Fixpoint readable (items : list jsval) : list jsval :=
  match items with
  | [] => []
  | item :: rest => if has_properties item then item :: readable rest else []
  end.

(** The badges the continuation of a task has to set up: the hits among the
    readable entries of its file, when the file is an array and the type
    code is one of [getData]. *)
Definition hits (network : string -> promise response) (t : task) : nat :=
  match t with
  | DataTask type id json_link =>
      if (1 <=? type) && (type <=? 28)
      then
        match network json_link with
        | Fulfilled res =>
            match body res with
            | Some (JArray items) =>
                List.length (filter (is_hit id) (readable items))
            | _ => 0%nat
            end
        | Rejected _ => 0%nat
        end
      else 0%nat
  | ActorsTask _ _ => 0%nat
  end.

(** The anchor [addActorIcon] builds when the next identity is [n]. *)
Definition actor_badge_at (n : nat) (ranking : Z) : node :=
  fst (actor_badge ranking actors_parameters
         {| next_ident := n; film_poster := None; cast_list := [];
            statistic_list := None; elsewhere := []; observers := [] |}).

(** A row of cast anchors as the lookup of every anchor in [names] should
    leave it: an anchor whose composed name is in the list holds, after its
    name, the icon of the rank of the first occurrence; the others are as
    they were.  [n] is the identity the next node gets. *)
Fixpoint decorate (normalize : string -> string) (names : list string)
    (anchors : list (element * string)) (n : nat) : list node :=
  match anchors with
  | [] => []
  | a :: rest =>
      let position := indexOf (normalize (snd a)) names in
      if 0 <=? position
      then Element (fst a)
             [TextNode (snd a); actor_badge_at n (position + 1)]
           :: decorate normalize names rest (S (S n))
      else simple_anchor a :: decorate normalize names rest n
  end.

(** ** The earlier version of the script

    "Letterboxd Top 2000", the script the rating icons grew from: nine
    ranking files, the film looked up by [Date] alone, and the badges
    inserted as [li] items of the [film-stats] list. *)

Module Legacy.

(** The page as the earlier script sees it:
    - [film_poster]: the attributes of
      [document.getElementsByClassName("film-poster")[0]];
    - [film_stats]: the first element of class [film-stats] and its child
      nodes;
    - [elsewhere]: the other elements of the document;
    - [observers], [next_ident]: as above. *)
Record page : Type := {
  next_ident : nat;
  film_poster : option (list (string * string));
  film_stats : option (element * list node);
  elsewhere : list node;
  observers : list observer
}.

Definition with_next_ident (n : nat) (p : page) : page :=
  {| next_ident := n; film_poster := film_poster p;
     film_stats := film_stats p; elsewhere := elsewhere p;
     observers := observers p |}.

Definition with_film_stats (s : option (element * list node)) (p : page)
  : page :=
  {| next_ident := next_ident p; film_poster := film_poster p;
     film_stats := s; elsewhere := elsewhere p; observers := observers p |}.

Definition with_elsewhere (l : list node) (p : page) : page :=
  {| next_ident := next_ident p; film_poster := film_poster p;
     film_stats := film_stats p; elsewhere := l; observers := observers p |}.

Definition with_observers (l : list observer) (p : page) : page :=
  {| next_ident := next_ident p; film_poster := film_poster p;
     film_stats := film_stats p; elsewhere := elsewhere p; observers := l |}.

Definition createElement (tag : string) (p : page) : element * page :=
  ({| ident := next_ident p; tagName := tag; className := "";
      attributes := []; style := [] |},
   with_next_ident (S (next_ident p)) p).

(** [document.getElementsByClassName(c).length] *)
Definition count_class (c : string) (p : page) : nat :=
  (count_forest (has_class c) (elsewhere p)
   + match film_stats p with
     | Some (e, children) => count_in (has_class c) (Element e children)
     | None => 0
     end)%nat.

Definition detach (i : nat) (p : page) : page :=
  with_elsewhere (remove_forest i (elsewhere p))
    (with_film_stats
       (match film_stats p with
        | Some (e, children) => Some (e, remove_forest i children)
        | None => None
        end) p).

(** *** Badges *)

(** The display parameters [getData] gives to [addIcon], by type code. *)
Definition parameters_of (type : Z) : option parameters :=
  match type with
  | 2 =>
      Some {| list_path := "/el_duderinno/list/every-movie-with-more-than-100000-watched/page/";
              icon := "https://raw.githubusercontent.com/frozenpandaman/letterboxd-userscripts/master/top-2000-flame.svg";
              size := [("height", "12"); ("width", "12")] |}
  | 3 =>
      Some {| list_path := "/prof_ratigan/list/top-5000-films-of-all-time-calculated/page/";
              icon := "https://raw.githubusercontent.com/afchatfield/lb-list-to-json/main/Icons/camera_icon.png";
              size := [("height", "16"); ("width", "16")] |}
  | 4 =>
      Some {| list_path := "/el_duderinno/list/letterboxds-top-250-highest-rated-french-1/page/";
              icon := "https://raw.githubusercontent.com/afchatfield/lb-list-to-json/main/Icons/france.png";
              size := [("height", "16"); ("width", "16")] |}
  | 5 =>
      Some {| list_path := "/el_duderinno/list/letterboxds-top-250-spanish-speaking-films/page/";
              icon := "https://raw.githubusercontent.com/afchatfield/lb-list-to-json/main/Icons/spain.png";
              size := [("height", "16"); ("width", "16")] |}
  | 6 =>
      Some {| list_path := "/slinkyman/list/letterboxds-top-250-highest-rated-british/page/";
              icon := "https://raw.githubusercontent.com/afchatfield/lb-list-to-json/main/Icons/united_kingdom.png";
              size := [("height", "16"); ("width", "16")] |}
  | 7 =>
      Some {| list_path := "/alexanderh/list/top-100-german-films-of-german-members/page/";
              icon := "https://raw.githubusercontent.com/afchatfield/lb-list-to-json/main/Icons/germany.png";
              size := [("height", "16"); ("width", "16")] |}
  | 8 =>
      Some {| list_path := "/el_duderinno/list/letterboxds-top-100-italian-films-as-rated/page/";
              icon := "https://raw.githubusercontent.com/afchatfield/lb-list-to-json/main/Icons/italy.png";
              size := [("height", "16"); ("width", "16")] |}
  | 9 =>
      Some {| list_path := "/el_duderinno/list/letterboxds-top-100-scandinavian-films-as/page/";
              icon := "https://raw.githubusercontent.com/afchatfield/lb-list-to-json/main/Icons/scandinavia.png";
              size := [("height", "16"); ("width", "16")] |}
  | _ => None
  end.

(** The elements [addCrown] builds before it creates its observer. *)
Definition crown_badge (ranking : Z) (p : page) : node * page :=
  let '(li_crown, p) := createElement "li" p in
  let '(a_crown, p) := createElement "a" p in
  let li_crown := set_className "stat" li_crown in
  let page := pageOf ranking in
  let a_crown :=
    setAttribute "href"
      ("/koenie/list/letterboxds-top-2000-narrative-feature-films/page/"
       ++ string_of_Z page)%string a_crown in
  let a_crown := set_className "has-icon icon-top250 icon-16 tooltip" a_crown in
  let '(span, p) := createElement "span" p in
  let span := set_className "icon" span in
  (Element li_crown
     [Element a_crown [Element span []; TextNode (string_of_Z ranking)]], p).

(** [parameters.size.height], [parameters.size.width]: [undefined] when the
    size has no such property, which [setAttribute] writes as a string. *)
Definition size_of (name : string) (parameters : parameters) : string :=
  match assoc name (size parameters) with
  | Some value => value
  | None => js_String JUndefined
  end.

(** The elements [addIcon] builds before it creates its observer. *)
Definition icon_badge (ranking : Z) (parameters : parameters) (p : page)
  : node * page :=
  let '(li_mov, p) := createElement "li" p in
  let li_mov := set_className "stat" li_mov in
  let '(a_mov, p) := createElement "a" p in
  let page := pageOf ranking in
  let a_mov :=
    setAttribute "href" (list_path parameters ++ string_of_Z page)%string
      a_mov in
  let a_mov := set_style "fontSize" ".92307692rem" a_mov in
  let '(movie, p) := createElement "img" p in
  let movie := setAttribute "src" (icon parameters) movie in
  let movie := setAttribute "height" (size_of "height" parameters) movie in
  let movie := setAttribute "width" (size_of "width" parameters) movie in
  let movie := set_style "float" "left" movie in
  let movie := set_style "marginLeft" "-1px" movie in
  let movie := set_style "marginRight" "3px" movie in
  (Element li_mov
     [Element a_mov [Element movie []; TextNode (string_of_Z ranking)]], p).

(** [new MutationObserver(callback).observe(document, ...)] *)
Definition observe (m : mount) (b : node) (p : page) : page :=
  with_observers
    (observers p ++ [{| mount_of := m; badge := b; connected := true |}]) p.

Definition addCrown (ranking : Z) (p : page) : page :=
  let '(li_crown, p) := crown_badge ranking p in
  observe CrownMount li_crown p.

Definition addIcon (ranking : Z) (parameters : parameters) (p : page) : page :=
  let '(li_mov, p) := icon_badge ranking parameters p in
  observe IconMount li_mov p.

(** *** Deferred mounting *)

(** [ul.appendChild(b)] *)
Definition appendChild_stats (b : node) (p : page) : page :=
  let p :=
    match node_ident b with
    | Some i => detach i p
    | None => p
    end in
  match film_stats p with
  | Some (e, children) => with_film_stats (Some (e, children ++ [b])) p
  | None => p
  end.

Record visited : Type := {
  page_after : page;
  disconnect : bool;
  appendChild_calls : nat
}.

(** The loop body of the observer of [addCrown], for an element node. *)
Definition crown_visit (li_crown : node) (p : page) : completion visited :=
  match film_stats p with
  | None => Throw TypeError
  | Some (_, children) =>
      if (1 <? count_forest (has_tag "li") children)%nat
      then
        if (count_class "filmstat-top250" p =? 0)%nat
        then Normal {| page_after := appendChild_stats li_crown p;
                       disconnect := true; appendChild_calls := 1 |}
        else Normal {| page_after := p; disconnect := true;
                       appendChild_calls := 0 |}
      else Normal {| page_after := p; disconnect := false;
                     appendChild_calls := 0 |}
  end.

(** The loop body of the observer of [addIcon], for an element node. *)
Definition icon_visit (li_mov : node) (p : page) : completion visited :=
  match film_stats p with
  | None => Throw TypeError
  | Some (_, children) =>
      if (1 <? count_forest (has_tag "li") children)%nat
      then Normal {| page_after := appendChild_stats li_mov p;
                     disconnect := true; appendChild_calls := 1 |}
      else Normal {| page_after := p; disconnect := false;
                     appendChild_calls := 0 |}
  end.

Definition visit (o : observer) (p : page) : completion visited :=
  match mount_of o with
  | CrownMount => crown_visit (badge o) p
  | IconMount => icon_visit (badge o) p
  end.

Record delivered : Type := {
  page_of : page;
  observer_of : observer;
  calls_of : nat;
  outcome : completion unit
}.

(** The two loops over the added nodes of a batch. *)
Fixpoint callback_nodes (nodes : list node) (o : observer) (p : page)
    (calls : nat) : delivered :=
  match nodes with
  | [] => {| page_of := p; observer_of := o; calls_of := calls;
             outcome := Normal tt |}
  | TextNode _ :: rest => callback_nodes rest o p calls
  | Element _ _ :: rest =>
      match visit o p with
      | Throw e => {| page_of := p; observer_of := o; calls_of := calls;
                      outcome := Throw e |}
      | Normal v =>
          callback_nodes rest
            (if disconnect v then disconnected o else o)
            (page_after v) (calls + appendChild_calls v)
      end
  end.

Definition callback (mutations : list mutation_record) (o : observer)
    (p : page) : delivered :=
  callback_nodes (flat_map addedNodes mutations) o p 0.

(** *** [getData] *)

(** [item.Date === id] *)
Definition is_film (item : jsval) (id : number) : completion bool :=
  match get_prop item "Date" with
  | Throw e => Throw e
  | Normal date => Normal (strict_eq_number date id)
  end.

(** The chain of [if (type == ...)] on a hit. *)
Definition add_badge (type : Z) (ranking : Z) (p : page) : page :=
  if type =? 1 then addCrown ranking p
  else
    match parameters_of type with
    | Some parameters => addIcon ranking parameters p
    | None => p
    end.

Definition getData_callback (type : Z) (id : number) (item : jsval) (i : nat)
    (p : page) : page * completion bool :=
  match is_film item id with
  | Throw e => (p, Throw e)
  | Normal true => (add_badge type (Z.of_nat i + 1) p, Normal false)
  | Normal false => (p, Normal false)
  end.

Definition then_ {A B : Type} (pr : promise A)
    (onFulfilled : A -> page -> page * promise B) (p : page)
  : page * promise B :=
  match pr with
  | Fulfilled a => onFulfilled a p
  | Rejected e => (p, Rejected e)
  end.

Definition getData (type : Z) (id : number) (fetched : promise response)
    (p : page) : page * promise unit :=
  let '(p, parsed) := then_ fetched (fun res p => (p, json res)) p in
  then_ parsed
    (fun out p =>
       let '(p, _, found) := find (getData_callback type id) out p in
       (p, settled (match found with
                    | Normal _ => Normal tt
                    | Throw e => Throw e
                    end)))
    p.

(** *** The load handler *)

(** [parseInt(document.getElementsByClassName("film-poster")[0]
             .getAttribute("data-film-id"))] *)
Definition film_id (p : page) : completion number :=
  match film_poster p with
  | None => Throw TypeError
  | Some attrs =>
      match assoc "data-film-id" attrs with
      | Some value => Normal (parseInt value)
      | None => Normal (parseInt (js_String JNull))
      end
  end.

Definition ranking_files : list (Z * string) :=
  [
    (1, "https://raw.githubusercontent.com/afchatfield/lb-list-to-json/main/Ratings/top_2000_highest_rated.json");
    (2, "https://raw.githubusercontent.com/afchatfield/lb-list-to-json/main/Ratings/movies_with_100000_or_more_watched.json");
    (3, "https://raw.githubusercontent.com/afchatfield/lb-list-to-json/main/Ratings/top_5000_all_time.json");
    (4, "https://raw.githubusercontent.com/afchatfield/lb-list-to-json/main/Ratings/top_250_french_films_by_french_users.json");
    (5, "https://raw.githubusercontent.com/afchatfield/lb-list-to-json/main/Ratings/top_250_spanish_films_by_spanish_users.json");
    (6, "https://raw.githubusercontent.com/afchatfield/lb-list-to-json/main/Ratings/top_250_british_films_by_british_users.json");
    (7, "https://raw.githubusercontent.com/afchatfield/lb-list-to-json/main/Ratings/top_100_german_films_by_german_users.json");
    (8, "https://raw.githubusercontent.com/afchatfield/lb-list-to-json/main/Ratings/top_100_italian_films_by_italian_users.json");
    (9, "https://raw.githubusercontent.com/afchatfield/lb-list-to-json/main/Ratings/top_100_scandinavian_films_by_scandinavian_users.json")
  ].

Definition load (p : page) : completion (list task) :=
  match film_id p with
  | Throw e => Throw e
  | Normal id => Normal (map (fun r => DataTask (fst r) id (snd r)) ranking_files)
  end.

(** *** Definitions used to state the properties *)

Definition is_hit (id : number) (item : jsval) : bool :=
  match is_film item id with
  | Normal true => true
  | _ => false
  end.

Definition add_badges (type : Z) (ranks : list Z) (p : page) : page :=
  fold_left (fun p ranking => add_badge type ranking p) ranks p.

Definition stats (p : page) : list node :=
  match film_stats p with
  | Some (_, children) => children
  | None => []
  end.

(** The document holds no identity that [createElement] has yet to give. *)
Definition fresh (p : page) : bool :=
  forallb (fun i => (i <? next_ident p)%nat)
    (flat_map idents_in (elsewhere p) ++ flat_map idents_in (stats p)).

(** A film page of the earlier layout: two statistics are in the list. *)
Definition film_page : page :=
  {| next_ident := 10;
     film_poster := Some [("data-film-id", "20")];
     film_stats :=
       Some ({| ident := 1; tagName := "ul"; className := "film-stats";
                attributes := []; style := [] |},
             [Element {| ident := 2; tagName := "li";
                         className := "stat filmstat-watches";
                         attributes := []; style := [] |} [TextNode "12K"];
              Element {| ident := 3; tagName := "li";
                         className := "stat filmstat-lists";
                         attributes := []; style := [] |} [TextNode "3K"]]);
     elsewhere := [];
     observers := [] |}.

End Legacy.

(** An entry of a ranking file in the earlier format: an object without an
    [id] property. *)
Definition keyed_by_date (item : jsval) : bool :=
  match item with
  | JObject fields =>
      match assoc "id" fields with
      | None => true
      | Some _ => false
      end
  | _ => false
  end.

(** An entry without a [Date] property. *)
Definition keyed_by_id (item : jsval) : bool :=
  match item with
  | JObject fields =>
      match assoc "Date" fields with
      | None => true
      | Some _ => false
      end
  | _ => false
  end.

(** ** The first version of the script

    Three ranking files and a function for each badge; the page and the
    observers are those of the version that followed it. *)

Module Top2000.

(** The elements [addCrown] builds before it creates its observer. *)
Definition crown_badge (ranking : Z) (p : Legacy.page) : node * Legacy.page :=
  let '(li_crown, p) := Legacy.createElement "li" p in
  let '(a_crown, p) := Legacy.createElement "a" p in
  let li_crown := set_className "stat" li_crown in
  let page := pageOf ranking in
  let a_crown :=
    setAttribute "href"
      ("/el_duderinno/list/letterboxds-top-2000-narrative-feature-films/page/"
       ++ string_of_Z page)%string a_crown in
  let a_crown := set_className "has-icon icon-top250 icon-16 tooltip" a_crown in
  let '(span, p) := Legacy.createElement "span" p in
  let span := set_className "icon" span in
  (Element li_crown
     [Element a_crown [Element span []; TextNode (string_of_Z ranking)]], p).

(** The elements [addFire] builds before it creates its observer. *)
Definition fire_badge (ranking : Z) (p : Legacy.page) : node * Legacy.page :=
  let '(li_fire, p) := Legacy.createElement "li" p in
  let li_fire := set_className "stat" li_fire in
  let '(a_fire, p) := Legacy.createElement "a" p in
  let page := pageOf ranking in
  let a_fire :=
    setAttribute "href"
      ("/el_duderinno/list/top-2000-most-watched/page/"
       ++ string_of_Z page)%string a_fire in
  let a_fire := set_style "fontSize" ".92307692rem" a_fire in
  let '(fire, p) := Legacy.createElement "img" p in
  let fire :=
    setAttribute "src"
      "https://raw.githubusercontent.com/frozenpandaman/letterboxd-userscripts/master/top-2000-flame.svg"
      fire in
  let fire := setAttribute "height" "12" fire in
  let fire := setAttribute "width" "12" fire in
  let fire := set_style "float" "left" fire in
  let fire := set_style "paddingTop" "1px" fire in
  let fire := set_style "marginLeft" "-1px" fire in
  let fire := set_style "marginRight" "3px" fire in
  (Element li_fire
     [Element a_fire [Element fire []; TextNode (string_of_Z ranking)]], p).

(** The elements [addMovie] builds before it creates its observer. *)
Definition movie_badge (ranking : Z) (p : Legacy.page) : node * Legacy.page :=
  let '(li_mov, p) := Legacy.createElement "li" p in
  let li_mov := set_className "stat" li_mov in
  let '(a_mov, p) := Legacy.createElement "a" p in
  let page := pageOf ranking in
  let a_mov :=
    setAttribute "href"
      ("/prof_ratigan/list/top-5000-films-of-all-time-calculated/page/"
       ++ string_of_Z page)%string a_mov in
  let a_mov := set_style "fontSize" ".92307692rem" a_mov in
  let '(movie, p) := Legacy.createElement "img" p in
  let movie :=
    setAttribute "src"
      "https://raw.githubusercontent.com/afchatfield/lb-list-to-json/main/camera_icon.png"
      movie in
  let movie := setAttribute "height" "16" movie in
  let movie := setAttribute "width" "16" movie in
  let movie := set_style "float" "left" movie in
  let movie := set_style "marginLeft" "-1px" movie in
  let movie := set_style "marginRight" "3px" movie in
  (Element li_mov
     [Element a_mov [Element movie []; TextNode (string_of_Z ranking)]], p).

Definition addCrown (ranking : Z) (p : Legacy.page) : Legacy.page :=
  let '(li_crown, p) := crown_badge ranking p in
  Legacy.observe CrownMount li_crown p.

Definition addFire (ranking : Z) (p : Legacy.page) : Legacy.page :=
  let '(li_fire, p) := fire_badge ranking p in
  Legacy.observe IconMount li_fire p.

Definition addMovie (ranking : Z) (p : Legacy.page) : Legacy.page :=
  let '(li_mov, p) := movie_badge ranking p in
  Legacy.observe IconMount li_mov p.

(** The chain of [if (type == ...)] on a hit, with its final [else]. *)
Definition add_badge (type : Z) (ranking : Z) (p : Legacy.page)
  : Legacy.page :=
  if type =? 1 then addCrown ranking p
  else if type =? 2 then addFire ranking p
  else addMovie ranking p.

Definition getData_callback (type : Z) (id : number) (item : jsval) (i : nat)
    (p : Legacy.page) : Legacy.page * completion bool :=
  match Legacy.is_film item id with
  | Throw e => (p, Throw e)
  | Normal true => (add_badge type (Z.of_nat i + 1) p, Normal false)
  | Normal false => (p, Normal false)
  end.

Definition getData (type : Z) (id : number) (fetched : promise response)
    (p : Legacy.page) : Legacy.page * promise unit :=
  let '(p, parsed) := Legacy.then_ fetched (fun res p => (p, json res)) p in
  Legacy.then_ parsed
    (fun out p =>
       let '(p, _, found) := find (getData_callback type id) out p in
       (p, settled (match found with
                    | Normal _ => Normal tt
                    | Throw e => Throw e
                    end)))
    p.

(** The parameters with which the [addIcon] that came later builds the
    badge of [addMovie]. *)
Definition movie_parameters : parameters :=
  {| list_path := "/prof_ratigan/list/top-5000-films-of-all-time-calculated/page/";
     icon := "https://raw.githubusercontent.com/afchatfield/lb-list-to-json/main/camera_icon.png";
     size := [("height", "16"); ("width", "16")] |}.

End Top2000.
(** * Properties *)

(** ** Page numbers *)

Example string_of_Z_150 : string_of_Z 150 = "150".
Proof. reflexivity. Qed.

Example parseInt_null : parseInt (js_String JNull) = NaN.
Proof. reflexivity. Qed.

Example parseInt_px : parseInt " 51817px" = Num 51817.
Proof. reflexivity. Qed.

Lemma pageOf_floor (r : Z) : 0 <= r -> pageOf r = r / 100 + 1.
Proof.
  intros Hr. unfold pageOf. now rewrite Z.quot_div_nonneg by lia.
Qed.

Lemma pageOf_mono (r s : Z) : r <= s -> pageOf r <= pageOf s.
Proof.
  intros Hrs. unfold pageOf.
  assert (r ÷ 100 <= s ÷ 100) by (apply Z.quot_le_mono; lia).
  lia.
Qed.

(** C1, as the claim states it, fails at rank 100: the rank is within 1..100
    and its page is 2, not 1. *)
Lemma pageOf_100_is_not_1 : 1 <= 100 <= 100 /\ pageOf 100 = 2 /\ pageOf 100 <> 1.
Proof. repeat split; try lia; vm_compute; congruence. Qed.

Lemma badge_links (ranking : Z) (parameters : parameters) (p : page) :
  link_of (fst (icon_badge ranking parameters p))
  = Some (list_path parameters ++ string_of_Z (pageOf ranking))%string
  /\ link_of (fst (actor_badge ranking parameters p))
     = Some (list_path parameters ++ string_of_Z (pageOf ranking))%string
  /\ link_of (fst (createTop250Element ranking p))
     = Some ("/el_duderinno/list/letterboxds-top-2000-narrative-feature-films-1/page/"
             ++ string_of_Z (pageOf ranking))%string.
Proof. repeat split; reflexivity. Qed.

(** C1 (amended): the link of every badge ends with the page number
    [pageOf]; the page number is floor(rank / 100) + 1 for the ranks of an
    array, it is monotonic non-decreasing in the rank, it is 1 for every
    rank in 1..99, 2 for rank 101 and 3 for rank 200. *)
Theorem pageOf_spec :
  (forall (ranking : Z) (parameters : parameters) (p : page),
      link_of (fst (icon_badge ranking parameters p))
      = Some (list_path parameters ++ string_of_Z (pageOf ranking))%string
      /\ link_of (fst (actor_badge ranking parameters p))
         = Some (list_path parameters ++ string_of_Z (pageOf ranking))%string
      /\ link_of (fst (createTop250Element ranking p))
         = Some ("/el_duderinno/list/letterboxds-top-2000-narrative-feature-films-1/page/"
                 ++ string_of_Z (pageOf ranking))%string) /\
  (forall r, 1 <= r <= max_rank -> pageOf r = r / 100 + 1) /\
  (forall r s, 1 <= r -> r <= s -> s <= max_rank -> pageOf r <= pageOf s) /\
  (forall r, 1 <= r <= 99 -> pageOf r = 1) /\
  pageOf 101 = 2 /\
  pageOf 200 = 3.
Proof.
  split; [| split; [| split; [| split; [| split]]]].
  - apply badge_links.
  - intros r Hr. apply pageOf_floor. lia.
  - intros r s _ Hrs _. now apply pageOf_mono.
  - intros r Hr. rewrite pageOf_floor by lia.
    rewrite Z.div_small by lia. reflexivity.
  - reflexivity.
  - reflexivity.
Qed.

Lemma pageOf_spec_witness :
  pageOf 150 = 150 / 100 + 1 /\ pageOf 7 <= pageOf 250 /\ pageOf 99 = 1.
Proof.
  destruct pageOf_spec as (_ & Hfloor & Hmono & Hfirst & _).
  split; [| split].
  - apply Hfloor. unfold max_rank. lia.
  - apply Hmono; unfold max_rank; lia.
  - apply Hfirst. lia.
Defined.

(** ** The scan of a ranking file *)

Lemma is_film_has_properties (id : number) (item : jsval) :
  has_properties item = true -> is_film item id = Normal (is_hit id item).
Proof.
  intros Hitem. unfold is_hit, is_film.
  destruct item as [| | b | z | s | elems | fields]; try discriminate Hitem;
    cbn [get_prop]; try reflexivity.
  destruct (assoc "Date" fields) as [date |];
    [destruct (strict_eq_number date id); [reflexivity |] |];
    destruct (assoc "id" fields) as [v |]; cbn;
    try destruct (strict_eq_number v id); reflexivity.
Qed.

Lemma getData_callback_falsy (type : Z) (id : number) (item : jsval) (i : nat)
    (p : page) :
  snd (getData_callback type id item i p) <> Normal true.
Proof.
  unfold getData_callback.
  destruct (is_film item id) as [[|] | e]; cbn; discriminate.
Qed.

Lemma find_from_getData_callback (type : Z) (id : number) (items : list jsval) :
  forallb has_properties items = true ->
  forall (i : nat) (p : page),
    find_from (getData_callback type id) items i p
    = (add_badges type (ranks_from (is_hit id) items i) p,
       List.length items, Normal JUndefined).
Proof.
  induction items as [| item rest IH]; intros Hitems i p.
  - reflexivity.
  - cbn [forallb] in Hitems. apply andb_prop in Hitems as [Hitem Hrest].
    cbn [find_from ranks_from]. unfold getData_callback at 1.
    rewrite (is_film_has_properties id item Hitem).
    destruct (is_hit id item); rewrite (IH Hrest); reflexivity.
Qed.

Lemma getData_array (type : Z) (id : number) (items : list jsval) (p : page) :
  forallb has_properties items = true ->
  getData type id (Fulfilled {| body := Some (JArray items) |}) p
  = (add_badges type (ranks_from (is_hit id) items 0) p, Fulfilled tt).
Proof.
  intros Hitems. unfold getData, then_, json. cbn [body find].
  now rewrite find_from_getData_callback.
Qed.

Lemma ranks_from_none (hit : jsval -> bool) (items : list jsval) (i : nat) :
  (forall item, In item items -> hit item = false) ->
  ranks_from hit items i = [].
Proof.
  revert i. induction items as [| item rest IH]; intros i Hnone.
  - reflexivity.
  - cbn [ranks_from]. rewrite (Hnone item) by now left.
    apply IH. intros x Hx. apply Hnone. now right.
Qed.

Lemma ranks_from_once (hit : jsval -> bool) (items : list jsval) :
  forall (n i : nat),
    (i < List.length items)%nat ->
    (forall j item, nth_error items j = Some item -> hit item = Nat.eqb j i) ->
    ranks_from hit items n = [Z.of_nat (n + i) + 1].
Proof.
  induction items as [| item rest IH]; intros n i Hi Honce.
  - cbn in Hi. lia.
  - cbn [ranks_from]. destruct i as [| i].
    + rewrite (Honce 0%nat item eq_refl). cbn [Nat.eqb].
      rewrite ranks_from_none.
      * now rewrite Nat.add_0_r.
      * intros x Hx. apply In_nth_error in Hx as [j Hj].
        now rewrite (Honce (S j) x Hj).
    + rewrite (Honce 0%nat item eq_refl). cbn [Nat.eqb app].
      rewrite (IH (S n) i).
      * now replace (S n + i)%nat with (n + S i)%nat by lia.
      * cbn in Hi. lia.
      * intros j x Hj. now rewrite (Honce (S j) x Hj).
Qed.

Lemma ranks_from_length (hit : jsval -> bool) (items : list jsval) (i : nat) :
  List.length (ranks_from hit items i) = List.length (filter hit items).
Proof.
  revert i. induction items as [| item rest IH]; intros i.
  - reflexivity.
  - cbn [ranks_from filter]. rewrite length_app, IH.
    now destruct (hit item).
Qed.

Lemma parameters_of_registered (type : Z) :
  2 <= type <= 28 -> parameters_of type <> None.
Proof.
  intros Htype.
  destruct type as [| q | q]; try lia.
  do 5 (try destruct q as [q | q |]); try lia; cbn; discriminate.
Qed.

Lemma icon_badge_observers (ranking : Z) (parameters : parameters) (p : page) :
  observers (snd (icon_badge ranking parameters p)) = observers p.
Proof. reflexivity. Qed.

Lemma createTop250Element_observers (ranking : Z) (p : page) :
  observers (snd (createTop250Element ranking p)) = observers p.
Proof. reflexivity. Qed.

Lemma add_badge_observers (type ranking : Z) (p : page) :
  1 <= type <= 28 ->
  List.length (observers (add_badge type ranking p)) = S (List.length (observers p)).
Proof.
  intros Htype. unfold add_badge.
  destruct (Z.eqb_spec type 1) as [-> | Hne].
  - unfold addCrown, observe. cbn. rewrite length_app. cbn. lia.
  - destruct (parameters_of type) as [parameters |] eqn:Hparams.
    + unfold addIcon, observe. cbn. rewrite length_app. cbn. lia.
    + exfalso. apply (parameters_of_registered type); [lia | assumption].
Qed.

Lemma add_badges_observers (type : Z) (ranks : list Z) (p : page) :
  1 <= type <= 28 ->
  List.length (observers (add_badges type ranks p))
  = (List.length (observers p) + List.length ranks)%nat.
Proof.
  intros Htype. revert p. unfold add_badges.
  induction ranks as [| r rest IH]; intros p; cbn [fold_left List.length].
  - lia.
  - rewrite IH, add_badge_observers by assumption. lia.
Qed.

(** C3: in a ranking file whose entries can be read, a film that is the entry
    at index [i] and no other makes [getData] run the badge path once, with
    the rank [i + 1]; in the file [{id: 10}, {id: 20}, {id: 30}] the film 20
    has rank 2, on page 1. *)
Theorem getData_rank :
  (forall (type : Z) (id : number) (items : list jsval) (i : nat) (p : page),
      forallb has_properties items = true ->
      (i < List.length items)%nat ->
      (forall j item,
          nth_error items j = Some item -> is_hit id item = Nat.eqb j i) ->
      getData type id (Fulfilled {| body := Some (JArray items) |}) p
      = (add_badge type (Z.of_nat i + 1) p, Fulfilled tt)) /\
  (forall (type : Z) (p : page),
      getData type (Num 20)
        (Fulfilled
           {| body := Some (JArray [JObject [("id", JNumber 10)];
                                    JObject [("id", JNumber 20)];
                                    JObject [("id", JNumber 30)]]) |}) p
      = (add_badge type 2 p, Fulfilled tt)) /\
  pageOf 2 = 1.
Proof.
  split; [| split].
  - intros type id items i p Hitems Hi Honce.
    rewrite getData_array by assumption.
    now rewrite (ranks_from_once (is_hit id) items 0 i Hi Honce).
  - intros type p. now rewrite getData_array.
  - reflexivity.
Qed.

Lemma getData_rank_witness :
  getData 2 (Num 20)
    (Fulfilled
       {| body := Some (JArray [JObject [("Date", JNumber 10)];
                                JObject [("Date", JNumber 20)]]) |})
    {| next_ident := 0; film_poster := None; cast_list := [];
       statistic_list := None; elsewhere := []; observers := [] |}
  = (add_badge 2 (Z.of_nat 1 + 1)
       {| next_ident := 0; film_poster := None; cast_list := [];
          statistic_list := None; elsewhere := []; observers := [] |},
     Fulfilled tt).
Proof.
  apply (proj1 getData_rank).
  - reflexivity.
  - simpl. lia.
  - intros [| [| j]] item Hj; simpl in Hj.
    + injection Hj as <-. reflexivity.
    + injection Hj as <-. reflexivity.
    + destruct j; discriminate Hj.
Defined.

(** C9: for a film that no entry of a ranking file is, the scan finds nothing
    and does not throw: the chain ends fulfilled and the page is as it was,
    without a badge or an observer added. *)
Theorem getData_miss (type : Z) (id : number) (items : list jsval) (p : page) :
  forallb has_properties items = true ->
  (forall item, In item items -> is_hit id item = false) ->
  find (getData_callback type id) (JArray items) p
  = (p, List.length items, Normal JUndefined) /\
  getData type id (Fulfilled {| body := Some (JArray items) |}) p
  = (p, Fulfilled tt).
Proof.
  intros Hitems Hmiss. split.
  - cbn [find]. rewrite find_from_getData_callback by assumption.
    now rewrite ranks_from_none.
  - rewrite getData_array by assumption. now rewrite ranks_from_none.
Qed.

Lemma getData_miss_witness :
  find (getData_callback 3 (Num 40))
    (JArray [JObject [("id", JNumber 10)]; JObject [("Date", JNumber 20)]])
    {| next_ident := 0; film_poster := None; cast_list := [];
       statistic_list := None; elsewhere := []; observers := [] |}
  = ({| next_ident := 0; film_poster := None; cast_list := [];
        statistic_list := None; elsewhere := []; observers := [] |},
     2%nat, Normal JUndefined) /\
  getData 3 (Num 40)
    (Fulfilled
       {| body := Some (JArray [JObject [("id", JNumber 10)];
                                JObject [("Date", JNumber 20)]]) |})
    {| next_ident := 0; film_poster := None; cast_list := [];
       statistic_list := None; elsewhere := []; observers := [] |}
  = ({| next_ident := 0; film_poster := None; cast_list := [];
        statistic_list := None; elsewhere := []; observers := [] |},
     Fulfilled tt).
Proof.
  apply getData_miss.
  - reflexivity.
  - intros item [<- | [<- | []]]; reflexivity.
Defined.

(** C10: the function given to [find] never returns a truthy value, so the
    scan visits every entry of the file; the badge path runs once for each
    entry that is the film, with that entry's rank, so a film that occurs at
    several indices gets as many badge observers as it has occurrences. *)
Theorem getData_scans_all :
  (forall (type : Z) (id : number) (item : jsval) (i : nat) (p : page),
      snd (getData_callback type id item i p) <> Normal true) /\
  (forall (type : Z) (id : number) (items : list jsval) (p : page),
      forallb has_properties items = true ->
      find (getData_callback type id) (JArray items) p
      = (add_badges type (ranks_from (is_hit id) items 0) p,
         List.length items, Normal JUndefined)
      /\ List.length (ranks_from (is_hit id) items 0)
         = List.length (filter (is_hit id) items)
      /\ (1 <= type <= 28 ->
          List.length (observers (add_badges type (ranks_from (is_hit id) items 0) p))
          = (List.length (observers p) + List.length (filter (is_hit id) items))%nat)).
Proof.
  split.
  - apply getData_callback_falsy.
  - intros type id items p Hitems. split; [| split].
    + cbn [find]. now apply find_from_getData_callback.
    + apply ranks_from_length.
    + intros Htype. rewrite add_badges_observers by assumption.
      now rewrite ranks_from_length.
Qed.

Lemma getData_scans_all_witness :
  let p := {| next_ident := 0; film_poster := None; cast_list := [];
              statistic_list := None; elsewhere := []; observers := [] |} in
  let items := [JObject [("id", JNumber 7)]; JObject [("id", JNumber 9)];
                JObject [("Date", JNumber 7)]] in
  find (getData_callback 4 (Num 7)) (JArray items) p
  = (add_badges 4 [1; 3] p, 3%nat, Normal JUndefined)
  /\ List.length (observers (add_badges 4 [1; 3] p)) = 2%nat.
Proof.
  intros p items.
  destruct (proj2 getData_scans_all 4 (Num 7) items p eq_refl)
    as (Hfind & _ & Hobservers).
  split.
  - exact Hfind.
  - apply Hobservers. lia.
Defined.

(** ** Deferred mounting *)

Lemma nth_error_set_nth_eq {A : Type} (k : nat) (x : A) (l : list A) :
  (k < List.length l)%nat -> nth_error (set_nth k x l) k = Some x.
Proof.
  revert k. induction l as [| y rest IH]; intros k Hk; cbn in Hk.
  - lia.
  - destruct k as [| k]; cbn; [reflexivity | apply IH; lia].
Qed.

Lemma nth_error_set_nth_neq {A : Type} (j k : nat) (x : A) (l : list A) :
  j <> k -> nth_error (set_nth k x l) j = nth_error l j.
Proof.
  revert j k. induction l as [| y rest IH]; intros j k Hjk.
  - now destruct k.
  - destruct k as [| k], j as [| j]; cbn; try reflexivity; try congruence.
    apply IH. congruence.
Qed.

Lemma detach_observers (i : nat) (p : page) :
  observers (detach i p) = observers p.
Proof. reflexivity. Qed.

Lemma appendChild_statistic_observers (b : node) (p : page) :
  observers (appendChild_statistic b p) = observers p.
Proof.
  unfold appendChild_statistic.
  destruct (node_ident b) as [i |];
    [destruct (statistic_list (detach i p)) as [[e children] |]
    | destruct (statistic_list p) as [[e children] |]]; reflexivity.
Qed.

(** The cases of one turn of the loops: the kind of observer, whether the
    statistic list is there and ready, whether the page has a crown. *)
Tactic Notation "visit_cases" constr(o) constr(p)
    "as" ident(e) ident(children) ident(Hp) :=
  unfold visit, crown_visit, icon_visit;
  destruct (mount_of o);
  destruct (statistic_list p) as [[e children] |] eqn:Hp;
  try discriminate;
  destruct (1 <? count_forest (has_tag "div") children)%nat;
  try match goal with
      | |- context [(count_class "-top250" p =? 0)%nat] =>
          destruct (count_class "-top250" p =? 0)%nat
      end.

Lemma visit_observers (o : observer) (p : page) (v : visited) :
  visit o p = Normal v -> observers (page_after v) = observers p.
Proof.
  visit_cases o p as e children Hp;
    intros [= <-]; cbn [page_after];
    now rewrite ?appendChild_statistic_observers.
Qed.

Lemma visit_calls_disconnect (o : observer) (p : page) (v : visited) :
  visit o p = Normal v ->
  (0 < appendChild_calls v)%nat -> disconnect v = true.
Proof.
  visit_cases o p as e children Hp;
    intros [= <-]; cbn; intros; (reflexivity || lia).
Qed.

Lemma visit_disconnected (o : observer) (p : page) :
  visit (disconnected o) p = visit o p.
Proof. reflexivity. Qed.

Lemma callback_nodes_observers (nodes : list node) :
  forall (o : observer) (p : page) (calls : nat),
    observers (page_of (callback_nodes nodes o p calls)) = observers p.
Proof.
  induction nodes as [| [e children | data] rest IH]; intros o p calls;
    cbn [callback_nodes].
  - reflexivity.
  - destruct (visit o p) as [v | err] eqn:Hvisit; [| reflexivity].
    rewrite IH. now apply (visit_observers o).
  - apply IH.
Qed.

(** A callback run only ever disconnects, and it has disconnected when it
    has called [appendChild]. *)
Lemma callback_nodes_connected (nodes : list node) :
  forall (o : observer) (p : page) (calls : nat),
    let d := callback_nodes nodes o p calls in
    (calls <= calls_of d)%nat
    /\ (connected o = false -> connected (observer_of d) = false)
    /\ ((calls < calls_of d)%nat -> connected (observer_of d) = false).
Proof.
  induction nodes as [| [e children | data] rest IH]; intros o p calls;
    cbn [callback_nodes].
  - cbn. repeat split; auto; lia.
  - destruct (visit o p) as [v | err] eqn:Hvisit.
    + destruct (IH (if disconnect v then disconnected o else o)
                  (page_after v) (calls + appendChild_calls v)%nat)
        as (Hle & Hkeep & Hnew).
      split; [lia | split].
      * intros Ho. apply Hkeep. now destruct (disconnect v).
      * intros Hlt.
        destruct (Nat.eq_dec (appendChild_calls v) 0) as [Hzero | Hpos].
        -- apply Hnew. lia.
        -- apply Hkeep.
           rewrite (visit_calls_disconnect o p v Hvisit) by lia.
           reflexivity.
    + cbn. repeat split; auto; lia.
  - apply IH.
Qed.

Lemma deliver_disconnected (k : nat) (mutations : list mutation_record)
    (p : page) :
  connected_at k p = false -> deliver k mutations p = (p, 0%nat, Normal tt).
Proof.
  unfold connected_at, deliver.
  destruct (nth_error (observers p) k) as [o |]; [| reflexivity].
  now intros ->.
Qed.

Lemma deliver_connected_at (k : nat) (mutations : list mutation_record)
    (p : page) (j : nat) :
  connected_at j p = false ->
  connected_at j (fst (fst (deliver k mutations p))) = false.
Proof.
  intros Hj. unfold deliver.
  destruct (nth_error (observers p) k) as [o |] eqn:Hk; [| exact Hj].
  destruct (connected o) eqn:Ho; [| exact Hj].
  cbn [fst]. unfold connected_at, callback. cbn [observers with_observers].
  rewrite callback_nodes_observers.
  destruct (Nat.eq_dec j k) as [-> | Hjk].
  - unfold connected_at in Hj. rewrite Hk in Hj. congruence.
  - now rewrite nth_error_set_nth_neq.
Qed.

Lemma deliver_inserting (k : nat) (mutations : list mutation_record)
    (p : page) :
  (0 < snd (fst (deliver k mutations p)))%nat ->
  connected_at k (fst (fst (deliver k mutations p))) = false.
Proof.
  unfold deliver.
  destruct (nth_error (observers p) k) as [o |] eqn:Hk; [| cbn; lia].
  destruct (connected o) eqn:Ho; [| cbn; lia].
  cbn [fst snd]. intros Hcalls.
  unfold connected_at. cbn [observers with_observers].
  unfold callback. rewrite callback_nodes_observers.
  rewrite nth_error_set_nth_eq.
  - now apply callback_nodes_connected.
  - apply nth_error_Some. congruence.
Qed.

Lemma step_connected_at (ev : event) (p : page) (j : nat) :
  connected_at j p = false -> connected_at j (fst (step ev p)) = false.
Proof.
  intros Hj. destruct ev as [document | k mutations]; cbn [step].
  - exact Hj.
  - pose proof (deliver_connected_at k mutations p j Hj) as H.
    destruct (deliver k mutations p) as [[p' calls] c]. exact H.
Qed.

Lemma step_disconnected (ev : event) (p : page) (k : nat) :
  connected_at k p = false -> filter (inserting k) (snd (step ev p)) = [].
Proof.
  intros Hk. destruct ev as [document | j mutations]; cbn [step].
  - reflexivity.
  - destruct (Nat.eq_dec j k) as [-> | Hjk].
    + rewrite deliver_disconnected by assumption. cbn.
      unfold inserting. cbn. now rewrite andb_false_r.
    + destruct (deliver j mutations p) as [[p' calls] c]. cbn.
      unfold inserting. cbn [fst].
      destruct (Nat.eqb_spec j k); [congruence | reflexivity].
Qed.

Lemma step_inserting (ev : event) (p : page) (k : nat) :
  filter (inserting k) (snd (step ev p)) = []
  \/ (List.length (filter (inserting k) (snd (step ev p))) = 1%nat
      /\ connected_at k (fst (step ev p)) = false).
Proof.
  destruct ev as [document | j mutations]; cbn [step].
  - now left.
  - pose proof (deliver_inserting j mutations p) as Hins.
    destruct (deliver j mutations p) as [[p' calls] c]. cbn in *.
    unfold inserting. cbn [fst snd].
    destruct (Nat.eqb_spec j k) as [-> | Hjk]; [| now left].
    destruct (Nat.ltb_spec 0 calls) as [Hpos | Hzero]; [| now left].
    right. split; [reflexivity | now apply Hins].
Qed.

Lemma run_disconnected (k : nat) (events : list event) :
  forall p : page,
    connected_at k p = false ->
    filter (inserting k) (snd (run events p)) = []
    /\ connected_at k (fst (run events p)) = false.
Proof.
  induction events as [| ev rest IH]; intros p Hk; cbn [run].
  - now split.
  - pose proof (step_connected_at ev p k Hk) as Hnext.
    pose proof (step_disconnected ev p k Hk) as Hlog.
    destruct (step ev p) as [p' log]. cbn [fst snd] in *.
    destruct (IH p' Hnext) as [Hrest Hend].
    destruct (run rest p') as [p'' log']. cbn [fst snd] in *.
    now rewrite filter_app, Hlog, Hrest.
Qed.

Lemma run_inserts_once (k : nat) (events : list event) :
  forall p : page,
    (List.length (filter (inserting k) (snd (run events p))) <= 1)%nat.
Proof.
  induction events as [| ev rest IH]; intros p; cbn [run].
  - cbn. lia.
  - pose proof (step_inserting ev p k) as Hstep.
    destruct (step ev p) as [p' log]. cbn [fst snd] in *.
    pose proof (IH p') as Hrest.
    pose proof (run_disconnected k rest p') as Hdone.
    destruct (run rest p') as [p'' log']. cbn [fst snd] in *.
    rewrite filter_app, length_app.
    destruct Hstep as [-> | [-> Hoff]].
    + cbn. exact Hrest.
    + destruct (Hdone Hoff) as [-> _]. cbn. lia.
Qed.

Lemma filter_is_node_removed (i : nat) (l : list node) :
  filter (is_node i) (filter (fun c => negb (is_node i c)) l) = [].
Proof.
  induction l as [| c rest IH]; [reflexivity |].
  cbn [filter]. destruct (is_node i c) eqn:Hc; cbn [negb filter].
  - exact IH.
  - now rewrite Hc.
Qed.

Lemma node_ident_is_node (b : node) (i : nat) :
  node_ident b = Some i -> is_node i b = true.
Proof.
  destruct b as [e children | data]; [| discriminate].
  intros [= <-]. cbn. apply Nat.eqb_refl.
Qed.

Lemma appendChild_statistic_mounted (b : node) (i : nat) (p : page) :
  node_ident b = Some i ->
  statistic_list p <> None ->
  mounted_once i (appendChild_statistic b p).
Proof.
  intros Hb Hlist. unfold appendChild_statistic. rewrite Hb.
  destruct (statistic_list p) as [[e children] |] eqn:Hp; [| congruence].
  unfold detach. cbn [statistic_list with_elsewhere with_cast_list
                      with_statistic_list].
  rewrite Hp. exists e, (remove_forest i children ++ [b]). split.
  - reflexivity.
  - rewrite filter_app. unfold remove_forest.
    rewrite filter_is_node_removed. cbn [filter app].
    now rewrite (node_ident_is_node b i Hb).
Qed.

Lemma visit_mounted (o : observer) (p : page) (v : visited) (i : nat) :
  visit o p = Normal v ->
  node_ident (badge o) = Some i ->
  ((0 < appendChild_calls v)%nat -> mounted_once i (page_after v))
  /\ (mounted_once i p -> mounted_once i (page_after v)).
Proof.
  intros Hvisit Hb. revert Hvisit.
  visit_cases o p as e children Hp;
    intros Hvisit;
    injection Hvisit as <-; cbn [page_after appendChild_calls];
    split; intros H;
    try (exfalso; lia); try exact H;
    try (apply appendChild_statistic_mounted;
         [assumption | cbn; congruence]).
  destruct H as (e' & children' & Hlist & Honce).
  rewrite Hp in Hlist. injection Hlist as <- <-.
  now exists (set_style "flexWrap" "wrap" e), children.
Qed.

Lemma callback_nodes_mounted (i : nat) (nodes : list node) :
  forall (o : observer) (p : page) (calls : nat),
    node_ident (badge o) = Some i ->
    ((0 < calls)%nat -> mounted_once i p) ->
    (0 < calls_of (callback_nodes nodes o p calls))%nat ->
    mounted_once i (page_of (callback_nodes nodes o p calls)).
Proof.
  induction nodes as [| [e children | data] rest IH];
    intros o p calls Hb Hinv; cbn [callback_nodes].
  - exact Hinv.
  - destruct (visit o p) as [v | err] eqn:Hvisit; [| exact Hinv].
    destruct (visit_mounted o p v i Hvisit Hb) as [Hnew Hkeep].
    apply IH.
    + now destruct (disconnect v).
    + intros Hcalls.
      destruct (Nat.eq_dec (appendChild_calls v) 0) as [Hzero | Hpos].
      * apply Hkeep, Hinv. lia.
      * apply Hnew. lia.
  - now apply IH.
Qed.

Lemma deliver_mounted (k : nat) (mutations : list mutation_record) (p : page)
    (o : observer) (i : nat) :
  nth_error (observers p) k = Some o ->
  node_ident (badge o) = Some i ->
  (0 < snd (fst (deliver k mutations p)))%nat ->
  mounted_once i (fst (fst (deliver k mutations p))).
Proof.
  intros Hk Hb. unfold deliver. rewrite Hk.
  destruct (connected o); cbn [fst snd]; [| lia].
  intros Hcalls. unfold callback in *.
  pose proof (callback_nodes_mounted i (flat_map addedNodes mutations) o p 0
                Hb ltac:(lia) Hcalls) as (e & children & Hlist & Honce).
  exists e, children. split; [exact Hlist | exact Honce].
Qed.

(** *** Appending a badge that is in its place *)

Lemma node_forall_ind (P : node -> Prop) :
  (forall e children, Forall P children -> P (Element e children)) ->
  (forall data, P (TextNode data)) ->
  forall n, P n.
Proof.
  intros Helement Htext. fix IH 1. intros [e children | data].
  - apply Helement. induction children as [| c rest IHrest]; constructor.
    + apply IH.
    + exact IHrest.
  - apply Htext.
Qed.

Lemma is_node_remove_in (i j : nat) (n : node) :
  is_node i (remove_in j n) = is_node i n.
Proof. now destruct n. Qed.

Lemma map_filter_comm {A : Type} (f : A -> bool) (g : A -> A) (l : list A) :
  (forall x, f (g x) = f x) -> map g (filter f l) = filter f (map g l).
Proof.
  intros Hfg. induction l as [| x rest IH]; [reflexivity |].
  cbn [filter map]. rewrite Hfg. destruct (f x); cbn [map]; now rewrite IH.
Qed.

Lemma filter_idem {A : Type} (f : A -> bool) (l : list A) :
  filter f (filter f l) = filter f l.
Proof.
  induction l as [| x rest IH]; [reflexivity |].
  cbn [filter]. destruct (f x) eqn:Hx; cbn [filter]; now rewrite ?Hx, IH.
Qed.

Lemma remove_children_idem (i : nat) (l : list node) :
  Forall (fun n => remove_in i (remove_in i n) = remove_in i n) l ->
  remove_forest i (remove_forest i l) = remove_forest i l.
Proof.
  intros Hl. unfold remove_forest.
  rewrite map_filter_comm
    by (intros x; now rewrite is_node_remove_in).
  rewrite filter_idem, map_map. f_equal.
  apply map_ext_Forall. exact Hl.
Qed.

Lemma remove_in_idem (i : nat) (n : node) :
  remove_in i (remove_in i n) = remove_in i n.
Proof.
  induction n as [e children IH | data] using node_forall_ind.
  - cbn [remove_in]. f_equal. now apply remove_children_idem.
  - reflexivity.
Qed.

Lemma remove_forest_idem (i : nat) (l : list node) :
  remove_forest i (remove_forest i l) = remove_forest i l.
Proof.
  apply remove_children_idem. apply Forall_forall. intros n _.
  apply remove_in_idem.
Qed.

Lemma remove_forest_last (i : nat) (l : list node) (b : node) :
  is_node i b = true ->
  remove_forest i (remove_forest i l ++ [b]) = remove_forest i l.
Proof.
  intros Hb. unfold remove_forest at 1.
  rewrite map_app, filter_app. cbn [map filter].
  rewrite is_node_remove_in, Hb. cbn [negb]. rewrite app_nil_r.
  apply remove_forest_idem.
Qed.

Lemma detach_idem (i : nat) (p : page) :
  detach i (detach i p) = detach i p.
Proof.
  unfold detach, with_elsewhere, with_cast_list, with_statistic_list.
  cbn [next_ident film_poster cast_list statistic_list elsewhere observers].
  rewrite !remove_forest_idem.
  destruct (statistic_list p) as [[e children] |]; [| reflexivity].
  now rewrite remove_forest_idem.
Qed.

(** The second of two [appendChild] of the same element leaves the page as
    the first one made it. *)
Lemma appendChild_statistic_idem (b : node) (i : nat) (p : page) :
  node_ident b = Some i ->
  appendChild_statistic b (appendChild_statistic b p)
  = appendChild_statistic b p.
Proof.
  intros Hb. pose proof (node_ident_is_node b i Hb) as Hnode.
  unfold appendChild_statistic. rewrite Hb.
  destruct (statistic_list (detach i p)) as [[e children] |] eqn:Hlist.
  - unfold detach in *.
    cbn [next_ident film_poster cast_list statistic_list elsewhere observers
         with_elsewhere with_cast_list with_statistic_list] in *.
    destruct (statistic_list p) as [[e0 children0] |]; [| discriminate].
    injection Hlist as <- <-.
    unfold with_statistic_list.
    cbn [next_ident film_poster cast_list elsewhere observers].
    rewrite !remove_forest_idem.
    now rewrite (remove_forest_last i children0 b Hnode).
  - rewrite detach_idem, Hlist. reflexivity.
Qed.

Lemma set_assoc_idem {A : Type} (k : string) (v : A) (l : list (string * A)) :
  set_assoc k v (set_assoc k v l) = set_assoc k v l.
Proof.
  induction l as [| [k' v'] rest IH]; cbn [set_assoc].
  - now rewrite String.eqb_refl.
  - destruct (String.eqb k k') eqn:Hk; cbn [set_assoc].
    + now rewrite String.eqb_refl.
    + now rewrite Hk, IH.
Qed.

Lemma set_style_idem (property value : string) (e : element) :
  set_style property value (set_style property value e)
  = set_style property value e.
Proof. unfold set_style. cbn. now rewrite set_assoc_idem. Qed.

Lemma appendChild_statistic_some (b : node) (i : nat) (q : page)
    (e : element) (children : list node) :
  node_ident b = Some i ->
  statistic_list q = Some (e, children) ->
  appendChild_statistic b q
  = with_statistic_list (Some (e, remove_forest i children ++ [b]))
      (detach i q).
Proof.
  intros Hb Hq. unfold appendChild_statistic. rewrite Hb.
  unfold detach at 1.
  cbn [statistic_list with_elsewhere with_cast_list with_statistic_list].
  now rewrite Hq.
Qed.

Lemma visit_first_insertion (o : observer) (p : page) (v : visited) :
  visit o p = Normal v ->
  (0 < appendChild_calls v)%nat ->
  mounted_by o (page_after v).
Proof.
  unfold mounted_by.
  visit_cases o p as e children Hp;
    intros [= <-]; cbn [page_after appendChild_calls]; intros Hcalls;
    try lia.
  - exists p, e, children. repeat split; [exact Hp | discriminate].
  - exists (with_statistic_list
              (Some (set_style "flexWrap" "wrap" e, children)) p),
      (set_style "flexWrap" "wrap" e), children.
    repeat split. intros _. apply set_style_idem.
Qed.

Lemma visit_mounted_by (o : observer) (p : page) (i : nat) :
  node_ident (badge o) = Some i ->
  mounted_by o p ->
  exists v, visit o p = Normal v /\ page_after v = p.
Proof.
  intros Hb (q & e & children & -> & Hq & Hwrap).
  pose proof (appendChild_statistic_idem (badge o) i q Hb) as Hidem.
  rewrite (appendChild_statistic_some (badge o) i q e children Hb Hq) in *.
  unfold visit, crown_visit, icon_visit.
  cbn [statistic_list with_statistic_list].
  destruct (mount_of o).
  - destruct (1 <? count_forest (has_tag "div")
                     (remove_forest i children ++ [badge o]))%nat;
      [destruct (count_class "-top250" _ =? 0)%nat |];
      eexists; split; try reflexivity; cbn [page_after]; exact Hidem.
  - rewrite (Hwrap eq_refl).
    change (with_statistic_list
              (Some (e, remove_forest i children ++ [badge o]))
              (with_statistic_list
                 (Some (e, remove_forest i children ++ [badge o]))
                 (detach i q)))
      with (with_statistic_list
              (Some (e, remove_forest i children ++ [badge o]))
              (detach i q)).
    destruct (1 <? count_forest (has_tag "div")
                     (remove_forest i children ++ [badge o]))%nat;
      eexists; split; try reflexivity; cbn [page_after]; exact Hidem.
Qed.

(** Once the badge is in its place, what is left of the loops leaves the
    page as it is. *)
Lemma callback_nodes_mounted_by (i : nat) (nodes : list node) :
  forall (o : observer) (p : page) (calls : nat),
    node_ident (badge o) = Some i ->
    mounted_by o p ->
    page_of (callback_nodes nodes o p calls) = p.
Proof.
  induction nodes as [| [e children | data] rest IH];
    intros o p calls Hb Hmounted; cbn [callback_nodes].
  - reflexivity.
  - destruct (visit_mounted_by o p i Hb Hmounted) as (v & -> & Hpage).
    rewrite Hpage. apply IH; now destruct (disconnect v).
  - now apply IH.
Qed.

Lemma callback_after_insertion (o : observer) (p : page) (v : visited)
    (i : nat) (nodes : list node) (calls : nat) :
  node_ident (badge o) = Some i ->
  visit o p = Normal v ->
  (0 < appendChild_calls v)%nat ->
  page_of (callback_nodes nodes (disconnected o) (page_after v) calls)
  = page_after v.
Proof.
  intros Hb Hvisit Hcalls.
  apply (callback_nodes_mounted_by i); [exact Hb |].
  exact (visit_first_insertion o p v Hvisit Hcalls).
Qed.

(** C5: for any observer made by [addCrown] or [addIcon], among any number
    of mutation batches at most one inserts the badge.  The first
    [appendChild] of that batch puts the badge in its place, exactly once
    among the children of the statistic list, and what is left of the batch
    leaves the page as it is; the batch leaves the observer disconnected,
    and a disconnected observer is handed no batch, so none of the later
    batches and changes of the page makes it insert again. *)
Theorem deferred_mount_once :
  (forall (k : nat) (events : list event) (p : page),
      (List.length (filter (inserting k) (snd (run events p))) <= 1)%nat) /\
  (forall (k : nat) (mutations : list mutation_record) (p : page),
      (0 < snd (fst (deliver k mutations p)))%nat ->
      connected_at k (fst (fst (deliver k mutations p))) = false) /\
  (forall (k : nat) (mutations : list mutation_record) (p : page)
          (o : observer) (i : nat),
      nth_error (observers p) k = Some o ->
      node_ident (badge o) = Some i ->
      (0 < snd (fst (deliver k mutations p)))%nat ->
      mounted_once i (fst (fst (deliver k mutations p)))) /\
  (forall (o : observer) (p : page) (v : visited) (i : nat)
          (nodes : list node) (calls : nat),
      node_ident (badge o) = Some i ->
      visit o p = Normal v ->
      (0 < appendChild_calls v)%nat ->
      page_of (callback_nodes nodes (disconnected o) (page_after v) calls)
      = page_after v) /\
  (forall (k : nat) (p : page),
      connected_at k p = false ->
      (forall mutations, deliver k mutations p = (p, 0%nat, Normal tt)) /\
      (forall events,
          filter (inserting k) (snd (run events p)) = []
          /\ connected_at k (fst (run events p)) = false)).
Proof.
  split; [| split; [| split; [| split]]].
  - intros k events p. apply run_inserts_once.
  - apply deliver_inserting.
  - apply deliver_mounted.
  - apply callback_after_insertion.
  - intros k p Hk. split.
    + intros mutations. now apply deliver_disconnected.
    + intros events. now apply run_disconnected.
Qed.

Lemma deferred_mount_once_witness :
  let p := fst (resume Scenario.composed Scenario.network Scenario.watched_task
                  Scenario.film_page) in
  connected_at 0 (fst (fst (deliver 0 Scenario.batch_of_two p))) = false
  /\ mounted_once 10 (fst (fst (deliver 0 Scenario.batch_of_two p)))
  /\ filter (inserting 0)
       (snd (run [HostChange Scenario.film_page; Deliver 0 Scenario.batch]
               (fst (fst (deliver 0 Scenario.batch_of_two p))))) = []
  /\ match nth_error (observers p) 0 with
     | Some o =>
         match visit o p with
         | Normal v =>
             page_of (callback_nodes [Scenario.statistic 8 "4K"]
                        (disconnected o) (page_after v) 1)
             = page_after v
         | Throw _ => False
         end
     | None => False
     end.
Proof.
  intros p.
  destruct deferred_mount_once as (_ & Hoff & Honce & Hrest & Hafter).
  assert (Hcalls : (0 < snd (fst (deliver 0 Scenario.batch_of_two p)))%nat)
    by (vm_compute; lia).
  split; [| split; [| split]].
  - apply Hoff. exact Hcalls.
  - eapply Honce; [reflexivity | reflexivity | exact Hcalls].
  - apply Hafter. apply Hoff. exact Hcalls.
  - destruct (nth_error (observers p) 0) as [o |] eqn:Ho;
      [| vm_compute in Ho; discriminate Ho].
    vm_compute in Ho. injection Ho as <-.
    match goal with
    | |- match visit ?o p with _ => _ end =>
        destruct (visit o p) as [v | err] eqn:Hv;
        [apply (Hrest o p v 10%nat);
         [reflexivity | exact Hv
          | vm_compute in Hv; injection Hv as <-; cbn; lia]
        | vm_compute in Hv; discriminate Hv]
    end.
Defined.

(** A batch of two added elements makes the observer of [addIcon] call
    [appendChild] twice; the second call finds the badge in its place, and
    the statistic list holds it once. *)
Example icon_batch_of_two :
  let p := fst (resume Scenario.composed Scenario.network Scenario.watched_task
                  Scenario.film_page) in
  snd (fst (deliver 0 Scenario.batch_of_two p)) = 2%nat
  /\ map node_ident (statistics (fst (fst (deliver 0 Scenario.batch_of_two p))))
     = [Some 2%nat; Some 3%nat; Some 10%nat].
Proof. vm_compute. split; reflexivity. Qed.

(** ** The class guard of the crown *)

Lemma crown_guard (nodes : list node) :
  forall (o : observer) (p : page) (calls : nat),
    mount_of o = CrownMount ->
    (1 <= count_class "-top250" p)%nat ->
    page_of (callback_nodes nodes o p calls) = p
    /\ calls_of (callback_nodes nodes o p calls) = calls.
Proof.
  induction nodes as [| [e children | data] rest IH];
    intros o p calls Ho Hmark; cbn [callback_nodes].
  - now split.
  - unfold visit. rewrite Ho. unfold crown_visit.
    destruct (statistic_list p) as [[e' children'] |]; [| now split].
    destruct (Nat.eqb_spec (count_class "-top250" p) 0) as [Hzero | _];
      [lia |].
    destruct (1 <? count_forest (has_tag "div") children')%nat;
      cbn [disconnect page_after appendChild_calls];
      rewrite Nat.add_0_r; now apply IH.
  - now apply IH.
Qed.

Lemma count_class_appended (c : string) (e : element) (children : list node)
    (p : page) :
  has_class c e = true ->
  statistic_list p <> None ->
  (1 <= count_class c (appendChild_statistic (Element e children) p))%nat.
Proof.
  intros He Hlist. unfold appendChild_statistic. cbn [node_ident].
  unfold detach. cbn [statistic_list with_elsewhere with_cast_list
                      with_statistic_list].
  destruct (statistic_list p) as [[e0 children0] |]; [| congruence].
  unfold count_class.
  cbn [statistic_list with_statistic_list count_in].
  rewrite map_app, list_sum_app. cbn [map list_sum fold_right count_in].
  rewrite He. destruct (has_class c e0); lia.
Qed.

Lemma crown_mount_marks (ranking : Z) (q : page) (nodes : list node) :
  forall (o : observer) (p : page) (calls : nat),
    mount_of o = CrownMount ->
    badge o = fst (createTop250Element ranking q) ->
    ((0 < calls)%nat -> (1 <= count_class "-top250" p)%nat) ->
    (0 < calls_of (callback_nodes nodes o p calls))%nat ->
    (1 <= count_class "-top250" (page_of (callback_nodes nodes o p calls)))%nat.
Proof.
  induction nodes as [| [e children | data] rest IH];
    intros o p calls Ho Hb Hinv; cbn [callback_nodes].
  - exact Hinv.
  - unfold visit. rewrite Ho. unfold crown_visit.
    destruct (statistic_list p) as [[e' children'] |] eqn:Hp; [| exact Hinv].
    destruct (1 <? count_forest (has_tag "div") children')%nat.
    + destruct (Nat.eqb_spec (count_class "-top250" p) 0) as [Hzero | Hpos];
        cbn [disconnect page_after appendChild_calls].
      * intros _.
        destruct (crown_guard rest (disconnected o)
                    (appendChild_statistic (badge o) p) (calls + 1)%nat Ho)
          as [-> _];
          rewrite Hb; apply count_class_appended;
          try reflexivity; congruence.
      * apply IH; try assumption. intros _. lia.
    + cbn [disconnect page_after appendChild_calls].
      rewrite Nat.add_0_r. now apply IH.
  - now apply IH.
Qed.

(** C2, as the claim states it, fails for the categories of [addIcon]: when
    the most watched category annotates the film page a second time, the
    statistic list holds the badge of that category twice, as two nodes of
    the same structure. *)
Lemma second_run_duplicates_icon :
  map structure (statistics Scenario.annotated_twice)
  = map structure (statistics Scenario.film_page)
    ++ [structure (fst (icon_badge 1 Scenario.watched_parameters Scenario.film_page));
        structure (fst (icon_badge 1 Scenario.watched_parameters Scenario.film_page))]
  /\ map node_ident (statistics Scenario.annotated_twice)
     = [Some 2%nat; Some 3%nat; Some 10%nat; Some 13%nat].
Proof. vm_compute. split; reflexivity. Qed.

(** C2 (amended): the observer of the crown category checks for an element
    of class [-top250] before it appends: on a page that holds such an
    element no crown observer appends or changes the page, and a crown
    observer that has appended leaves such an element on the page; so a
    second run on a page that carries the crown adds no second crown.  The
    observers of [addIcon] make no such check. *)
Theorem crown_inserted_once :
  (forall (o : observer) (p : page) (mutations : list mutation_record),
      mount_of o = CrownMount ->
      (1 <= count_class "-top250" p)%nat ->
      page_of (callback mutations o p) = p
      /\ calls_of (callback mutations o p) = 0%nat) /\
  (forall (ranking : Z) (q : page) (o : observer) (p : page)
          (mutations : list mutation_record),
      mount_of o = CrownMount ->
      badge o = fst (createTop250Element ranking q) ->
      (0 < calls_of (callback mutations o p))%nat ->
      (1 <= count_class "-top250" (page_of (callback mutations o p)))%nat).
Proof.
  split.
  - intros o p mutations Ho Hmark. now apply crown_guard.
  - intros ranking q o p mutations Ho Hb Hcalls.
    apply (crown_mount_marks ranking q (flat_map addedNodes mutations) o p 0);
      try assumption.
    lia.
Qed.

Lemma crown_inserted_once_witness :
  let o := {| mount_of := CrownMount;
              badge := fst (createTop250Element 5 Scenario.film_page);
              connected := true |} in
  let crowned := page_of (callback Scenario.batch o Scenario.film_page) in
  (1 <= count_class "-top250" crowned)%nat
  /\ page_of (callback Scenario.batch_of_two o crowned) = crowned
  /\ calls_of (callback Scenario.batch_of_two o crowned) = 0%nat.
Proof.
  intros o crowned.
  destruct crown_inserted_once as [Hguard Hmark].
  assert (Hcrowned : (1 <= count_class "-top250" crowned)%nat).
  { apply (Hmark 5 Scenario.film_page).
    - reflexivity.
    - reflexivity.
    - vm_compute. lia. }
  split; [exact Hcrowned |].
  apply Hguard; [reflexivity | exact Hcrowned].
Defined.

(** ** Failed fetches *)

Section Containment.

Variable normalize : string -> string.
Variable network : string -> promise response.

Lemma resume_fails (t : task) (p : page) :
  fails network t = true ->
  fst (resume normalize network t p) = p
  /\ unhandled_rejection (snd (resume normalize network t p)) = true.
Proof.
  unfold fails, resume, getData, getActors, getActors_then, then_, json.
  destruct t as [type id json_link | json_link castAnchors];
    cbn [task_link];
    (destruct (network json_link) as [res | e];
     [destruct (body res) as [[| | b | z | s | items | fields] |] |]);
    try discriminate; intros _; split; reflexivity.
Qed.

Lemma resume_all_app (before after : list task) (p : page) :
  resume_all normalize network (before ++ after) p
  = (fst (resume_all normalize network after
            (fst (resume_all normalize network before p))),
     snd (resume_all normalize network before p)
     ++ snd (resume_all normalize network after
               (fst (resume_all normalize network before p)))).
Proof.
  revert p. induction before as [| t rest IH]; intros p.
  - cbn. now destruct (resume_all normalize network after p).
  - cbn [app resume_all].
    destruct (resume normalize network t p) as [p' pr].
    rewrite IH.
    destruct (resume_all normalize network rest p') as [p'' prs].
    reflexivity.
Qed.

Lemma resume_all_failed (before after : list task) (failed : task)
    (p : page) :
  fails network failed = true ->
  fst (resume_all normalize network (before ++ failed :: after) p)
  = fst (resume_all normalize network (before ++ after) p)
  /\ exists e,
      snd (resume_all normalize network (before ++ failed :: after) p)
      = snd (resume_all normalize network before p)
        ++ Rejected e
        :: snd (resume_all normalize network after
                  (fst (resume_all normalize network before p))).
Proof.
  intros Hfails. rewrite !resume_all_app. cbn [fst snd resume_all].
  destruct (resume_fails failed
              (fst (resume_all normalize network before p)) Hfails)
    as [Hpage Hrejected].
  destruct (resume normalize network failed
              (fst (resume_all normalize network before p)))
    as [p' pr].
  cbn [fst snd] in *. subst p'.
  destruct (resume_all normalize network after
              (fst (resume_all normalize network before p)))
    as [p'' prs].
  split; [reflexivity |].
  destruct pr as [u | e]; [discriminate |].
  now exists e.
Qed.

Lemma resume_hit (type : Z) (id : number) (json_link : string)
    (items : list jsval) (i : nat) (p : page) :
  network json_link = Fulfilled {| body := Some (JArray items) |} ->
  forallb has_properties items = true ->
  (i < List.length items)%nat ->
  (forall j item,
      nth_error items j = Some item -> is_hit id item = Nat.eqb j i) ->
  resume normalize network (DataTask type id json_link) p
  = (add_badge type (Z.of_nat i + 1) p, Fulfilled tt).
Proof.
  intros Hlink Hitems Hi Honce. cbn [resume]. rewrite Hlink.
  rewrite getData_array by assumption.
  now rewrite (ranks_from_once (is_hit id) items 0 i Hi Honce).
Qed.

End Containment.

(** C4, as the claim states it, fails: the file of the French ranking cannot
    be fetched, and the promise chain of that category ends rejected with no
    handler attached, which the browser reports as uncaught; and when the
    answer to a failed request is a JSON object, not an array, [out.find]
    throws a TypeError that nothing catches. *)
Lemma failed_fetch_is_unhandled :
  fails Scenario.network
    (DataTask 4 (Num 20)
       "https://raw.githubusercontent.com/afchatfield/lb-list-to-json/main/Ratings/top_250_french_films_by_french_users.json")
  = true
  /\ resume Scenario.composed Scenario.network
       (DataTask 4 (Num 20)
          "https://raw.githubusercontent.com/afchatfield/lb-list-to-json/main/Ratings/top_250_french_films_by_french_users.json")
       Scenario.film_page
     = (Scenario.film_page, Rejected NetworkFailure)
  /\ unhandled_rejection
       (snd (resume Scenario.composed Scenario.network
               (DataTask 4 (Num 20)
                  "https://raw.githubusercontent.com/afchatfield/lb-list-to-json/main/Ratings/top_250_french_films_by_french_users.json")
               Scenario.film_page))
     = true
  /\ getData 4 (Num 20)
       (Fulfilled {| body := Some (JObject [("message", JString "Not Found")]) |})
       Scenario.film_page
     = (Scenario.film_page, Rejected TypeError).
Proof. repeat split; reflexivity. Qed.

(** C4 (amended): a category whose fetch or JSON parse fails ends its promise
    chain rejected, with no rejection handler attached, and leaves the page
    as it was; it aborts that category alone: the other continuations run
    on the same pages and end with the same promises as if the failed one
    had not been scheduled, and a category whose file holds the film still
    ends fulfilled with its badge registered. *)
Theorem failed_fetch_is_contained
    (normalize : string -> string) (network : string -> promise response) :
  (forall (t : task) (p : page),
      fails network t = true ->
      fst (resume normalize network t p) = p
      /\ unhandled_rejection (snd (resume normalize network t p)) = true) /\
  (forall (before after : list task) (failed : task) (p : page),
      fails network failed = true ->
      fst (resume_all normalize network (before ++ failed :: after) p)
      = fst (resume_all normalize network (before ++ after) p)
      /\ exists e,
          snd (resume_all normalize network (before ++ failed :: after) p)
          = snd (resume_all normalize network before p)
            ++ Rejected e
            :: snd (resume_all normalize network after
                      (fst (resume_all normalize network before p)))) /\
  (forall (type : Z) (id : number) (json_link : string) (items : list jsval)
          (i : nat) (p : page),
      network json_link = Fulfilled {| body := Some (JArray items) |} ->
      forallb has_properties items = true ->
      (i < List.length items)%nat ->
      (forall j item,
          nth_error items j = Some item -> is_hit id item = Nat.eqb j i) ->
      resume normalize network (DataTask type id json_link) p
      = (add_badge type (Z.of_nat i + 1) p, Fulfilled tt)).
Proof.
  split; [| split].
  - apply resume_fails.
  - apply resume_all_failed.
  - apply resume_hit.
Qed.

Lemma failed_fetch_is_contained_witness :
  let french :=
    DataTask 4 (Num 20)
      "https://raw.githubusercontent.com/afchatfield/lb-list-to-json/main/Ratings/top_250_french_films_by_french_users.json" in
  let all_time := DataTask 3 (Num 20) Scenario.all_time_file in
  fst (resume Scenario.composed Scenario.network french Scenario.film_page)
  = Scenario.film_page
  /\ fst (resume_all Scenario.composed Scenario.network
            ([Scenario.watched_task] ++ french :: [all_time]) Scenario.film_page)
     = fst (resume_all Scenario.composed Scenario.network
              ([Scenario.watched_task] ++ [all_time]) Scenario.film_page)
  /\ resume Scenario.composed Scenario.network all_time Scenario.film_page
     = (add_badge 3 (Z.of_nat 1 + 1) Scenario.film_page, Fulfilled tt).
Proof.
  intros french all_time.
  destruct (failed_fetch_is_contained Scenario.composed Scenario.network)
    as (Hfail & Hothers & Hhit).
  split; [| split].
  - apply Hfail. reflexivity.
  - apply Hothers. reflexivity.
  - apply (Hhit 3 (Num 20) Scenario.all_time_file
             [JObject [("Date", JNumber 10)]; JObject [("Date", JNumber 20)]]).
    + reflexivity.
    + reflexivity.
    + simpl. lia.
    + intros [| [| j]] item Hj; simpl in Hj.
      * injection Hj as <-. reflexivity.
      * injection Hj as <-. reflexivity.
      * destruct j; discriminate Hj.
Defined.

(** ** The film identifier *)

Lemma is_film_NaN (item : jsval) : is_film item NaN <> Normal true.
Proof.
  unfold is_film.
  destruct (get_prop item "Date") as [date | e]; [| discriminate].
  replace (strict_eq_number date NaN) with false by now destruct date.
  destruct (get_prop item "id") as [v | e]; [| discriminate].
  replace (strict_eq_number v NaN) with false by now destruct v.
  discriminate.
Qed.

Lemma find_from_NaN (type : Z) (items : list jsval) :
  forall (i : nat) (p : page),
    fst (fst (find_from (getData_callback type NaN) items i p)) = p.
Proof.
  induction items as [| item rest IH]; intros i p; cbn [find_from].
  - reflexivity.
  - unfold getData_callback at 1.
    pose proof (is_film_NaN item) as Hnan.
    destruct (is_film item NaN) as [[|] | e]; [congruence | | reflexivity].
    specialize (IH (S i) p).
    destruct (find_from (getData_callback type NaN) rest (S i) p)
      as [[p' visits] found].
    exact IH.
Qed.

Lemma getData_NaN (type : Z) (fetched : promise response) (p : page) :
  fst (getData type NaN fetched p) = p.
Proof.
  unfold getData, then_, json.
  destruct fetched as [res | e]; [| reflexivity].
  destruct (body res) as [out |]; [| reflexivity].
  destruct out as [| | b | z | s | items | fields]; try reflexivity.
  cbn [find]. pose proof (find_from_NaN type items 0 p) as Hp.
  destruct (find_from (getData_callback type NaN) items 0 p)
    as [[p' visits] found].
  exact Hp.
Qed.

(** C7, as the claim states it, fails: on the film page whose poster parent
    has no [data-film-id], the load handler does not abort; it issues its 29
    fetches, and when they have settled the cast list holds an actor icon
    that was not there. *)
Lemma missing_id_does_not_abort :
  film_poster Scenario.page_without_id = Some (Some [])
  /\ load Scenario.page_without_id
     = Normal (data_tasks NaN ++ [ActorsTask actors_file [4%nat; 5%nat]])
  /\ List.length (data_tasks NaN ++ [ActorsTask actors_file [4%nat; 5%nat]])
     = 29%nat
  /\ count_forest (has_tag "img") (cast_list Scenario.page_without_id) = 0%nat
  /\ count_forest (has_tag "img")
       (cast_list
          (fst (resume_all Scenario.composed Scenario.network
                  (data_tasks NaN ++ [ActorsTask actors_file [4%nat; 5%nat]])
                  Scenario.page_without_id)))
     = 1%nat.
Proof. vm_compute. repeat split; reflexivity. Qed.

(** C7 (amended): when the poster element or its parent is absent, the load
    handler throws a TypeError at the initial read and issues no fetch, and
    that is the only way it aborts; when only the data attribute is absent,
    the identifier is NaN and the handler issues all its fetches: no ranking
    file then yields a film badge, whatever it holds. *)
Theorem missing_film_id :
  (forall p : page,
      film_poster p = None \/ film_poster p = Some None ->
      load p = Throw TypeError) /\
  (forall (p : page) (e : error),
      load p = Throw e ->
      film_poster p = None \/ film_poster p = Some None) /\
  (forall (p : page) (attrs : list (string * string)),
      film_poster p = Some (Some attrs) ->
      assoc "data-film-id" attrs = None ->
      load p
      = Normal (data_tasks NaN
                ++ [ActorsTask actors_file
                      (map (fun a => ident (fst a)) (cast_anchors p))])) /\
  (forall (type : Z) (fetched : promise response) (p : page),
      fst (getData type NaN fetched p) = p).
Proof.
  split; [| split; [| split]].
  - intros p [Hp | Hp]; unfold load, film_id; now rewrite Hp.
  - intros p e. unfold load, film_id.
    destruct (film_poster p) as [[attrs |] |]; auto.
    destruct (assoc "data-film-id" attrs); discriminate.
  - intros p attrs Hp Hattr. unfold load, film_id. now rewrite Hp, Hattr.
  - apply getData_NaN.
Qed.

Lemma missing_film_id_witness :
  load (with_observers [] {| next_ident := 0; film_poster := None;
                             cast_list := []; statistic_list := None;
                             elsewhere := []; observers := [] |})
  = Throw TypeError
  /\ load Scenario.page_without_id
     = Normal (data_tasks NaN
               ++ [ActorsTask actors_file
                     (map (fun a => ident (fst a))
                        (cast_anchors Scenario.page_without_id))]).
Proof.
  destruct missing_film_id as (Habsent & _ & Hnan & _).
  split.
  - apply Habsent. left. reflexivity.
  - apply (Hnan Scenario.page_without_id []); reflexivity.
Defined.

(** ** Badge construction *)

Lemma anonymous_setAttribute (name value : string) (e : element) :
  anonymous (setAttribute name value e) = setAttribute name value (anonymous e).
Proof. unfold setAttribute. now destruct (String.eqb name "class"). Qed.

Lemma anonymous_set_style (property value : string) (e : element) :
  anonymous (set_style property value e) = set_style property value (anonymous e).
Proof. reflexivity. Qed.

Lemma anonymous_set_entries (entries : list (string * string)) :
  forall e : element,
    anonymous (set_entries entries e) = set_entries entries (anonymous e).
Proof.
  unfold set_entries.
  induction entries as [| [k v] rest IH]; intros e; cbn [fold_left fst snd].
  - reflexivity.
  - now rewrite IH, anonymous_setAttribute.
Qed.

Lemma icon_badge_structure (ranking : Z) (parameters : parameters)
    (p q : page) :
  structure (fst (icon_badge ranking parameters p))
  = structure (fst (icon_badge ranking parameters q)).
Proof.
  unfold icon_badge, createElement. cbn [fst structure map].
  rewrite !anonymous_set_style, !anonymous_set_entries, !anonymous_setAttribute.
  reflexivity.
Qed.

Lemma set_assoc_fresh {A : Type} (k : string) (v : A) (l : list (string * A)) :
  ~ In k (map fst l) -> set_assoc k v l = l ++ [(k, v)].
Proof.
  induction l as [| [k' v'] rest IH]; intros Hk; cbn [set_assoc app].
  - reflexivity.
  - cbn in Hk. destruct (String.eqb_spec k k') as [-> | Hne].
    + exfalso. apply Hk. now left.
    + rewrite IH; [reflexivity |]. intros Hin. apply Hk. now right.
Qed.

Lemma set_entries_fresh (entries : list (string * string)) :
  forall e : element,
    NoDup (map fst entries) ->
    ~ In "class" (map fst entries) ->
    (forall k, In k (map fst entries) -> ~ In k (map fst (attributes e))) ->
    set_entries entries e
    = {| ident := ident e; tagName := tagName e; className := className e;
         attributes := attributes e ++ entries; style := style e |}.
Proof.
  unfold set_entries.
  induction entries as [| [k v] rest IH]; intros e Hkeys Hclass Hfresh;
    cbn [fold_left fst snd].
  - rewrite app_nil_r. now destruct e.
  - cbn [map fst] in Hkeys, Hclass, Hfresh.
    apply NoDup_cons_iff in Hkeys as [Hk Hrest].
    unfold setAttribute at 2.
    destruct (String.eqb_spec k "class") as [-> | _];
      [exfalso; apply Hclass; now left |].
    rewrite IH; cbn [ident tagName className attributes style].
    + rewrite set_assoc_fresh by (apply Hfresh; now left).
      now rewrite <- app_assoc.
    + exact Hrest.
    + intros Hin. apply Hclass. now right.
    + intros k' Hk'. rewrite set_assoc_fresh by (apply Hfresh; now left).
      rewrite map_app, in_app_iff. cbn.
      intros [Hin | [<- | []]].
      * apply (Hfresh k'); [now right | exact Hin].
      * contradiction.
Qed.

(** Every row of the registry has a size that [size_attributes] admits. *)
Lemma parameters_of_size_attributes (type : Z) (parameters : parameters) :
  parameters_of type = Some parameters -> size_attributes (size parameters).
Proof.
  intros Hrow.
  destruct type as [| q | q]; try discriminate Hrow.
  do 5 (try destruct q as [q | q |]);
    cbn in Hrow; try discriminate Hrow;
    injection Hrow as <-; cbn [size];
    (split;
     [repeat (apply NoDup_cons; [simpl; intuition discriminate |]);
      apply NoDup_nil
     | split; [| split]; [| | reflexivity]; simpl; intuition discriminate]).
Qed.

Lemma actors_size_attributes : size_attributes (size actors_parameters).
Proof.
  split;
    [repeat (apply NoDup_cons; [simpl; intuition discriminate |]);
     apply NoDup_nil
    | split; [| split]; [| | reflexivity]; simpl; intuition discriminate].
Qed.

(** C8, as the claim states it, fails: what [addIcon] builds and mounts for
    the flag-icon variant is not an anchor but a [div], which wraps the
    anchor. *)
Lemma icon_badge_root_is_div :
  root_tag (fst (icon_badge 2 Scenario.watched_parameters Scenario.film_page))
  = Some "div"
  /\ root_tag (fst (icon_badge 2 Scenario.watched_parameters Scenario.film_page))
     <> Some "a".
Proof. split; [reflexivity | discriminate]. Qed.

(** C8 (amended): badge construction depends on the rank and the display
    parameters alone: whatever the page, the nodes built have the same
    structure, and the page is left as it was but for the identities it
    gave out.  For the flag-icon variant the result is a [div] of class
    [production-statistic] whose only child is an anchor with [href] the
    list path followed by the page number, holding an image with the icon
    as [src] and the size entries as attributes, then a text node with the
    rank.  The size entries are those of a size whose keys are distinct
    attribute names in small letters, other than [src] and [class]: a key
    with a capital letter would be written over the key it equals in lower
    case, and a key that is no name would make [setAttribute] throw. *)
Theorem badge_construction :
  (forall (ranking : Z) (parameters : parameters) (p q : page),
      structure (fst (icon_badge ranking parameters p))
      = structure (fst (icon_badge ranking parameters q))
      /\ snd (icon_badge ranking parameters p)
         = with_next_ident (3 + next_ident p) p) /\
  (forall (ranking : Z) (p q : page),
      structure (fst (createTop250Element ranking p))
      = structure (fst (createTop250Element ranking q))
      /\ snd (createTop250Element ranking p)
         = with_next_ident (5 + next_ident p) p) /\
  (forall (ranking : Z) (parameters : parameters) (p : page),
      size_attributes (size parameters) ->
      fst (icon_badge ranking parameters p)
      = Element
          {| ident := next_ident p; tagName := "div";
             className := "production-statistic";
             attributes := []; style := [] |}
          [Element
             {| ident := S (next_ident p); tagName := "a"; className := "";
                attributes :=
                  [("href",
                    (list_path parameters ++ string_of_Z (pageOf ranking))%string)];
                style := [("fontSize", ".92307692rem")] |}
             [Element
                {| ident := S (S (next_ident p)); tagName := "img";
                   className := "";
                   attributes := ("src", icon parameters) :: size parameters;
                   style := [("float", "left"); ("marginLeft", "-1px");
                             ("marginRight", "3px")] |}
                [];
              TextNode (string_of_Z ranking)]]).
Proof.
  split; [| split].
  - intros ranking parameters p q. split.
    + apply icon_badge_structure.
    + reflexivity.
  - intros ranking p q. split; reflexivity.
  - intros ranking parameters p (Hkeys & Hsrc & Hclass & _).
    unfold icon_badge, createElement. cbn [fst].
    rewrite set_entries_fresh; try assumption.
    + reflexivity.
    + cbn. intros k Hk [<- | []]. contradiction.
Qed.

Lemma badge_construction_witness :
  fst (icon_badge 150 Scenario.watched_parameters Scenario.film_page)
  = Element
      {| ident := 10; tagName := "div"; className := "production-statistic";
         attributes := []; style := [] |}
      [Element
         {| ident := 11; tagName := "a"; className := "";
            attributes :=
              [("href",
                "/el_duderinno/list/every-movie-with-more-than-100000-watched/page/2")];
            style := [("fontSize", ".92307692rem")] |}
         [Element
            {| ident := 12; tagName := "img"; className := "";
               attributes :=
                 [("src",
                   "https://raw.githubusercontent.com/frozenpandaman/letterboxd-userscripts/master/top-2000-flame.svg");
                  ("height", "12"); ("width", "12")];
               style := [("float", "left"); ("marginLeft", "-1px");
                         ("marginRight", "3px")] |}
            [];
          TextNode "150"]].
Proof.
  apply (proj2 (proj2 badge_construction) 150 Scenario.watched_parameters
           Scenario.film_page).
  split; [| split; [| split]].
  - repeat constructor; simpl; intuition discriminate.
  - simpl. intuition discriminate.
  - simpl. intuition discriminate.
  - reflexivity.
Defined.

(** ** Actors *)

Lemma find_from_getActors_callback (items : list jsval) :
  forallb has_properties items = true ->
  forall (i : nat) (names : list string),
    find_from getActors_callback items i names
    = (names ++ map actor_name items, List.length items, Normal JUndefined).
Proof.
  induction items as [| item rest IH]; intros Hitems i names.
  - cbn. now rewrite app_nil_r.
  - cbn [forallb] in Hitems. apply andb_prop in Hitems as [Hitem Hrest].
    cbn [find_from map List.length]. unfold getActors_callback at 1.
    unfold actor_name at 1.
    destruct (get_prop item "actor") as [actor | e] eqn:Hactor.
    + rewrite (IH Hrest). now rewrite <- app_assoc.
    + destruct item as [| | b | z | s | elems | fields];
        cbn in Hitem, Hactor; try discriminate.
      destruct (assoc "actor" fields); discriminate.
Qed.

Lemma indexOf_from_absent (x : string) (l : list string) :
  forall i : Z, ~ In x l -> indexOf_from x l i = -1.
Proof.
  induction l as [| y rest IH]; intros i Hx; cbn [indexOf_from].
  - reflexivity.
  - destruct (String.eqb_spec y x) as [-> | Hne].
    + exfalso. apply Hx. now left.
    + apply IH. intros Hin. apply Hx. now right.
Qed.

Lemma indexOf_from_first (x : string) (l : list string) :
  forall (k : nat) (i : Z),
    nth_error l k = Some x ->
    ~ In x (firstn k l) ->
    indexOf_from x l i = i + Z.of_nat k.
Proof.
  induction l as [| y rest IH]; intros k i Hk Hfirst.
  - now destruct k.
  - cbn [indexOf_from]. destruct k as [| k].
    + cbn in Hk. injection Hk as ->. rewrite String.eqb_refl. lia.
    + cbn in Hk, Hfirst. destruct (String.eqb_spec y x) as [-> | Hne].
      * exfalso. apply Hfirst. now left.
      * rewrite (IH k (i + 1)); [lia | exact Hk |].
        intros Hin. apply Hfirst. now right.
Qed.

Section ActorLookup.

Variable normalize : string -> string.

Lemma getActors_array (castAnchors : list nat) (items : list jsval)
    (p : page) :
  forallb has_properties items = true ->
  getActors normalize castAnchors
    (Fulfilled {| body := Some (JArray items) |}) p
  = (fold_left (cast_visit normalize (map actor_name items)) castAnchors p,
     Fulfilled tt).
Proof.
  intros Hitems. unfold getActors, then_, json, getActors_then.
  cbn [body find]. now rewrite find_from_getActors_callback.
Qed.

Lemma cast_visit_absent (names : list string) (p : page) (target : nat)
    (e : element) (children : list node) :
  lookup_forest target (cast_list p) = Some (e, children) ->
  ~ In (normalize (textContent (Element e children))) names ->
  cast_visit normalize names p target = p.
Proof.
  intros Hfound Habsent. unfold cast_visit, indexOf. rewrite Hfound.
  now rewrite indexOf_from_absent.
Qed.

Lemma cast_visit_present (names : list string) (p : page) (target : nat)
    (e : element) (children : list node) (i : nat) :
  lookup_forest target (cast_list p) = Some (e, children) ->
  nth_error names i = Some (normalize (textContent (Element e children))) ->
  ~ In (normalize (textContent (Element e children))) (firstn i names) ->
  cast_visit normalize names p target
  = addActorIcon target (Z.of_nat i + 1) actors_parameters p.
Proof.
  intros Hfound Hi Hfirst. unfold cast_visit, indexOf. rewrite Hfound.
  rewrite (indexOf_from_first _ names i 0 Hi Hfirst).
  destruct (Z.leb_spec 0 (0 + Z.of_nat i)); [reflexivity | lia].
Qed.

Lemma fold_cast_visit_unchanged (names : list string) (p : page)
    (castAnchors : list nat) :
  (forall target,
      In target castAnchors -> cast_visit normalize names p target = p) ->
  fold_left (cast_visit normalize names) castAnchors p = p.
Proof.
  induction castAnchors as [| target rest IH]; intros Hsame;
    cbn [fold_left].
  - reflexivity.
  - rewrite (Hsame target) by now left.
    apply IH. intros x Hx. apply Hsame. now right.
Qed.

End ActorLookup.

(** *** A flat cast list *)

Lemma cast_anchors_flat (anchors : list (element * string)) :
  Forall (fun a => tagName (fst a) = "a") anchors ->
  flat_map (elements_by_tag "a") (map simple_anchor anchors)
  = map (fun a => (fst a, [TextNode (snd a)])) anchors.
Proof.
  induction 1 as [| a rest Ha _ IH]; [reflexivity |].
  cbn [map flat_map simple_anchor elements_by_tag].
  unfold has_tag. rewrite Ha, IH. reflexivity.
Qed.

Lemma lookup_forest_cons (i : nat) (n : node) (l : list node) :
  lookup_forest i (n :: l)
  = match lookup_in i n with
    | Some found => Some found
    | None => lookup_forest i l
    end.
Proof. unfold lookup_forest. cbn. now destruct (lookup_in i n). Qed.

Lemma append_in_flat (target : nat) (icon : node)
    (anchors : list (element * string)) :
  map (append_in target icon) (map simple_anchor anchors)
  = map (with_icon target icon) anchors.
Proof.
  rewrite map_map. apply map_ext. intros a.
  unfold with_icon, simple_anchor, anchor_ident. cbn.
  now destruct (Nat.eqb (ident (fst a)) target).
Qed.

Lemma lookup_flat_found (i : nat) (anchors : list (element * string))
    (e : element) (children : list node) :
  lookup_forest i (map simple_anchor anchors) = Some (e, children) ->
  exists a,
    In a anchors /\ anchor_ident a = i
    /\ e = fst a /\ children = [TextNode (snd a)].
Proof.
  induction anchors as [| a rest IH]; [discriminate |].
  cbn [map]. rewrite lookup_forest_cons.
  unfold simple_anchor at 1. cbn [lookup_in map first_some fold_right].
  destruct (Nat.eqb_spec (ident (fst a)) i) as [Hi | Hne].
  - intros [= <- <-]. exists a. repeat split; [now left | exact Hi].
  - intros Hfound. destruct (IH Hfound) as (b & Hb & Hrest).
    exists b. split; [now right | exact Hrest].
Qed.

Lemma lookup_flat_some (a : element * string)
    (anchors : list (element * string)) :
  In a anchors ->
  lookup_forest (anchor_ident a) (map simple_anchor anchors) <> None.
Proof.
  induction anchors as [| b rest IH]; [contradiction |].
  intros Ha. cbn [map]. rewrite lookup_forest_cons.
  unfold simple_anchor at 1. cbn [lookup_in map first_some fold_right].
  destruct (Nat.eqb_spec (ident (fst b)) (anchor_ident a)) as [_ | Hne].
  - discriminate.
  - destruct Ha as [-> | Ha]; [now contradiction Hne | now apply IH].
Qed.

Lemma lookup_with_icon_found (i target : nat) (icon_a icon_img : element)
    (rank : string) (anchors : list (element * string))
    (e : element) (children : list node) :
  i <> target -> i <> ident icon_a -> i <> ident icon_img ->
  lookup_forest i
    (map (with_icon target
            (Element icon_a [Element icon_img []; TextNode rank]))
       anchors)
  = Some (e, children) ->
  exists a,
    In a anchors /\ anchor_ident a = i
    /\ e = fst a /\ children = [TextNode (snd a)].
Proof.
  intros Htarget Hicon_a Hicon_img.
  induction anchors as [| a rest IH]; [discriminate |].
  cbn [map]. rewrite lookup_forest_cons.
  unfold with_icon at 1, simple_anchor, anchor_ident.
  destruct (Nat.eqb_spec (ident (fst a)) target) as [Ht | Hnt];
    cbn [lookup_in map first_some fold_right];
    destruct (Nat.eqb_spec (ident (fst a)) i) as [Hi | Hne];
    try congruence.
  - destruct (Nat.eqb_spec (ident icon_a) i); [congruence |].
    destruct (Nat.eqb_spec (ident icon_img) i); [congruence |].
    intros Hfound. destruct (IH Hfound) as (b & Hb & Hrest).
    exists b. split; [now right | exact Hrest].
  - intros [= <- <-]. exists a. repeat split; [now left | exact Hi].
  - intros Hfound. destruct (IH Hfound) as (b & Hb & Hrest).
    exists b. split; [now right | exact Hrest].
Qed.

Lemma NoDup_anchor_ident (anchors : list (element * string))
    (a b : element * string) :
  NoDup (map anchor_ident anchors) ->
  In a anchors -> In b anchors -> anchor_ident a = anchor_ident b -> a = b.
Proof.
  induction anchors as [| c rest IH]; [contradiction |].
  cbn [map]. intros Hnodup Ha Hb Hab.
  apply NoDup_cons_iff in Hnodup as [Hc Hrest].
  destruct Ha as [-> | Ha], Hb as [-> | Hb].
  - reflexivity.
  - exfalso. apply Hc. rewrite Hab. now apply in_map.
  - exfalso. apply Hc. rewrite <- Hab. now apply in_map.
  - now apply IH.
Qed.

Lemma with_icon_split (target : element) (name : string) (icon : node)
    (before after : list (element * string)) :
  NoDup (map anchor_ident (before ++ (target, name) :: after)) ->
  map (with_icon (ident target) icon) (before ++ (target, name) :: after)
  = map simple_anchor before
    ++ Element target [TextNode name; icon] :: map simple_anchor after.
Proof.
  intros Hnodup. rewrite map_app. cbn [map].
  rewrite map_app in Hnodup. cbn [map] in Hnodup.
  pose proof (NoDup_remove_2 _ _ _ Hnodup) as Hfresh.
  rewrite in_app_iff in Hfresh.
  f_equal; [| f_equal].
  - apply map_ext_in. intros a Ha. unfold with_icon.
    destruct (Nat.eqb_spec (anchor_ident a) (ident target)) as [Heq |];
      [| reflexivity].
    exfalso. apply Hfresh. left.
    change (anchor_ident (target, name)) with (ident target).
    rewrite <- Heq. now apply in_map.
  - unfold with_icon, anchor_ident. cbn [fst snd].
    now rewrite Nat.eqb_refl.
  - apply map_ext_in. intros a Ha. unfold with_icon.
    destruct (Nat.eqb_spec (anchor_ident a) (ident target)) as [Heq |];
      [| reflexivity].
    exfalso. apply Hfresh. right.
    change (anchor_ident (target, name)) with (ident target).
    rewrite <- Heq. now apply in_map.
Qed.

Lemma addActorIcon_cast_list (target : nat) (ranking : Z)
    (parameters : parameters) (p : page) :
  cast_list (addActorIcon target ranking parameters p)
  = map (append_in target (fst (actor_badge ranking parameters p)))
      (cast_list p).
Proof. reflexivity. Qed.

Lemma In_middle {A : Type} (x a : A) (before after : list A) :
  In x (before ++ a :: after) -> x = a \/ In x (before ++ after).
Proof.
  rewrite !in_app_iff. cbn. intros [H | [H | H]]; auto.
Qed.

Section ActorScenario.

Variable normalize : string -> string.
Hypothesis normalize_Name_B : normalize "Name B" = "Name B".

Variable p : page.
Variables before after : list (element * string).
Variable e : element.

Hypothesis Hcast : flat_cast p (before ++ (e, "Name B") :: after).
Hypothesis Hothers :
  Forall (fun a => ~ In (normalize (snd a)) two_names) (before ++ after).

Lemma other_anchor (a : element * string) :
  In a (before ++ (e, "Name B") :: after) -> anchor_ident a <> ident e ->
  ~ In (normalize (textContent (simple_anchor a))) two_names.
Proof.
  intros Ha Hne. apply In_middle in Ha as [-> | Ha].
  - now contradiction Hne.
  - rewrite Forall_forall in Hothers. exact (Hothers a Ha).
Qed.

Lemma other_ident (t : nat) :
  In t (map anchor_ident before) \/ In t (map anchor_ident after) ->
  t <> ident e /\ (t < next_ident p)%nat.
Proof.
  destruct Hcast as (_ & _ & Hnodup & Hfresh). intros Ht. split.
  - rewrite map_app in Hnodup.
    cbn [map] in Hnodup. apply NoDup_remove_2 in Hnodup.
    rewrite in_app_iff in Hnodup. intros ->. now apply Hnodup.
  - rewrite Forall_forall in Hfresh.
    assert (Hin : In t (map anchor_ident (before ++ (e, "Name B") :: after))).
    { rewrite map_app, in_app_iff. cbn.
      destruct Ht; auto. }
    apply in_map_iff in Hin as (a & <- & Ha). now apply Hfresh.
Qed.

Lemma visit_other_before (t : nat) :
  In t (map anchor_ident before) -> cast_visit normalize two_names p t = p.
Proof.
  intros Ht. destruct (other_ident t (or_introl Ht)) as [Hne _].
  destruct (lookup_forest t (cast_list p)) as [[e' children] |] eqn:Hfound.
  - apply (cast_visit_absent normalize two_names p t e' children Hfound).
    destruct Hcast as (Hlist & _). rewrite Hlist in Hfound.
    apply lookup_flat_found in Hfound as (a & Ha & Hident & -> & ->).
    apply (other_anchor a Ha). congruence.
  - unfold cast_visit. now rewrite Hfound.
Qed.

Lemma visit_target :
  cast_visit normalize two_names p (ident e)
  = addActorIcon (ident e) 2 actors_parameters p.
Proof.
  destruct Hcast as (Hlist & _ & Hnodup & _).
  assert (Htarget : In (e, "Name B") (before ++ (e, "Name B") :: after))
    by (rewrite in_app_iff; right; now left).
  pose proof (lookup_flat_some (e, "Name B") (before ++ (e, "Name B") :: after) Htarget) as Hsome.
  change (anchor_ident (e, "Name B")) with (ident e) in Hsome.
  destruct (lookup_forest (ident e) (map simple_anchor (before ++ (e, "Name B") :: after)))
    as [[e' children] |] eqn:Hfound; [| congruence].
  destruct (lookup_flat_found _ _ _ _ Hfound)
    as (a & Ha & Hident & -> & ->).
  assert (a = (e, "Name B")) as ->
    by (apply (NoDup_anchor_ident (before ++ (e, "Name B") :: after)); assumption).
  rewrite <- Hlist in Hfound.
  apply (cast_visit_present normalize two_names p (ident e) _ _ 1 Hfound);
    cbn [fst snd textContent map String.concat]; rewrite normalize_Name_B.
  - reflexivity.
  - cbn. intros [H | []]. discriminate H.
Qed.

Lemma visit_other_after (t : nat) :
  In t (map anchor_ident after) ->
  cast_visit normalize two_names
    (addActorIcon (ident e) 2 actors_parameters p) t
  = addActorIcon (ident e) 2 actors_parameters p.
Proof.
  intros Ht. destruct (other_ident t (or_intror Ht)) as [Hne Hfresh].
  destruct (lookup_forest t
              (cast_list (addActorIcon (ident e) 2 actors_parameters p)))
    as [[e' children] |] eqn:Hfound.
  - apply (cast_visit_absent normalize two_names _ t e' children Hfound).
    rewrite addActorIcon_cast_list in Hfound.
    destruct Hcast as (Hlist & _). rewrite Hlist, append_in_flat in Hfound.
    apply lookup_with_icon_found in Hfound
        as (a & Ha & Hident & -> & ->);
      try assumption; try (cbn; lia).
    apply (other_anchor a Ha). congruence.
  - unfold cast_visit. now rewrite Hfound.
Qed.

Lemma actor_scenario :
  getActors normalize (map (fun a => ident (fst a)) (cast_anchors p))
    (Fulfilled {| body := Some two_actors |}) p
  = (addActorIcon (ident e) 2 actors_parameters p, Fulfilled tt)
  /\ cast_list (addActorIcon (ident e) 2 actors_parameters p)
     = map simple_anchor before
       ++ Element e [TextNode "Name B";
                     fst (actor_badge 2 actors_parameters p)]
       :: map simple_anchor after.
Proof.
  destruct Hcast as (Hlist & Htags & Hnodup & Hfresh). split.
  - unfold two_actors. rewrite getActors_array by reflexivity.
    change (map actor_name _) with two_names.
    unfold cast_anchors. rewrite Hlist, cast_anchors_flat by assumption.
    rewrite map_map. cbn [fst].
    change (map (fun a : element * string => ident (fst a)) (before ++ (e, "Name B") :: after))
      with (map anchor_ident (before ++ (e, "Name B") :: after)).
    rewrite map_app. cbn [map].
    rewrite fold_left_app. cbn [fold_left].
    rewrite (fold_cast_visit_unchanged normalize two_names p)
      by apply visit_other_before.
    change (anchor_ident (e, "Name B")) with (ident e).
    rewrite visit_target.
    now rewrite (fold_cast_visit_unchanged normalize two_names)
      by apply visit_other_after.
  - rewrite addActorIcon_cast_list, Hlist, append_in_flat.
    now apply with_icon_split.
Qed.

End ActorScenario.




(** * Further properties *)

(** ** Page numbers and film identifiers *)

(** X1: the link of a badge points to page [k + 1] exactly for the hundred
    ranks from [100 * k] to [100 * k + 99]. *)
Theorem pageOf_band (r k : Z) :
  0 <= r -> (pageOf r = k + 1 <-> 100 * k <= r < 100 * k + 100).
Proof.
  intros Hr. rewrite pageOf_floor by assumption.
  pose proof (Z.div_mod r 100 ltac:(lia)) as Hdiv.
  pose proof (Z.mod_pos_bound r 100 ltac:(lia)) as Hmod.
  split; intros H; nia.
Qed.

Lemma pageOf_band_witness : pageOf 400 = 4 + 1 <-> 100 * 4 <= 400 < 100 * 4 + 100.
Proof. apply pageOf_band. lia. Defined.

Lemma read_digits_decimal (d : Decimal.uint) :
  forall a : Z,
    read_digits 10 (Some a) (NilEmpty.string_of_uint d)
    = Some (digits_value a d).
Proof.
  induction d; intros a; cbn [NilEmpty.string_of_uint digits_value];
    try reflexivity;
    cbn [read_digits]; cbv [digit_value]; cbn; apply IHd.
Qed.

Lemma of_uint_acc_digits (d : Decimal.uint) :
  forall acc : positive,
    Z.pos (Pos.of_uint_acc d acc) = digits_value (Z.pos acc) d.
Proof.
  induction d; intros acc; cbn [Pos.of_uint_acc digits_value];
    try reflexivity; rewrite IHd; f_equal; lia.
Qed.

Lemma of_uint_digits (d : Decimal.uint) :
  Z.of_N (Pos.of_uint d) = digits_value 0 d.
Proof.
  induction d; cbn [Pos.of_uint digits_value Z.of_N];
    try reflexivity; try exact IHd; apply of_uint_acc_digits.
Qed.

(** [parseInt] of a string that starts with a decimal digit, after an optional minus
    sign, once the first characters have been read. *)
Ltac parse_decimal :=
  cbn [NilEmpty.string_of_uint digits_value];
  match goal with
  | |- _ = Num (- digits_value ?a ?l) =>
      transitivity
        (match read_digits 10 (Some a) (NilEmpty.string_of_uint l) with
         | Some n => Num (-1 * n)
         | None => NaN
         end);
      [reflexivity | rewrite read_digits_decimal; f_equal; lia]
  | |- _ = Num (digits_value ?a ?l) =>
      transitivity
        (match read_digits 10 (Some a) (NilEmpty.string_of_uint l) with
         | Some n => Num (1 * n)
         | None => NaN
         end);
      [reflexivity | rewrite read_digits_decimal; f_equal; lia]
  end.

Lemma parseInt_decimal (d : Decimal.uint) :
  d <> Decimal.Nil ->
  parseInt (NilEmpty.string_of_uint d) = Num (digits_value 0 d)
  /\ parseInt (String "-" (NilEmpty.string_of_uint d))
     = Num (- digits_value 0 d).
Proof.
  intros Hd.
  destruct d as [| l | l | l | l | l | l | l | l | l | l];
    try congruence; try (split; parse_decimal).
  destruct l as [| l | l | l | l | l | l | l | l | l | l];
    split; try reflexivity; parse_decimal.
Qed.

Lemma parseInt_string_of_Z (z : Z) : parseInt (string_of_Z z) = Num z.
Proof.
  destruct z as [| q | q]; [reflexivity | |];
    unfold string_of_Z; cbn [Z.to_int NilZero.string_of_int];
    pose proof (DecimalPos.Unsigned.to_uint_nonnil q) as Hnil;
    pose proof (DecimalPos.Unsigned.of_to q) as Hback;
    apply (f_equal Z.of_N) in Hback; rewrite of_uint_digits in Hback;
    unfold NilZero.string_of_uint;
    destruct (Pos.to_uint q) eqn:Hq; try congruence;
    rewrite <- Hq in *;
    destruct (parseInt_decimal (Pos.to_uint q) Hnil) as [Hpos Hneg];
    rewrite ?Hpos, ?Hneg, Hback; reflexivity.
Qed.

(** X2: the identifier that the host page writes in decimal into
    [data-film-id] is the identifier the load handler passes to every
    [getData]: [parseInt] reads back what the decimal notation wrote, for an
    identifier of at most [2 ^ 53] in absolute value, which a number of the
    language holds exactly. *)
Theorem film_id_round_trip (p : page) (attrs : list (string * string)) (z : Z) :
  Z.abs z <= 2 ^ 53 ->
  film_poster p = Some (Some attrs) ->
  assoc "data-film-id" attrs = Some (string_of_Z z) ->
  film_id p = Normal (Num z)
  /\ load p
     = Normal (data_tasks (Num z)
               ++ [ActorsTask actors_file
                     (map (fun a => ident (fst a)) (cast_anchors p))]).
Proof.
  intros _ Hposter Hattr. unfold load, film_id.
  rewrite Hposter, Hattr, parseInt_string_of_Z. split; reflexivity.
Qed.

Lemma film_id_round_trip_witness :
  film_id Scenario.film_page = Normal (Num 20)
  /\ load Scenario.film_page
     = Normal (data_tasks (Num 20)
               ++ [ActorsTask actors_file
                     (map (fun a => ident (fst a))
                        (cast_anchors Scenario.film_page))]).
Proof.
  apply (film_id_round_trip Scenario.film_page [("data-film-id", "20")] 20);
    [vm_compute; discriminate | reflexivity | reflexivity].
Defined.

(** ** Entries, unreadable entries and what a continuation touches *)

(** X3: an entry of a ranking file is the film exactly when it is an object
    whose [Date] or [id] is the number of the film; no string, array, null
    or other value is, and no entry is the film NaN. *)
Theorem is_hit_iff (id : number) (item : jsval) :
  is_hit id item = true <->
  exists k fields,
    id = Num k /\ item = JObject fields
    /\ (assoc "Date" fields = Some (JNumber k)
        \/ assoc "id" fields = Some (JNumber k)).
Proof.
  unfold is_hit, is_film. split.
  - destruct item as [| | b | z | s | elems | fields]; cbn; try discriminate.
    destruct id as [| k];
      [destruct (assoc "Date" fields) as [[] |],
         (assoc "id" fields) as [[] |]; discriminate |].
    intros Hhit. exists k, fields. split; [reflexivity | split; [reflexivity |]].
    destruct (assoc "Date" fields) as [date |]; cbn in Hhit.
    + destruct (strict_eq_number date (Num k)) eqn:Hdate.
      * left. destruct date; try discriminate Hdate.
        cbn in Hdate. apply Z.eqb_eq in Hdate. now subst.
      * right. destruct (assoc "id" fields) as [v |]; cbn in Hhit;
          [| discriminate].
        destruct v; try discriminate Hhit.
        cbn in Hhit. destruct (Z.eqb_spec z k); [now subst | discriminate].
    + right. destruct (assoc "id" fields) as [v |]; cbn in Hhit;
        [| discriminate].
      destruct v; try discriminate Hhit.
      cbn in Hhit. destruct (Z.eqb_spec z k); [now subst | discriminate].
  - intros (k & fields & -> & -> & [Hdate | Hid]); cbn.
    + rewrite Hdate. cbn. now rewrite Z.eqb_refl.
    + destruct (assoc "Date" fields) as [date |]; cbn;
        [destruct (strict_eq_number date (Num k)); [reflexivity |] |];
        rewrite Hid; cbn; now rewrite Z.eqb_refl.
Qed.

Lemma unreadable_is_film (id : number) (bad : jsval) :
  has_properties bad = false -> is_film bad id = Throw TypeError.
Proof. destruct bad; try discriminate; reflexivity. Qed.

Lemma find_from_unreadable (type : Z) (id : number) (good rest : list jsval)
    (bad : jsval) :
  forallb has_properties good = true ->
  has_properties bad = false ->
  forall (i : nat) (p : page),
    find_from (getData_callback type id) (good ++ bad :: rest) i p
    = (add_badges type (ranks_from (is_hit id) good i) p,
       S (List.length good), Throw TypeError).
Proof.
  intros Hgood Hbad.
  induction good as [| item good IH]; intros i p.
  - cbn [app find_from]. unfold getData_callback.
    now rewrite (unreadable_is_film id bad Hbad).
  - cbn [forallb] in Hgood. apply andb_prop in Hgood as [Hitem Hgood].
    cbn [app find_from ranks_from]. unfold getData_callback at 1.
    rewrite (is_film_has_properties id item Hitem).
    destruct (is_hit id item); rewrite (IH Hgood); reflexivity.
Qed.

(** X4: an entry of a ranking file that is null stops the scan: the badge
    path has run for the occurrences of the film before it, those after it
    are never looked at, and the chain ends rejected with a TypeError. *)
Theorem getData_unreadable_entry (type : Z) (id : number)
    (good rest : list jsval) (bad : jsval) (p : page) :
  forallb has_properties good = true ->
  has_properties bad = false ->
  find (getData_callback type id) (JArray (good ++ bad :: rest)) p
  = (add_badges type (ranks_from (is_hit id) good 0) p,
     S (List.length good), Throw TypeError)
  /\ getData type id
       (Fulfilled {| body := Some (JArray (good ++ bad :: rest)) |}) p
     = (add_badges type (ranks_from (is_hit id) good 0) p,
        Rejected TypeError).
Proof.
  intros Hgood Hbad. split.
  - cbn [find]. now apply find_from_unreadable.
  - unfold getData, then_, json. cbn [body find].
    now rewrite find_from_unreadable.
Qed.

Lemma getData_unreadable_entry_witness :
  find (getData_callback 2 (Num 20))
    (JArray ([JObject [("id", JNumber 20)]]
             ++ JNull :: [JObject [("id", JNumber 20)]]))
    Scenario.film_page
  = (add_badges 2 (ranks_from (is_hit (Num 20)) [JObject [("id", JNumber 20)]] 0)
       Scenario.film_page,
     2%nat, Throw TypeError)
  /\ getData 2 (Num 20)
       (Fulfilled
          {| body := Some (JArray ([JObject [("id", JNumber 20)]]
                                   ++ JNull :: [JObject [("id", JNumber 20)]])) |})
       Scenario.film_page
     = (add_badges 2 (ranks_from (is_hit (Num 20)) [JObject [("id", JNumber 20)]] 0)
          Scenario.film_page,
        Rejected TypeError).
Proof. apply getData_unreadable_entry; reflexivity. Defined.

Lemma find_from_getActors_unreadable (items : list jsval) :
  forallb has_properties items = false ->
  forall (i : nat) (names : list string),
    snd (find_from getActors_callback items i names) = Throw TypeError.
Proof.
  induction items as [| item rest IH]; intros Hitems i names.
  - discriminate.
  - cbn [forallb] in Hitems. cbn [find_from].
    unfold getActors_callback at 1.
    destruct (has_properties item) eqn:Hitem.
    + cbn [andb] in Hitems.
      destruct (get_prop item "actor") as [actor | e] eqn:Hactor.
      * specialize (IH Hitems (S i) (names ++ [js_String actor])).
        destruct (find_from getActors_callback rest (S i)
                    (names ++ [js_String actor])) as [[names' visits] found].
        exact IH.
      * destruct item as [| | b | z | s | elems | fields];
          cbn in Hitem, Hactor; try discriminate.
        destruct (assoc "actor" fields); discriminate.
    + destruct item; try discriminate Hitem; reflexivity.
Qed.

(** X5: an entry of the actor file that is null leaves the cast list without
    any icon, also for the names that come before it in the file: the names
    are collected to the end before any anchor is looked up, and the chain
    ends rejected with a TypeError. *)
Theorem getActors_unreadable_entry (normalize : string -> string)
    (castAnchors : list nat) (items : list jsval) (p : page) :
  forallb has_properties items = false ->
  getActors normalize castAnchors
    (Fulfilled {| body := Some (JArray items) |}) p
  = (p, Rejected TypeError).
Proof.
  intros Hitems. unfold getActors, then_, json, getActors_then.
  cbn [body find].
  pose proof (find_from_getActors_unreadable items Hitems 0 []) as Hfind.
  destruct (find_from getActors_callback items 0 []) as [[names visits] found].
  cbn [snd] in Hfind. now subst found.
Qed.

Lemma getActors_unreadable_entry_witness :
  getActors Scenario.composed [4%nat; 5%nat]
    (Fulfilled
       {| body := Some (JArray [JObject [("actor", JString "Name B")]; JNull]) |})
    Scenario.film_page
  = (Scenario.film_page, Rejected TypeError).
Proof. apply getActors_unreadable_entry. reflexivity. Defined.

(** *** What a continuation touches *)

Lemma only_observes_refl (p : page) : only_observes p p.
Proof.
  repeat split; try reflexivity.
  exists []. split; [now rewrite app_nil_r | constructor].
Qed.

Lemma only_observes_trans (p q r : page) :
  only_observes p q -> only_observes q r -> only_observes p r.
Proof.
  intros ((added & Hq & Hadded) & Hn & Hf & Hc & Hs & He)
         ((added' & Hr & Hadded') & Hn' & Hf' & Hc' & Hs' & He').
  repeat split; try congruence; try lia.
  exists (added ++ added'). split.
  - now rewrite Hr, Hq, app_assoc.
  - apply Forall_app. now split.
Qed.

Lemma add_badge_only_observes (type ranking : Z) (p : page) :
  only_observes p (add_badge type ranking p).
Proof.
  unfold add_badge.
  destruct (type =? 1);
    [| destruct (parameters_of type) as [parameters |];
       [| apply only_observes_refl]];
    (repeat split; try reflexivity; [| cbn; lia]);
    eexists; (split; [reflexivity | repeat constructor]).
Qed.

Lemma find_from_only_observes (type : Z) (id : number) (items : list jsval) :
  forall (i : nat) (p : page),
    only_observes p (fst (fst (find_from (getData_callback type id) items i p))).
Proof.
  induction items as [| item rest IH]; intros i p; cbn [find_from].
  - apply only_observes_refl.
  - unfold getData_callback at 1.
    destruct (is_film item id) as [[|] | e]; cbn [fst];
      try apply only_observes_refl.
    + specialize (IH (S i) (add_badge type (Z.of_nat i + 1) p)).
      destruct (find_from (getData_callback type id) rest (S i)
                  (add_badge type (Z.of_nat i + 1) p))
        as [[p' visits] found].
      cbn [fst] in *.
      exact (only_observes_trans _ _ _
               (add_badge_only_observes type _ p) IH).
    + specialize (IH (S i) p).
      destruct (find_from (getData_callback type id) rest (S i) p)
        as [[p' visits] found].
      exact IH.
Qed.

Lemma getData_only_observes (type : Z) (id : number)
    (fetched : promise response) (p : page) :
  only_observes p (fst (getData type id fetched p)).
Proof.
  unfold getData, then_, json.
  destruct fetched as [res | e]; [| apply only_observes_refl].
  destruct (body res) as [out |]; [| apply only_observes_refl].
  destruct out as [| | b | z | s | items | fields];
    try apply only_observes_refl.
  cbn [find]. pose proof (find_from_only_observes type id items 0 p) as H.
  destruct (find_from (getData_callback type id) items 0 p)
    as [[p' visits] found].
  exact H.
Qed.

Lemma only_casts_refl (p : page) : only_casts p p.
Proof. repeat split; reflexivity. Qed.

Lemma only_casts_trans (p q r : page) :
  only_casts p q -> only_casts q r -> only_casts p r.
Proof.
  intros (Ho & Hn & Hf & Hs & He) (Ho' & Hn' & Hf' & Hs' & He').
  repeat split; try congruence; lia.
Qed.

Lemma cast_visit_only_casts (normalize : string -> string)
    (names : list string) (p : page) (target : nat) :
  only_casts p (cast_visit normalize names p target).
Proof.
  unfold cast_visit.
  destruct (lookup_forest target (cast_list p)) as [[e children] |];
    [| apply only_casts_refl].
  destruct (0 <=? indexOf _ names); [| apply only_casts_refl].
  repeat split; try reflexivity. cbn. lia.
Qed.

Lemma fold_cast_visit_only_casts (normalize : string -> string)
    (names : list string) (castAnchors : list nat) :
  forall p : page,
    only_casts p (fold_left (cast_visit normalize names) castAnchors p).
Proof.
  induction castAnchors as [| target rest IH]; intros p; cbn [fold_left].
  - apply only_casts_refl.
  - exact (only_casts_trans _ _ _
             (cast_visit_only_casts normalize names p target) (IH _)).
Qed.

Lemma getActors_only_casts (normalize : string -> string)
    (castAnchors : list nat) (fetched : promise response) (p : page) :
  only_casts p (fst (getActors normalize castAnchors fetched p)).
Proof.
  unfold getActors, then_, json, getActors_then.
  destruct fetched as [res | e]; [| apply only_casts_refl].
  destruct (body res) as [out |]; [| apply only_casts_refl].
  destruct (find getActors_callback out []) as [[names visits] [found | e]];
    cbn [fst]; [| apply only_casts_refl].
  apply fold_cast_visit_only_casts.
Qed.


(** ** When an observer mounts and when it waits *)

Lemma list_sum_zero (l : list nat) :
  list_sum l = 0%nat -> Forall (fun n => n = 0%nat) l.
Proof.
  induction l as [| n rest IH]; [constructor |].
  change (list_sum (n :: rest)) with (n + list_sum rest)%nat.
  intros H. constructor; [lia |]. apply IH. lia.
Qed.

Lemma remove_in_absent (i : nat) (n : node) :
  count_in (fun e => Nat.eqb (ident e) i) n = 0%nat ->
  remove_in i n = n /\ is_node i n = false.
Proof.
  induction n as [e children IH | data] using node_forall_ind.
  - cbn [count_in remove_in is_node]. intros Hcount.
    destruct (Nat.eqb (ident e) i) eqn:He; [lia |].
    split; [| reflexivity]. f_equal.
    cbn in Hcount. apply list_sum_zero in Hcount.
    rewrite Forall_map in Hcount.
    induction children as [| c rest IHrest]; [reflexivity |].
    inversion IH as [| ? ? Hc Hrest]; subst.
    inversion Hcount as [| ? ? Hzero Hzeros]; subst.
    destruct (Hc Hzero) as [Hsame Hnot].
    cbn [map filter]. rewrite Hsame, Hnot. cbn [negb]. f_equal.
    now apply IHrest.
  - intros _. now split.
Qed.

Lemma remove_forest_absent (i : nat) (l : list node) :
  absent_in i l -> remove_forest i l = l.
Proof.
  unfold absent_in, count_forest, remove_forest. intros Hcount.
  apply list_sum_zero in Hcount. rewrite Forall_map in Hcount.
  induction Hcount as [| n rest Hn _ IH]; [reflexivity |].
  destruct (remove_in_absent i n Hn) as [Hsame Hnot].
  cbn [map filter]. rewrite Hsame, Hnot. cbn [negb]. now f_equal.
Qed.

Lemma appendChild_statistic_absent (b : node) (i : nat) (p : page)
    (e : element) (children : list node) :
  node_ident b = Some i ->
  absent i p ->
  statistic_list p = Some (e, children) ->
  appendChild_statistic b p
  = with_statistic_list (Some (e, children ++ [b])) p.
Proof.
  intros Hb (Helsewhere & Hcast & Hstatistics) Hlist.
  unfold statistics in Hstatistics. rewrite Hlist in Hstatistics.
  rewrite (appendChild_statistic_some b i p e children Hb Hlist).
  unfold detach. rewrite Hlist.
  rewrite !remove_forest_absent by assumption.
  destruct p. reflexivity.
Qed.

Lemma disconnected_stays (o : observer) :
  connected o = false -> disconnected o = o.
Proof. destruct o. cbn. now intros ->. Qed.

(** What is left of the loops once the badge is in its place: no call
    changes the page, disconnects again in effect, or throws. *)
Lemma callback_nodes_settled (i : nat) (nodes : list node) :
  forall (o : observer) (p : page) (calls : nat),
    node_ident (badge o) = Some i ->
    mounted_by o p ->
    connected o = false ->
    page_of (callback_nodes nodes o p calls) = p
    /\ observer_of (callback_nodes nodes o p calls) = o
    /\ outcome (callback_nodes nodes o p calls) = Normal tt
    /\ (calls <= calls_of (callback_nodes nodes o p calls))%nat.
Proof.
  induction nodes as [| [e children | data] rest IH];
    intros o p calls Hb Hmounted Ho; cbn [callback_nodes].
  - cbn. repeat split. lia.
  - destruct (visit_mounted_by o p i Hb Hmounted) as (v & -> & Hpage).
    rewrite Hpage.
    replace (if disconnect v then disconnected o else o) with o
      by (destruct (disconnect v); [now rewrite disconnected_stays |
                                    reflexivity]).
    destruct (IH o p (calls + appendChild_calls v)%nat Hb Hmounted Ho)
      as (H1 & H2 & H3 & H4).
    repeat split; try assumption. lia.
  - now apply IH.
Qed.

Lemma callback_first_element (nodes : list node) :
  existsb is_element nodes = true ->
  exists e children rest,
    forall (o : observer) (p : page) (calls : nat),
      callback_nodes nodes o p calls
      = callback_nodes (Element e children :: rest) o p calls.
Proof.
  induction nodes as [| [e children | data] rest IH]; cbn [existsb is_element].
  - discriminate.
  - intros _. now exists e, children, rest.
  - cbn [orb]. intros Hrest.
    destruct (IH Hrest) as (e & children & rest' & Hsame).
    exists e, children, rest'. intros o p calls. cbn [callback_nodes].
    apply Hsame.
Qed.

(** The loop body of [addIcon] on a list that is ready, for a badge that
    is not yet in the document. *)
Lemma icon_visit_ready (o : observer) (p : page) (e : element)
    (children : list node) (i : nat) :
  mount_of o = IconMount ->
  node_ident (badge o) = Some i ->
  absent i p ->
  statistic_list p = Some (e, children) ->
  (1 < count_forest (has_tag "div") children)%nat ->
  visit o p
  = Normal {| page_after :=
                with_statistic_list
                  (Some (set_style "flexWrap" "wrap" e,
                         children ++ [badge o])) p;
              disconnect := true; appendChild_calls := 1 |}.
Proof.
  intros Ho Hb (Helsewhere & Hcast & Hstatistics) Hlist Hready.
  unfold visit, icon_visit. rewrite Ho, Hlist.
  apply Nat.ltb_lt in Hready. rewrite Hready.
  rewrite (appendChild_statistic_absent (badge o) i _
             (set_style "flexWrap" "wrap" e) children Hb).
  - now destruct p.
  - repeat split; try assumption.
    unfold statistics in *. cbn. now rewrite Hlist in Hstatistics.
  - reflexivity.
Qed.

(** X7: when the statistic list holds more than one [div] and a batch brings
    an element node, the observer of [addIcon] makes its badge the last
    child of the list, leaves the children that were there in place and in
    order, and disconnects; nothing throws.  The badge is a node that is
    nowhere in the document, as a badge just built is. *)
Theorem icon_mounts_when_ready (o : observer) (p : page)
    (mutations : list mutation_record) (e : element) (children : list node)
    (i : nat) :
  mount_of o = IconMount ->
  node_ident (badge o) = Some i ->
  absent i p ->
  statistic_list p = Some (e, children) ->
  (1 < count_forest (has_tag "div") children)%nat ->
  existsb is_element (flat_map addedNodes mutations) = true ->
  page_of (callback mutations o p)
  = with_statistic_list
      (Some (set_style "flexWrap" "wrap" e, children ++ [badge o])) p
  /\ observer_of (callback mutations o p) = disconnected o
  /\ (0 < calls_of (callback mutations o p))%nat
  /\ outcome (callback mutations o p) = Normal tt.
Proof.
  intros Ho Hb Habsent Hlist Hready Hnodes. unfold callback.
  destruct (callback_first_element _ Hnodes) as (e1 & children1 & rest & ->).
  cbn [callback_nodes].
  pose proof (icon_visit_ready o p e children i Ho Hb Habsent Hlist Hready)
    as Hvisit.
  rewrite Hvisit. cbn [disconnect page_after appendChild_calls].
  destruct (callback_nodes_settled i rest (disconnected o) _ (0 + 1)%nat Hb
              (visit_first_insertion o p _ Hvisit ltac:(cbn; lia)) eq_refl)
    as (Hpage & Hobserver & Houtcome & Hcalls).
  cbn [page_after] in Hpage, Hobserver, Houtcome, Hcalls.
  rewrite Hpage, Hobserver, Houtcome.
  repeat split. lia.
Qed.

Lemma icon_mounts_when_ready_witness :
  let p := addIcon 1 Scenario.watched_parameters Scenario.film_page in
  let o := {| mount_of := IconMount;
              badge := fst (icon_badge 1 Scenario.watched_parameters
                              Scenario.film_page);
              connected := true |} in
  page_of (callback Scenario.batch o p)
  = with_statistic_list
      (Some (set_style "flexWrap" "wrap"
               {| ident := 1; tagName := "div";
                  className := "production-statistic-list";
                  attributes := []; style := [] |},
             [Scenario.statistic 2 "12K"; Scenario.statistic 3 "3K"]
             ++ [badge o])) p
  /\ observer_of (callback Scenario.batch o p) = disconnected o
  /\ (0 < calls_of (callback Scenario.batch o p))%nat
  /\ outcome (callback Scenario.batch o p) = Normal tt.
Proof.
  intros p o.
  apply (icon_mounts_when_ready o p Scenario.batch _ _ 10).
  - reflexivity.
  - reflexivity.
  - repeat split; reflexivity.
  - reflexivity.
  - vm_compute. lia.
  - reflexivity.
Defined.

(** X8: while the page has no statistic list, a batch that brings an
    element node ends the callback with a [TypeError] at the first such
    node: nothing is inserted, the page is as it was, and the observer stays
    connected, so that a later batch is tried again.  A batch of text nodes
    only is passed over without an error. *)
Theorem observer_without_list (o : observer) (p : page)
    (mutations : list mutation_record) :
  statistic_list p = None ->
  callback mutations o p
  = {| page_of := p; observer_of := o; calls_of := 0;
       outcome := if existsb is_element (flat_map addedNodes mutations)
                  then Throw TypeError else Normal tt |}.
Proof.
  intros Hlist. unfold callback. generalize 0%nat as calls.
  induction (flat_map addedNodes mutations) as [| [e children | data] rest IH];
    intros calls; cbn [callback_nodes existsb is_element orb].
  - reflexivity.
  - unfold visit, crown_visit, icon_visit. rewrite Hlist.
    now destruct (mount_of o).
  - apply IH.
Qed.

Lemma observer_without_list_witness :
  let p := with_statistic_list None
             (addCrown 7 Scenario.film_page) in
  let o := {| mount_of := CrownMount;
              badge := fst (createTop250Element 7 Scenario.film_page);
              connected := true |} in
  callback Scenario.batch_of_two o p
  = {| page_of := p; observer_of := o; calls_of := 0;
       outcome := Throw TypeError |}.
Proof.
  intros p o. apply (observer_without_list o p Scenario.batch_of_two).
  reflexivity.
Defined.

(** X9: while the statistic list holds at most one [div], the callbacks
    wait: no badge is inserted, nothing throws, and the observer stays
    connected.  The observer of [addCrown] leaves the page as it is; the one
    of [addIcon] has by then set the wrap style on the list, which is all it
    changes. *)
Theorem observer_waits (o : observer) (p : page)
    (mutations : list mutation_record) (e : element) (children : list node) :
  statistic_list p = Some (e, children) ->
  (count_forest (has_tag "div") children <= 1)%nat ->
  callback mutations o p
  = {| page_of :=
         match mount_of o with
         | CrownMount => p
         | IconMount =>
             if existsb is_element (flat_map addedNodes mutations)
             then with_statistic_list
                    (Some (set_style "flexWrap" "wrap" e, children)) p
             else p
         end;
       observer_of := o; calls_of := 0; outcome := Normal tt |}.
Proof.
  intros Hlist Hwait. unfold callback. generalize 0%nat as calls.
  assert (Hnot : (1 <? count_forest (has_tag "div") children)%nat = false)
    by (apply Nat.ltb_ge; exact Hwait).
  revert p e Hlist.
  induction (flat_map addedNodes mutations)
    as [| [e1 children1 | data] rest IH];
    intros p e Hlist calls; cbn [callback_nodes existsb is_element orb].
  - now destruct (mount_of o).
  - unfold visit, crown_visit, icon_visit. rewrite Hlist, Hnot.
    destruct (mount_of o) eqn:Ho;
      cbn [page_after disconnect appendChild_calls].
    + rewrite (IH p e Hlist). now rewrite Nat.add_0_r.
    + rewrite (IH (with_statistic_list
                     (Some (set_style "flexWrap" "wrap" e, children)) p)
                 (set_style "flexWrap" "wrap" e) eq_refl).
      rewrite Nat.add_0_r, set_style_idem.
      now destruct (existsb is_element rest).
  - now apply IH.
Qed.

Lemma observer_waits_witness :
  let e := {| ident := 1; tagName := "div";
              className := "production-statistic-list";
              attributes := []; style := [] |} in
  let children := [Scenario.statistic 2 "12K"; TextNode " "] in
  let p := with_statistic_list (Some (e, children))
             (addIcon 1 Scenario.watched_parameters Scenario.film_page) in
  let o := {| mount_of := IconMount;
              badge := fst (icon_badge 1 Scenario.watched_parameters
                              Scenario.film_page);
              connected := true |} in
  callback Scenario.batch_of_two o p
  = {| page_of := with_statistic_list
                    (Some (set_style "flexWrap" "wrap" e, children)) p;
       observer_of := o; calls_of := 0; outcome := Normal tt |}.
Proof.
  intros e children p o.
  apply (observer_waits o p Scenario.batch_of_two e children).
  - reflexivity.
  - vm_compute. lia.
Defined.

Lemma callback_nodes_host_crown (nodes : list node) :
  forall (o : observer) (p : page) (e : element) (children : list node)
         (calls : nat),
    mount_of o = CrownMount ->
    statistic_list p = Some (e, children) ->
    (1 < count_forest (has_tag "div") children)%nat ->
    (1 <= count_class "-top250" p)%nat ->
    callback_nodes nodes o p calls
    = {| page_of := p;
         observer_of := if existsb is_element nodes then disconnected o
                        else o;
         calls_of := calls; outcome := Normal tt |}.
Proof.
  induction nodes as [| [e1 children1 | data] rest IH];
    intros o p e children calls Ho Hlist Hready Hcrown; cbn [callback_nodes].
  - reflexivity.
  - unfold visit, crown_visit. rewrite Ho, Hlist.
    apply Nat.ltb_lt in Hready. rewrite Hready.
    destruct (Nat.eqb_spec (count_class "-top250" p) 0) as [Hzero | _];
      [lia |].
    cbn [page_after disconnect appendChild_calls].
    rewrite (IH (disconnected o) p e children _ Ho Hlist
               ltac:(now apply Nat.ltb_lt) Hcrown).
    rewrite Nat.add_0_r. cbn [existsb is_element orb].
    now destruct (existsb is_element rest).
  - cbn [existsb is_element orb]. now apply (IH o p e children).
Qed.

(** A delivery to an observer of [addCrown] on a page that shows a
    crown: the observer lets go. *)
Lemma deliver_crown_guarded (k : nat) (o : observer) (p : page)
    (mutations : list mutation_record) (e : element) (children : list node) :
  nth_error (observers p) k = Some o ->
  connected o = true ->
  mount_of o = CrownMount ->
  statistic_list p = Some (e, children) ->
  (1 < count_forest (has_tag "div") children)%nat ->
  (1 <= count_class "-top250" p)%nat ->
  existsb is_element (flat_map addedNodes mutations) = true ->
  deliver k mutations p
  = (with_observers (set_nth k (disconnected o) (observers p)) p, 0%nat,
     Normal tt).
Proof.
  intros Hk Hconnected Ho Hlist Hready Hcrown Hnodes.
  unfold deliver, callback. rewrite Hk, Hconnected.
  rewrite (callback_nodes_host_crown _ o p e children 0 Ho Hlist Hready
             Hcrown), Hnodes.
  reflexivity.
Qed.

(** X10: on a page that shows a crown of its own (an element of class
    [-top250]) in a statistic list of more than one [div], the first batch
    with an element node that reaches the observer of [addCrown] makes it
    disconnect without inserting anything; and whatever happens afterwards,
    also when the host page later removes its crown, that observer never
    inserts its badge. *)
Theorem host_crown_retires (k : nat) (o : observer) (p : page)
    (mutations : list mutation_record) (e : element) (children : list node)
    (events : list event) :
  nth_error (observers p) k = Some o ->
  connected o = true ->
  mount_of o = CrownMount ->
  statistic_list p = Some (e, children) ->
  (1 < count_forest (has_tag "div") children)%nat ->
  (1 <= count_class "-top250" p)%nat ->
  existsb is_element (flat_map addedNodes mutations) = true ->
  deliver k mutations p
  = (with_observers (set_nth k (disconnected o) (observers p)) p, 0%nat,
     Normal tt)
  /\ filter (inserting k) (snd (run (Deliver k mutations :: events) p)) = [].
Proof.
  intros Hk Hconnected Ho Hlist Hready Hcrown Hnodes.
  pose proof (deliver_crown_guarded k o p mutations e children Hk Hconnected
                Ho Hlist Hready Hcrown Hnodes) as Hdeliver.
  split; [exact Hdeliver |].
  cbn [run step]. rewrite Hdeliver.
  destruct (run events _) as [p'' log'] eqn:Hrun.
  cbn [snd app filter].
  replace (inserting k (k, 0%nat)) with false
    by (unfold inserting; cbn [fst snd]; now rewrite Bool.andb_false_r).
  pose proof (run_disconnected k events
                (with_observers (set_nth k (disconnected o) (observers p)) p))
    as Hlater.
  rewrite Hrun in Hlater. apply Hlater.
  unfold connected_at. cbn [observers with_observers].
  rewrite nth_error_set_nth_eq; [reflexivity |].
  apply nth_error_Some. now rewrite Hk.
Qed.

Lemma host_crown_retires_witness :
  let e := {| ident := 1; tagName := "div";
              className := "production-statistic-list";
              attributes := []; style := [] |} in
  let host_crown :=
    Element {| ident := 3; tagName := "div";
               className := "production-statistic -top250";
               attributes := []; style := [] |} [TextNode "7"] in
  let children := [Scenario.statistic 2 "12K"; host_crown] in
  let p := addCrown 7
             (with_statistic_list (Some (e, children)) Scenario.film_page) in
  let o := {| mount_of := CrownMount;
              badge := fst (createTop250Element 7 Scenario.film_page);
              connected := true |} in
  let events := [HostChange Scenario.film_page;
                 Deliver 0 Scenario.batch_of_two] in
  deliver 0 Scenario.batch p
  = (with_observers (set_nth 0 (disconnected o) (observers p)) p, 0%nat,
     Normal tt)
  /\ filter (inserting 0) (snd (run (Deliver 0 Scenario.batch :: events) p))
     = [].
Proof.
  intros e host_crown children p o events.
  apply (host_crown_retires 0 o p Scenario.batch e children events).
  - reflexivity.
  - reflexivity.
  - reflexivity.
  - reflexivity.
  - vm_compute. lia.
  - vm_compute. lia.
  - reflexivity.
Defined.

(** ** Badges of several categories *)

Lemma count_in_below (i : nat) (n : node) :
  Forall (fun j => (j < i)%nat) (idents_in n) ->
  count_in (fun e => Nat.eqb (ident e) i) n = 0%nat.
Proof.
  induction n as [e children IH | data] using node_forall_ind;
    [| reflexivity].
  cbn [idents_in count_in]. intros Hbelow.
  inversion Hbelow as [| ? ? He Hchildren]; subst.
  replace (Nat.eqb (ident e) i) with false
    by (symmetry; apply Nat.eqb_neq; lia).
  cbn [Nat.add]. clear Hbelow He.
  induction IH as [| c rest IHc _ IHrest]; [reflexivity |].
  cbn [flat_map] in Hchildren. apply Forall_app in Hchildren as [Hc Hrest].
  change (list_sum (map (count_in (fun e0 => Nat.eqb (ident e0) i))
                      (c :: rest)))
    with (count_in (fun e0 => Nat.eqb (ident e0) i) c
          + list_sum (map (count_in (fun e0 => Nat.eqb (ident e0) i)) rest))%nat.
  now rewrite (IHc Hc), (IHrest Hrest).
Qed.

Lemma absent_in_below (i : nat) (l : list node) :
  Forall (fun j => (j < i)%nat) (flat_map idents_in l) -> absent_in i l.
Proof.
  unfold absent_in, count_forest.
  induction l as [| n rest IH]; [reflexivity |].
  cbn [flat_map]. intros Hbelow.
  apply Forall_app in Hbelow as [Hn Hrest].
  change (list_sum (map (count_in (fun e => Nat.eqb (ident e) i)) (n :: rest)))
    with (count_in (fun e => Nat.eqb (ident e) i) n
          + list_sum (map (count_in (fun e => Nat.eqb (ident e) i)) rest))%nat.
  now rewrite (count_in_below i n Hn), IH.
Qed.

Lemma absent_in_app (i : nat) (l1 l2 : list node) :
  absent_in i l1 -> absent_in i l2 -> absent_in i (l1 ++ l2).
Proof.
  unfold absent_in, count_forest. rewrite map_app, list_sum_app. lia.
Qed.

Lemma fresh_absent (p : page) (i : nat) :
  fresh p = true -> (next_ident p <= i)%nat -> absent i p.
Proof.
  unfold fresh. intros Hfresh Hi.
  assert (Hbelow :
            Forall (fun j => (j < i)%nat)
              (flat_map idents_in (elsewhere p)
               ++ flat_map idents_in (cast_list p)
               ++ flat_map idents_in (statistics p))).
  { apply Forall_forall. intros j Hj.
    pose proof (proj1 (forallb_forall _ _) Hfresh j Hj) as Hlt.
    apply Nat.ltb_lt in Hlt. lia. }
  apply Forall_app in Hbelow as [Helsewhere Hbelow].
  apply Forall_app in Hbelow as [Hcast Hstatistics].
  repeat split; now apply absent_in_below.
Qed.

Lemma ident_set_entries (entries : list (string * string)) :
  forall e : element, ident (set_entries entries e) = ident e.
Proof.
  unfold set_entries.
  induction entries as [| [k v] rest IH]; intros e; cbn [fold_left fst snd].
  - reflexivity.
  - rewrite IH. unfold setAttribute. now destruct (String.eqb k "class").
Qed.

Lemma icon_badge_idents (ranking : Z) (parameters : parameters) (p : page) :
  idents_in (fst (icon_badge ranking parameters p))
  = [next_ident p; S (next_ident p); S (S (next_ident p))].
Proof.
  unfold icon_badge, createElement. cbn. now rewrite ident_set_entries.
Qed.

Lemma addIcon_observers (ranking : Z) (parameters : parameters) (p : page) :
  observers (addIcon ranking parameters p)
  = observers p
    ++ [{| mount_of := IconMount;
           badge := fst (icon_badge ranking parameters p);
           connected := true |}].
Proof. reflexivity. Qed.

Lemma addIcon_document (ranking : Z) (parameters : parameters) (p : page) :
  next_ident (addIcon ranking parameters p) = S (S (S (next_ident p)))
  /\ statistic_list (addIcon ranking parameters p) = statistic_list p
  /\ cast_list (addIcon ranking parameters p) = cast_list p
  /\ elsewhere (addIcon ranking parameters p) = elsewhere p.
Proof. repeat split. Qed.

Lemma count_forest_app (P : element -> bool) (l1 l2 : list node) :
  count_forest P (l1 ++ l2) = (count_forest P l1 + count_forest P l2)%nat.
Proof. unfold count_forest. now rewrite map_app, list_sum_app. Qed.

(** A delivery to an observer of [addIcon] on a list that is ready. *)
Lemma deliver_icon_ready (k : nat) (o : observer) (p : page)
    (mutations : list mutation_record) (e : element) (children : list node)
    (i : nat) :
  nth_error (observers p) k = Some o ->
  connected o = true ->
  mount_of o = IconMount ->
  node_ident (badge o) = Some i ->
  absent i p ->
  statistic_list p = Some (e, children) ->
  (1 < count_forest (has_tag "div") children)%nat ->
  existsb is_element (flat_map addedNodes mutations) = true ->
  exists calls,
    deliver k mutations p
    = (with_observers (set_nth k (disconnected o) (observers p))
         (with_statistic_list
            (Some (set_style "flexWrap" "wrap" e, children ++ [badge o])) p),
       calls, Normal tt).
Proof.
  intros Hk Hconnected Ho Hb Habsent Hlist Hready Hnodes.
  unfold deliver, callback. rewrite Hk, Hconnected.
  destruct (callback_first_element _ Hnodes) as (e1 & children1 & rest & ->).
  cbn [callback_nodes].
  pose proof (icon_visit_ready o p e children i Ho Hb Habsent Hlist Hready)
    as Hvisit.
  rewrite Hvisit. cbn [disconnect page_after appendChild_calls].
  destruct (callback_nodes_settled i rest (disconnected o) _ (0 + 1)%nat Hb
              (visit_first_insertion o p _ Hvisit ltac:(cbn; lia)) eq_refl)
    as (Hpage & Hobserver & Houtcome & _).
  cbn [page_after] in Hpage, Hobserver, Houtcome.
  rewrite Hpage, Hobserver, Houtcome. eexists. reflexivity.
Qed.

(** X11: badges of two categories add up.  On a page whose statistic list
    is ready, [addIcon] called for two rankings and followed by a batch for
    each observer leaves the list with the children it had, then the first
    badge, then the second: the second insertion does not move or remove
    the first, the rest of the document is as it was, and both observers
    are disconnected. *)
Theorem icons_accumulate (q : page) (r1 r2 : Z) (ps1 ps2 : parameters)
    (m1 m2 : list mutation_record) (e : element) (children : list node) :
  fresh q = true ->
  statistic_list q = Some (e, children) ->
  (1 < count_forest (has_tag "div") children)%nat ->
  existsb is_element (flat_map addedNodes m1) = true ->
  existsb is_element (flat_map addedNodes m2) = true ->
  let k := List.length (observers q) in
  let p := addIcon r2 ps2 (addIcon r1 ps1 q) in
  let p' := fst (run [Deliver k m1; Deliver (S k) m2] p) in
  statistic_list p'
  = Some (set_style "flexWrap" "wrap" e,
          children ++ [fst (icon_badge r1 ps1 q);
                       fst (icon_badge r2 ps2 (addIcon r1 ps1 q))])
  /\ cast_list p' = cast_list q
  /\ elsewhere p' = elsewhere q
  /\ connected_at k p' = false
  /\ connected_at (S k) p' = false.
Proof.
  intros Hfresh Hlist Hready Hm1 Hm2 k p p'.
  set (pa := addIcon r1 ps1 q) in *.
  set (o1 := {| mount_of := IconMount; badge := fst (icon_badge r1 ps1 q);
                connected := true |}).
  set (o2 := {| mount_of := IconMount; badge := fst (icon_badge r2 ps2 pa);
                connected := true |}).
  assert (Hobservers : observers p = observers q ++ [o1; o2]).
  { unfold p. rewrite addIcon_observers. unfold pa.
    rewrite addIcon_observers, <- app_assoc. reflexivity. }
  assert (Hk1 : nth_error (observers p) k = Some o1).
  { rewrite Hobservers, nth_error_app2 by (unfold k; lia).
    unfold k. now rewrite Nat.sub_diag. }
  assert (Hk2 : nth_error (observers p) (S k) = Some o2).
  { rewrite Hobservers, nth_error_app2 by (unfold k; lia).
    unfold k. now replace (S (List.length (observers q))
                           - List.length (observers q))%nat with 1%nat by lia. }
  assert (Hb1 : node_ident (badge o1) = Some (next_ident q)) by reflexivity.
  assert (Hb2 : node_ident (badge o2) = Some (next_ident pa)) by reflexivity.
  assert (Habsent1 : absent (next_ident q) p)
    by (apply (fresh_absent q); [exact Hfresh | lia]).
  destruct (deliver_icon_ready k o1 p m1 e children (next_ident q) Hk1
              eq_refl eq_refl Hb1 Habsent1 Hlist Hready Hm1)
    as (calls1 & Hdeliver1).
  set (p1 := with_observers (set_nth k (disconnected o1) (observers p))
               (with_statistic_list
                  (Some (set_style "flexWrap" "wrap" e,
                         children ++ [badge o1])) p)) in *.
  assert (Habsent2 : absent (next_ident pa) p1).
  { destruct (fresh_absent q (next_ident pa) Hfresh ltac:(cbn; lia))
      as (Helsewhere & Hcast & Hstatistics).
    repeat split; try assumption.
    unfold statistics in *. rewrite Hlist in Hstatistics.
    unfold p1. cbn [statistic_list with_observers with_statistic_list].
    apply absent_in_app; [exact Hstatistics |].
    apply absent_in_below. cbn [flat_map]. rewrite app_nil_r.
    change (badge o1) with (fst (icon_badge r1 ps1 q)).
    rewrite icon_badge_idents. cbn. repeat constructor; lia. }
  assert (Hready2 :
            (1 < count_forest (has_tag "div") (children ++ [badge o1]))%nat)
    by (rewrite count_forest_app; lia).
  assert (Hk2' : nth_error (observers p1) (S k) = Some o2).
  { unfold p1. cbn [observers with_observers].
    rewrite nth_error_set_nth_neq by lia. exact Hk2. }
  destruct (deliver_icon_ready (S k) o2 p1 m2
              (set_style "flexWrap" "wrap" e) (children ++ [badge o1])
              (next_ident pa) Hk2' eq_refl eq_refl Hb2 Habsent2 eq_refl
              Hready2 Hm2)
    as (calls2 & Hdeliver2).
  assert (Hrun :
            p' = with_observers
                   (set_nth (S k) (disconnected o2) (observers p1))
                   (with_statistic_list
                      (Some (set_style "flexWrap" "wrap"
                               (set_style "flexWrap" "wrap" e),
                             (children ++ [badge o1]) ++ [badge o2])) p1)).
  { unfold p'. cbn [run step]. rewrite Hdeliver1, Hdeliver2. reflexivity. }
  rewrite Hrun. unfold connected_at.
  cbn [statistic_list cast_list elsewhere observers with_observers
       with_statistic_list p1].
  rewrite set_style_idem, <- app_assoc.
  repeat split.
  - rewrite nth_error_set_nth_neq by lia.
    rewrite nth_error_set_nth_eq; [reflexivity |].
    apply nth_error_Some. now rewrite Hk1.
  - rewrite nth_error_set_nth_eq; [reflexivity |].
    rewrite <- (nth_error_Some (set_nth k (disconnected o1) (observers p))).
    rewrite nth_error_set_nth_neq by lia. now rewrite Hk2.
Qed.

Lemma icons_accumulate_witness :
  let q := Scenario.film_page in
  let p' := fst (run [Deliver 0 Scenario.batch; Deliver 1 Scenario.batch_of_two]
                   (addIcon 2 Scenario.watched_parameters
                      (addIcon 1 Scenario.watched_parameters q))) in
  statistic_list p'
  = Some (set_style "flexWrap" "wrap"
            {| ident := 1; tagName := "div";
               className := "production-statistic-list";
               attributes := []; style := [] |},
          [Scenario.statistic 2 "12K"; Scenario.statistic 3 "3K"]
          ++ [fst (icon_badge 1 Scenario.watched_parameters q);
              fst (icon_badge 2 Scenario.watched_parameters
                     (addIcon 1 Scenario.watched_parameters q))])
  /\ cast_list p' = cast_list q
  /\ elsewhere p' = elsewhere q
  /\ connected_at 0 p' = false
  /\ connected_at 1 p' = false.
Proof.
  intros q.
  apply (icons_accumulate q 1 2 Scenario.watched_parameters
           Scenario.watched_parameters Scenario.batch Scenario.batch_of_two).
  - reflexivity.
  - reflexivity.
  - vm_compute. lia.
  - reflexivity.
  - reflexivity.
Defined.

Lemma count_class_last (c : string) (b : node) (p : page) (e : element)
    (children : list node) :
  statistic_list p = Some (e, children) ->
  count_class c (with_statistic_list (Some (e, children ++ [b])) p)
  = (count_class c p + count_in (has_class c) b)%nat.
Proof.
  intros Hlist. unfold count_class.
  cbn [elsewhere cast_list statistic_list with_statistic_list].
  rewrite Hlist. cbn [count_in]. rewrite map_app, list_sum_app.
  cbn [map list_sum fold_right]. lia.
Qed.

Lemma createTop250Element_idents (ranking : Z) (p : page) :
  idents_in (fst (createTop250Element ranking p))
  = [next_ident p; S (next_ident p); S (S (next_ident p));
     S (S (S (next_ident p))); S (S (S (S (next_ident p))))].
Proof. reflexivity. Qed.

Lemma createTop250Element_marked (ranking : Z) (p : page) :
  count_in (has_class "-top250") (fst (createTop250Element ranking p))
  = 1%nat.
Proof. reflexivity. Qed.

Lemma addCrown_document (ranking : Z) (p : page) :
  statistic_list (addCrown ranking p) = statistic_list p
  /\ cast_list (addCrown ranking p) = cast_list p
  /\ elsewhere (addCrown ranking p) = elsewhere p.
Proof. repeat split. Qed.

Lemma count_class_document (c : string) (p p' : page) :
  statistic_list p' = statistic_list p ->
  cast_list p' = cast_list p ->
  elsewhere p' = elsewhere p ->
  count_class c p' = count_class c p.
Proof. unfold count_class. now intros -> -> ->. Qed.

Lemma absent_document (i : nat) (p p' : page) :
  statistic_list p' = statistic_list p ->
  cast_list p' = cast_list p ->
  elsewhere p' = elsewhere p ->
  absent i p -> absent i p'.
Proof. unfold absent, statistics. now intros -> -> ->. Qed.

Lemma addCrown_observers (ranking : Z) (p : page) :
  observers (addCrown ranking p)
  = observers p
    ++ [{| mount_of := CrownMount;
           badge := fst (createTop250Element ranking p);
           connected := true |}].
Proof. reflexivity. Qed.

(** A delivery to an observer of [addCrown] on a list that is ready, on a
    page that shows no crown, for a badge of class [-top250] that is not
    yet in the document. *)
Lemma deliver_crown_ready (k : nat) (o : observer) (p : page)
    (mutations : list mutation_record) (e : element) (children : list node)
    (i : nat) :
  nth_error (observers p) k = Some o ->
  connected o = true ->
  mount_of o = CrownMount ->
  node_ident (badge o) = Some i ->
  absent i p ->
  statistic_list p = Some (e, children) ->
  (1 < count_forest (has_tag "div") children)%nat ->
  count_class "-top250" p = 0%nat ->
  (1 <= count_in (has_class "-top250") (badge o))%nat ->
  existsb is_element (flat_map addedNodes mutations) = true ->
  deliver k mutations p
  = (with_observers (set_nth k (disconnected o) (observers p))
       (with_statistic_list (Some (e, children ++ [badge o])) p),
     1%nat, Normal tt).
Proof.
  intros Hk Hconnected Ho Hb Habsent Hlist Hready Hguard Hmark Hnodes.
  unfold deliver, callback. rewrite Hk, Hconnected.
  destruct (callback_first_element _ Hnodes) as (e1 & children1 & rest & ->).
  cbn [callback_nodes]. unfold visit, crown_visit. rewrite Ho, Hlist, Hguard.
  assert (Hltb : (1 <? count_forest (has_tag "div") children)%nat = true)
    by now apply Nat.ltb_lt.
  rewrite Hltb. cbn [Nat.eqb page_after disconnect appendChild_calls].
  rewrite (appendChild_statistic_absent (badge o) i p e children Hb Habsent
             Hlist).
  rewrite (callback_nodes_host_crown rest (disconnected o)
             (with_statistic_list (Some (e, children ++ [badge o])) p) e
             (children ++ [badge o]) (0 + 1) Ho eq_refl).
  - cbn [page_of observer_of calls_of outcome].
    now destruct (existsb is_element rest).
  - rewrite count_forest_app. lia.
  - rewrite (count_class_last _ _ p e children Hlist). lia.
Qed.

(** X12: crowns do not add up.  When [addCrown] has run twice on a page
    that shows no crown, as for a film that the file lists twice, and the
    list is ready, the first observer inserts its crown with one
    [appendChild] and the second, finding the class [-top250] on the page,
    inserts nothing: the list ends with the crown of the first rank alone,
    and both observers are disconnected. *)
Theorem crowns_do_not_accumulate (q : page) (r1 r2 : Z)
    (m1 m2 : list mutation_record) (e : element) (children : list node) :
  fresh q = true ->
  statistic_list q = Some (e, children) ->
  (1 < count_forest (has_tag "div") children)%nat ->
  count_class "-top250" q = 0%nat ->
  existsb is_element (flat_map addedNodes m1) = true ->
  existsb is_element (flat_map addedNodes m2) = true ->
  let k := List.length (observers q) in
  let p := addCrown r2 (addCrown r1 q) in
  let done := run [Deliver k m1; Deliver (S k) m2] p in
  statistic_list (fst done)
  = Some (e, children ++ [fst (createTop250Element r1 q)])
  /\ snd done = [(k, 1%nat); (S k, 0%nat)]
  /\ connected_at k (fst done) = false
  /\ connected_at (S k) (fst done) = false.
Proof.
  intros Hfresh Hlist Hready Hguard Hm1 Hm2 k p done.
  set (b1 := fst (createTop250Element r1 q)).
  set (o1 := {| mount_of := CrownMount; badge := b1; connected := true |}).
  set (o2 := {| mount_of := CrownMount;
                badge := fst (createTop250Element r2 (addCrown r1 q));
                connected := true |}).
  assert (Hobservers : observers p = observers q ++ [o1; o2]).
  { unfold p. rewrite addCrown_observers, addCrown_observers, <- app_assoc.
    reflexivity. }
  assert (Hk1 : nth_error (observers p) k = Some o1).
  { rewrite Hobservers, nth_error_app2 by (unfold k; lia).
    unfold k. now rewrite Nat.sub_diag. }
  assert (Hk2 : nth_error (observers p) (S k) = Some o2).
  { rewrite Hobservers, nth_error_app2 by (unfold k; lia).
    unfold k. now replace (S (List.length (observers q))
                           - List.length (observers q))%nat with 1%nat by lia. }
  destruct (addCrown_document r1 q) as (Hs1 & Hc1 & He1).
  destruct (addCrown_document r2 (addCrown r1 q)) as (Hs2 & Hc2 & He2).
  fold p in Hs2, Hc2, He2.
  rewrite Hs1 in Hs2. rewrite Hc1 in Hc2. rewrite He1 in He2.
  assert (Hlistp : statistic_list p = Some (e, children))
    by (now rewrite Hs2).
  assert (Hguardp : count_class "-top250" p = 0%nat)
    by (now rewrite (count_class_document _ q p Hs2 Hc2 He2)).
  assert (Habsent : absent (next_ident q) p)
    by (apply (absent_document _ q p Hs2 Hc2 He2);
        exact (fresh_absent q _ Hfresh (le_n _))).
  assert (Hb1 : node_ident (badge o1) = Some (next_ident q))
    by reflexivity.
  assert (Hmark : (1 <= count_in (has_class "-top250") (badge o1))%nat)
    by (cbn [badge o1]; unfold b1; rewrite createTop250Element_marked; lia).
  assert (Ho1 : mount_of o1 = CrownMount /\ connected o1 = true
                /\ badge o1 = b1) by (repeat split).
  assert (Ho2 : mount_of o2 = CrownMount /\ connected o2 = true)
    by (repeat split).
  clearbody p o1 o2 b1.
  destruct Ho1 as (Hmount1 & Hconnected1 & Hbadge1).
  destruct Ho2 as (Hmount2 & Hconnected2).
  pose proof (deliver_crown_ready k o1 p m1 e children (next_ident q) Hk1
                Hconnected1 Hmount1 Hb1 Habsent Hlistp Hready Hguardp Hmark
                Hm1) as Hdeliver1.
  set (p1 := with_observers (set_nth k (disconnected o1) (observers p))
               (with_statistic_list (Some (e, children ++ [badge o1])) p))
    in *.
  assert (Hk2' : nth_error (observers p1) (S k) = Some o2).
  { unfold p1. cbn [observers with_observers].
    rewrite nth_error_set_nth_neq by lia. exact Hk2. }
  assert (Hmarked : (1 <= count_class "-top250" p1)%nat).
  { unfold p1.
    rewrite (count_class_document _
               (with_statistic_list (Some (e, children ++ [badge o1])) p)
               (with_observers (set_nth k (disconnected o1) (observers p))
                  (with_statistic_list
                     (Some (e, children ++ [badge o1])) p))
               eq_refl eq_refl eq_refl).
    rewrite (count_class_last _ _ p e children Hlistp). lia. }
  pose proof (deliver_crown_guarded (S k) o2 p1 m2 e (children ++ [badge o1])
                Hk2' Hconnected2 Hmount2 eq_refl
                ltac:(rewrite count_forest_app; lia) Hmarked Hm2)
    as Hdeliver2.
  assert (Hdone :
            done
            = (with_observers
                 (set_nth (S k) (disconnected o2) (observers p1)) p1,
               [(k, 1%nat); (S k, 0%nat)])).
  { unfold done. cbn [run step]. rewrite Hdeliver1, Hdeliver2. reflexivity. }
  rewrite Hdone. unfold connected_at.
  cbn [fst snd statistic_list observers with_observers with_statistic_list
       p1].
  rewrite Hbadge1. repeat split.
  - rewrite nth_error_set_nth_neq by lia.
    rewrite nth_error_set_nth_eq; [reflexivity |].
    apply nth_error_Some. now rewrite Hk1.
  - rewrite nth_error_set_nth_eq; [reflexivity |].
    rewrite <- (nth_error_Some (set_nth k (disconnected o1) (observers p))).
    rewrite nth_error_set_nth_neq by lia. now rewrite Hk2.
Qed.

Lemma crowns_do_not_accumulate_witness :
  let q := Scenario.film_page in
  let done := run [Deliver 0 Scenario.batch_of_two; Deliver 1 Scenario.batch]
                (addCrown 12 (addCrown 7 q)) in
  statistic_list (fst done)
  = Some ({| ident := 1; tagName := "div";
             className := "production-statistic-list";
             attributes := []; style := [] |},
          [Scenario.statistic 2 "12K"; Scenario.statistic 3 "3K"]
          ++ [fst (createTop250Element 7 q)])
  /\ snd done = [(0%nat, 1%nat); (1%nat, 0%nat)]
  /\ connected_at 0 (fst done) = false
  /\ connected_at 1 (fst done) = false.
Proof.
  intros q.
  apply (crowns_do_not_accumulate q 7 12 Scenario.batch_of_two Scenario.batch).
  - reflexivity.
  - reflexivity.
  - vm_compute. lia.
  - reflexivity.
  - reflexivity.
  - reflexivity.
Defined.

(** ** The earlier version of the script *)

Lemma legacy_is_film_has_properties (id : number) (item : jsval) :
  has_properties item = true ->
  Legacy.is_film item id = Normal (Legacy.is_hit id item).
Proof.
  intros Hitem. unfold Legacy.is_hit, Legacy.is_film.
  destruct item as [| | b | z | s | elems | fields]; try discriminate Hitem;
    cbn [get_prop]; try reflexivity.
  destruct (assoc "Date" fields) as [date |]; cbn;
    try destruct (strict_eq_number date id); reflexivity.
Qed.

Lemma keyed_by_date_same_hit (id : number) (item : jsval) :
  keyed_by_date item = true -> is_hit id item = Legacy.is_hit id item.
Proof.
  unfold keyed_by_date, is_hit, Legacy.is_hit, is_film, Legacy.is_film.
  destruct item as [| | b | z | s | elems | fields]; try discriminate.
  cbn [get_prop]. destruct (assoc "id" fields) as [v |]; [discriminate |].
  intros _.
  destruct (assoc "Date" fields) as [date |]; cbn;
    try destruct (strict_eq_number date id); reflexivity.
Qed.

Lemma keyed_by_id_no_hit (id : number) (item : jsval) :
  keyed_by_id item = true -> Legacy.is_hit id item = false.
Proof.
  unfold keyed_by_id, Legacy.is_hit, Legacy.is_film.
  destruct item as [| | b | z | s | elems | fields]; try discriminate.
  cbn [get_prop]. now destruct (assoc "Date" fields).
Qed.

(** X13: the test of the earlier script, [item.Date === id], is the
    narrower one.  Every entry it accepts the present test accepts; on an
    entry without an [id] property the two agree; an entry that names the
    film by [id] and has no [Date] is accepted by the present script and
    invisible to the earlier one. *)
Theorem legacy_test_is_narrower (id : number) (item : jsval) :
  (Legacy.is_hit id item = true -> is_hit id item = true)
  /\ (keyed_by_date item = true -> is_hit id item = Legacy.is_hit id item)
  /\ (forall (fields : list (string * jsval)) (k : Z),
         item = JObject fields ->
         id = Num k ->
         assoc "Date" fields = None ->
         assoc "id" fields = Some (JNumber k) ->
         is_hit id item = true /\ Legacy.is_hit id item = false).
Proof.
  split; [| split].
  - unfold Legacy.is_hit, is_hit, Legacy.is_film, is_film.
    destruct (get_prop item "Date") as [date | err]; [| discriminate].
    destruct (strict_eq_number date id); [reflexivity | discriminate].
  - apply keyed_by_date_same_hit.
  - intros fields k -> -> Hdate Hid.
    unfold is_hit, Legacy.is_hit, is_film, Legacy.is_film.
    cbn [get_prop]. rewrite Hdate, Hid. cbn [strict_eq_number].
    now rewrite Z.eqb_refl.
Qed.

Lemma legacy_test_is_narrower_witness :
  is_hit (Num 20) (JObject [("id", JNumber 20)]) = true
  /\ Legacy.is_hit (Num 20) (JObject [("id", JNumber 20)]) = false.
Proof.
  apply (proj2 (proj2 (legacy_test_is_narrower
                         (Num 20) (JObject [("id", JNumber 20)])))
           [("id", JNumber 20)] 20);
    reflexivity.
Defined.

Lemma legacy_find_from_getData_callback (type : Z) (id : number)
    (items : list jsval) :
  forallb has_properties items = true ->
  forall (i : nat) (p : Legacy.page),
    find_from (Legacy.getData_callback type id) items i p
    = (Legacy.add_badges type (ranks_from (Legacy.is_hit id) items i) p,
       List.length items, Normal JUndefined).
Proof.
  induction items as [| item rest IH]; intros Hitems i p.
  - reflexivity.
  - cbn [forallb] in Hitems. apply andb_prop in Hitems as [Hitem Hrest].
    cbn [find_from ranks_from]. unfold Legacy.getData_callback at 1.
    rewrite (legacy_is_film_has_properties id item Hitem).
    destruct (Legacy.is_hit id item); rewrite (IH Hrest); reflexivity.
Qed.

Lemma ranks_from_ext (hit hit' : jsval -> bool) (items : list jsval) :
  Forall (fun item => hit item = hit' item) items ->
  forall i : nat, ranks_from hit items i = ranks_from hit' items i.
Proof.
  induction 1 as [| item rest Hitem _ IH]; intros i; [reflexivity |].
  cbn [ranks_from]. now rewrite Hitem, IH.
Qed.

Lemma keyed_has_properties (items : list jsval) :
  forallb (fun item => keyed_by_date item || keyed_by_id item) items = true ->
  forallb has_properties items = true.
Proof.
  induction items as [| item rest IH]; [reflexivity |].
  cbn [forallb]. intros Hitems. apply andb_prop in Hitems as [Hitem Hrest].
  rewrite (IH Hrest), Bool.andb_true_r.
  destruct item; try reflexivity; discriminate Hitem.
Qed.

(** X14: on a ranking file in the earlier format, whose entries are objects
    without an [id] property, the earlier [getData] sets up its badges for
    exactly the ranks the present script finds, in the same order; a file
    whose entries carry no [Date] gives it no badge at all, whatever the
    film. *)
Theorem legacy_getData_ranks (type : Z) (id : number) (items : list jsval)
    (p : Legacy.page) :
  (forallb keyed_by_date items = true ->
   Legacy.getData type id (Fulfilled {| body := Some (JArray items) |}) p
   = (Legacy.add_badges type (ranks_from (is_hit id) items 0) p,
      Fulfilled tt))
  /\ (forallb keyed_by_id items = true ->
      Legacy.getData type id (Fulfilled {| body := Some (JArray items) |}) p
      = (p, Fulfilled tt)).
Proof.
  split; intros Hitems.
  - unfold Legacy.getData, Legacy.then_, json. cbn [body find].
    rewrite legacy_find_from_getData_callback.
    + rewrite (ranks_from_ext (Legacy.is_hit id) (is_hit id)); [reflexivity |].
      apply Forall_forall. intros item Hin. symmetry.
      apply keyed_by_date_same_hit.
      exact (proj1 (forallb_forall _ _) Hitems item Hin).
    + apply keyed_has_properties.
      apply forallb_forall. intros item Hin.
      now rewrite (proj1 (forallb_forall _ _) Hitems item Hin).
  - unfold Legacy.getData, Legacy.then_, json. cbn [body find].
    rewrite legacy_find_from_getData_callback.
    + rewrite ranks_from_none; [reflexivity |].
      intros item Hin. apply keyed_by_id_no_hit.
      exact (proj1 (forallb_forall _ _) Hitems item Hin).
    + apply keyed_has_properties.
      apply forallb_forall. intros item Hin.
      rewrite (proj1 (forallb_forall _ _) Hitems item Hin).
      apply Bool.orb_true_r.
Qed.

Lemma legacy_getData_ranks_witness :
  Legacy.getData 3 (Num 20)
    (Fulfilled {| body := Some (JArray [JObject [("Date", JNumber 10)];
                                        JObject [("Date", JNumber 20)]]) |})
    Legacy.film_page
  = (Legacy.add_badges 3 [2] Legacy.film_page, Fulfilled tt)
  /\ Legacy.getData 2 (Num 20)
       (Fulfilled {| body := Some (JArray [JObject [("id", JNumber 20)]]) |})
       Legacy.film_page
     = (Legacy.film_page, Fulfilled tt).
Proof.
  split.
  - apply (proj1 (legacy_getData_ranks 3 (Num 20)
                    [JObject [("Date", JNumber 10)];
                     JObject [("Date", JNumber 20)]] Legacy.film_page)).
    reflexivity.
  - apply (proj2 (legacy_getData_ranks 2 (Num 20)
                    [JObject [("id", JNumber 20)]] Legacy.film_page)).
    reflexivity.
Defined.

(** X15: the present script keeps the tables of the earlier one.  For the
    same film, the nine fetches the earlier load handler issues are the
    first nine of the present one, under the same type codes; every type
    code has the list, icon and size it had; the codes above 9 are unknown
    to the earlier [getData], which then sets up nothing. *)
Theorem legacy_tables_kept :
  (forall (p : Legacy.page) (id : number),
      Legacy.film_id p = Normal id ->
      Legacy.load p = Normal (firstn 9 (data_tasks id)))
  /\ (forall type : Z,
         Legacy.parameters_of type
         = if type <=? 9 then parameters_of type else None)
  /\ (forall (type ranking : Z) (p : Legacy.page),
         9 < type -> Legacy.add_badge type ranking p = p).
Proof.
  assert (Htable :
            forall type : Z,
              Legacy.parameters_of type
              = if type <=? 9 then parameters_of type else None).
  { intros [| type | type]; try reflexivity.
    do 5 (try destruct type as [type | type |]; try reflexivity). }
  split; [| split; [exact Htable |]].
  - intros p id Hid. unfold Legacy.load. now rewrite Hid.
  - intros type ranking p Htype. unfold Legacy.add_badge.
    destruct (Z.eqb_spec type 1) as [-> | _]; [lia |].
    rewrite Htable.
    destruct (Z.leb_spec type 9) as [Hle | _]; [lia | reflexivity].
Qed.

Lemma legacy_tables_kept_witness :
  Legacy.add_badge 10 5 Legacy.film_page = Legacy.film_page.
Proof.
  apply (proj2 (proj2 legacy_tables_kept) 10 5 Legacy.film_page). lia.
Defined.

Lemma legacy_fresh_absent (p : Legacy.page) (i : nat) :
  Legacy.fresh p = true ->
  (Legacy.next_ident p <= i)%nat ->
  absent_in i (Legacy.elsewhere p) /\ absent_in i (Legacy.stats p).
Proof.
  unfold Legacy.fresh. intros Hfresh Hi.
  assert (Hbelow :
            Forall (fun j => (j < i)%nat)
              (flat_map idents_in (Legacy.elsewhere p)
               ++ flat_map idents_in (Legacy.stats p))).
  { apply Forall_forall. intros j Hj.
    pose proof (proj1 (forallb_forall _ _) Hfresh j Hj) as Hlt.
    apply Nat.ltb_lt in Hlt. lia. }
  apply Forall_app in Hbelow as [Helsewhere Hstats].
  split; now apply absent_in_below.
Qed.

Lemma legacy_appendChild_absent (b : node) (i : nat) (p : Legacy.page)
    (e : element) (children : list node) :
  node_ident b = Some i ->
  absent_in i (Legacy.elsewhere p) ->
  absent_in i children ->
  Legacy.film_stats p = Some (e, children) ->
  Legacy.appendChild_stats b p
  = Legacy.with_film_stats (Some (e, children ++ [b])) p.
Proof.
  intros Hb Helsewhere Hchildren Hlist.
  unfold Legacy.appendChild_stats, Legacy.detach. rewrite Hb, Hlist.
  rewrite !remove_forest_absent by assumption.
  destruct p. reflexivity.
Qed.

(** Appending again a node that is the last child of the list, and nowhere
    else, changes nothing. *)
Lemma legacy_appendChild_last (b : node) (i : nat) (p : Legacy.page)
    (e : element) (children : list node) :
  node_ident b = Some i ->
  absent_in i (Legacy.elsewhere p) ->
  absent_in i children ->
  Legacy.film_stats p = Some (e, children ++ [b]) ->
  Legacy.appendChild_stats b p = p.
Proof.
  intros Hb Helsewhere Hchildren Hlist.
  assert (Hnode : is_node i b = true)
    by (destruct b; [cbn in *; injection Hb as ->; apply Nat.eqb_refl |
                     discriminate]).
  assert (Hremoved : remove_forest i (children ++ [b]) = children).
  { unfold remove_forest. rewrite map_app, filter_app.
    fold (remove_forest i children).
    rewrite (remove_forest_absent i children Hchildren).
    cbn [map filter]. rewrite is_node_remove_in, Hnode. cbn [negb].
    apply app_nil_r. }
  unfold Legacy.appendChild_stats, Legacy.detach. rewrite Hb, Hlist.
  rewrite (remove_forest_absent i (Legacy.elsewhere p) Helsewhere), Hremoved.
  destruct p; cbn in *. now rewrite Hlist.
Qed.

Lemma legacy_count_class_appended (c : string) (b : node) (p : Legacy.page)
    (e : element) (children : list node) :
  Legacy.film_stats p = Some (e, children) ->
  Legacy.count_class c
    (Legacy.with_film_stats (Some (e, children ++ [b])) p)
  = (Legacy.count_class c p + count_in (has_class c) b)%nat.
Proof.
  intros Hlist. unfold Legacy.count_class.
  cbn [Legacy.elsewhere Legacy.film_stats Legacy.with_film_stats count_in].
  rewrite Hlist. cbn [count_in]. rewrite map_app, list_sum_app.
  cbn [map list_sum fold_right]. lia.
Qed.

(** What is left of the loops once the crown is the last child of a list
    that shows no [filmstat-top250]: every further element node appends the
    crown again, which changes nothing. *)
Lemma legacy_callback_nodes_settled (o : observer) (p : Legacy.page)
    (e : element) (children : list node) (i : nat) (nodes : list node) :
  mount_of o = CrownMount ->
  node_ident (badge o) = Some i ->
  absent_in i (Legacy.elsewhere p) ->
  absent_in i children ->
  Legacy.film_stats p = Some (e, children ++ [badge o]) ->
  forall calls : nat,
    Legacy.page_of (Legacy.callback_nodes nodes (disconnected o) p calls) = p
    /\ Legacy.observer_of
         (Legacy.callback_nodes nodes (disconnected o) p calls)
       = disconnected o
    /\ Legacy.outcome (Legacy.callback_nodes nodes (disconnected o) p calls)
       = Normal tt.
Proof.
  intros Ho Hb Helsewhere Hchildren Hlist.
  induction nodes as [| [e1 children1 | data] rest IH]; intros calls;
    cbn [Legacy.callback_nodes].
  - now cbn.
  - unfold Legacy.visit, Legacy.crown_visit.
    cbn [mount_of badge disconnected]. rewrite Ho, Hlist.
    rewrite (legacy_appendChild_last (badge o) i p e children Hb Helsewhere
               Hchildren Hlist).
    destruct (1 <? _)%nat; [destruct (_ =? 0)%nat |];
      cbn [Legacy.page_after Legacy.disconnect Legacy.appendChild_calls];
      apply IH.
  - apply IH.
Qed.

Lemma legacy_callback_first_element (nodes : list node) :
  existsb is_element nodes = true ->
  exists e children rest,
    forall (o : observer) (p : Legacy.page) (calls : nat),
      Legacy.callback_nodes nodes o p calls
      = Legacy.callback_nodes (Element e children :: rest) o p calls.
Proof.
  induction nodes as [| [e children | data] rest IH]; cbn [existsb is_element].
  - discriminate.
  - intros _. now exists e, children, rest.
  - cbn [orb]. intros Hrest.
    destruct (IH Hrest) as (e & children & rest' & Hsame).
    exists e, children, rest'. intros o p calls. cbn [Legacy.callback_nodes].
    apply Hsame.
Qed.

(** A batch for an observer of the earlier [addCrown], on a list that is
    ready and a page that shows no [filmstat-top250]. *)
Lemma legacy_crown_callback (o : observer) (p : Legacy.page)
    (mutations : list mutation_record) (e : element) (children : list node)
    (i : nat) :
  mount_of o = CrownMount ->
  node_ident (badge o) = Some i ->
  absent_in i (Legacy.elsewhere p) ->
  absent_in i children ->
  Legacy.film_stats p = Some (e, children) ->
  (1 < count_forest (has_tag "li") children)%nat ->
  Legacy.count_class "filmstat-top250" p = 0%nat ->
  existsb is_element (flat_map addedNodes mutations) = true ->
  Legacy.page_of (Legacy.callback mutations o p)
  = Legacy.with_film_stats (Some (e, children ++ [badge o])) p
  /\ Legacy.observer_of (Legacy.callback mutations o p) = disconnected o
  /\ Legacy.outcome (Legacy.callback mutations o p) = Normal tt.
Proof.
  intros Ho Hb Helsewhere Hchildren Hlist Hready Hguard Hnodes.
  unfold Legacy.callback.
  destruct (legacy_callback_first_element _ Hnodes)
    as (e1 & children1 & rest & ->).
  cbn [Legacy.callback_nodes].
  unfold Legacy.visit, Legacy.crown_visit. rewrite Ho, Hlist, Hguard.
  apply Nat.ltb_lt in Hready. rewrite Hready. cbn [Nat.eqb].
  cbn [Legacy.page_after Legacy.disconnect Legacy.appendChild_calls].
  rewrite (legacy_appendChild_absent (badge o) i p e children Hb Helsewhere
             Hchildren Hlist).
  apply (legacy_callback_nodes_settled o _ e children i rest Ho Hb);
    [exact Helsewhere | exact Hchildren | reflexivity].
Qed.

Lemma legacy_crown_badge_idents (ranking : Z) (p : Legacy.page) :
  idents_in (fst (Legacy.crown_badge ranking p))
  = [Legacy.next_ident p; S (Legacy.next_ident p);
     S (S (Legacy.next_ident p))].
Proof. reflexivity. Qed.

Lemma legacy_crown_badge_unmarked (ranking : Z) (p : Legacy.page) :
  count_in (has_class "filmstat-top250") (fst (Legacy.crown_badge ranking p))
  = 0%nat.
Proof. reflexivity. Qed.

(** X16: the guard of the earlier [addCrown] looks for the class
    [filmstat-top250], which the crown it inserts does not carry: the
    script does not see its own crown.  When [addCrown] has run twice, for
    a film listed twice or a script installed twice, and each observer gets
    a batch on a list that is ready, both crowns are inserted, the second
    after the first, and the page still shows no [filmstat-top250]. *)
Theorem legacy_crown_twice (q : Legacy.page) (r1 r2 : Z)
    (m1 m2 : list mutation_record) (e : element) (children : list node) :
  Legacy.fresh q = true ->
  Legacy.film_stats q = Some (e, children) ->
  (1 < count_forest (has_tag "li") children)%nat ->
  Legacy.count_class "filmstat-top250" q = 0%nat ->
  existsb is_element (flat_map addedNodes m1) = true ->
  existsb is_element (flat_map addedNodes m2) = true ->
  let b1 := fst (Legacy.crown_badge r1 q) in
  let b2 := fst (Legacy.crown_badge r2 (Legacy.addCrown r1 q)) in
  let o1 := {| mount_of := CrownMount; badge := b1; connected := true |} in
  let o2 := {| mount_of := CrownMount; badge := b2; connected := true |} in
  let p := Legacy.addCrown r2 (Legacy.addCrown r1 q) in
  let d1 := Legacy.callback m1 o1 p in
  let d2 := Legacy.callback m2 o2 (Legacy.page_of d1) in
  Legacy.observers p = Legacy.observers q ++ [o1; o2]
  /\ Legacy.film_stats (Legacy.page_of d2) = Some (e, children ++ [b1; b2])
  /\ Legacy.count_class "filmstat-top250" (Legacy.page_of d2) = 0%nat
  /\ Legacy.observer_of d1 = disconnected o1
  /\ Legacy.observer_of d2 = disconnected o2.
Proof.
  intros Hfresh Hlist Hready Hguard Hm1 Hm2 b1 b2 o1 o2 p d1 d2.
  destruct (legacy_fresh_absent q (Legacy.next_ident q) Hfresh (le_n _))
    as [Helsewhere1 Hstats1].
  destruct (legacy_fresh_absent q (S (S (S (Legacy.next_ident q)))) Hfresh
              ltac:(lia))
    as [Helsewhere2 Hstats2].
  unfold Legacy.stats in Hstats1, Hstats2. rewrite Hlist in Hstats1, Hstats2.
  destruct (legacy_crown_callback o1 p m1 e children (Legacy.next_ident q)
              eq_refl eq_refl Helsewhere1 Hstats1 Hlist Hready Hguard Hm1)
    as (Hpage1 & Hobserver1 & _).
  fold d1 in Hpage1, Hobserver1.
  assert (Hguard1 : Legacy.count_class "filmstat-top250" (Legacy.page_of d1)
                    = 0%nat).
  { rewrite Hpage1, (legacy_count_class_appended _ _ p e children Hlist).
    change (badge o1) with b1. unfold b1.
    rewrite legacy_crown_badge_unmarked.
    change (Legacy.count_class "filmstat-top250" p)
      with (Legacy.count_class "filmstat-top250" q).
    lia. }
  assert (Hstats2' : absent_in (S (S (S (Legacy.next_ident q))))
                       (children ++ [b1])).
  { apply absent_in_app; [exact Hstats2 |].
    apply absent_in_below. cbn [flat_map]. rewrite app_nil_r.
    unfold b1. rewrite legacy_crown_badge_idents.
    repeat constructor; lia. }
  assert (Hready1 :
            (1 < count_forest (has_tag "li") (children ++ [b1]))%nat)
    by (rewrite count_forest_app; lia).
  destruct (legacy_crown_callback o2 (Legacy.page_of d1) m2 e
              (children ++ [b1]) (S (S (S (Legacy.next_ident q))))
              eq_refl eq_refl
              ltac:(rewrite Hpage1; exact Helsewhere2) Hstats2'
              ltac:(rewrite Hpage1; reflexivity) Hready1 Hguard1 Hm2)
    as (Hpage2 & Hobserver2 & _).
  fold d2 in Hpage2, Hobserver2.
  split.
  { change (Legacy.observers p)
      with ((Legacy.observers q ++ [o1]) ++ [o2]).
    now rewrite <- app_assoc. }
  split.
  { rewrite Hpage2. cbn [Legacy.film_stats Legacy.with_film_stats].
    now rewrite <- app_assoc. }
  split.
  { rewrite Hpage2.
    rewrite (legacy_count_class_appended _ _ (Legacy.page_of d1) e
               (children ++ [b1])) by (rewrite Hpage1; reflexivity).
    change (badge o2) with b2. unfold b2.
    rewrite legacy_crown_badge_unmarked. lia. }
  split; assumption.
Qed.

Lemma legacy_crown_twice_witness :
  let q := Legacy.film_page in
  let b1 := fst (Legacy.crown_badge 7 q) in
  let b2 := fst (Legacy.crown_badge 9 (Legacy.addCrown 7 q)) in
  let o1 := {| mount_of := CrownMount; badge := b1; connected := true |} in
  let o2 := {| mount_of := CrownMount; badge := b2; connected := true |} in
  let p := Legacy.addCrown 9 (Legacy.addCrown 7 q) in
  let d1 := Legacy.callback Scenario.batch o1 p in
  let d2 := Legacy.callback Scenario.batch_of_two o2 (Legacy.page_of d1) in
  Legacy.observers p = Legacy.observers q ++ [o1; o2]
  /\ Legacy.film_stats (Legacy.page_of d2)
     = Some ({| ident := 1; tagName := "ul"; className := "film-stats";
                attributes := []; style := [] |},
             Legacy.stats q ++ [b1; b2])
  /\ Legacy.count_class "filmstat-top250" (Legacy.page_of d2) = 0%nat
  /\ Legacy.observer_of d1 = disconnected o1
  /\ Legacy.observer_of d2 = disconnected o2.
Proof.
  intros q.
  apply (legacy_crown_twice q 7 9 Scenario.batch Scenario.batch_of_two).
  - reflexivity.
  - reflexivity.
  - vm_compute. lia.
  - reflexivity.
  - reflexivity.
  - reflexivity.
Defined.

(** ** The first version of the script *)

Lemma top2000_find_from (type : Z) (id : number) (items : list jsval) :
  forall (i : nat) (p : Legacy.page),
    List.length
      (Legacy.observers
         (fst (fst (find_from (Top2000.getData_callback type id) items i p))))
    = (List.length (Legacy.observers p)
       + List.length (filter (Legacy.is_hit id) (readable items)))%nat.
Proof.
  induction items as [| item rest IH]; intros i p;
    [cbn; lia |].
  cbn [find_from readable]. unfold Top2000.getData_callback at 1.
  destruct (has_properties item) eqn:Hitem.
  - rewrite (legacy_is_film_has_properties id item Hitem). cbn [filter].
    destruct (Legacy.is_hit id item);
      match goal with
      | |- context [find_from ?f rest ?j ?q] =>
          specialize (IH j q); destruct (find_from f rest j q) as [[p' n] c]
      end; cbn [fst] in *; rewrite IH; [| reflexivity].
    unfold Top2000.add_badge, Top2000.addCrown, Top2000.addFire,
      Top2000.addMovie, Legacy.observe.
    destruct (type =? 1); [| destruct (type =? 2)]; cbn;
      rewrite length_app; cbn; lia.
  - destruct item; try discriminate Hitem; cbn; lia.
Qed.

(** X17: in the first version every hit sets up a badge, whatever the type
    code.  The chain of tests ends in a plain [else]: a type code other
    than 1 and 2 gives the badge of the all-time list, which is the very
    badge the later [addIcon] builds from the list, icon and size of
    [addMovie]; and [getData] leaves as many observers more as the readable
    entries of the file have hits. *)
Theorem top2000_every_hit_gets_a_badge (type : Z) :
  (forall (ranking : Z) (p : Legacy.page),
      type <> 1 -> type <> 2 ->
      Top2000.add_badge type ranking p
      = Legacy.addIcon ranking Top2000.movie_parameters p)
  /\ (forall (id : number) (items : list jsval) (p : Legacy.page),
         List.length
           (Legacy.observers
              (fst (Top2000.getData type id
                      (Fulfilled {| body := Some (JArray items) |}) p)))
         = (List.length (Legacy.observers p)
            + List.length (filter (Legacy.is_hit id) (readable items)))%nat).
Proof.
  split.
  - intros ranking p H1 H2. unfold Top2000.add_badge.
    destruct (Z.eqb_spec type 1) as [-> | _]; [contradiction |].
    destruct (Z.eqb_spec type 2) as [-> | _]; [contradiction |].
    reflexivity.
  - intros id items p.
    unfold Top2000.getData, Legacy.then_, json. cbn [body find].
    pose proof (top2000_find_from type id items 0 p) as Hfind.
    destruct (find_from (Top2000.getData_callback type id) items 0 p)
      as [[p' visits] found].
    exact Hfind.
Qed.

Lemma top2000_every_hit_gets_a_badge_witness :
  Top2000.add_badge 7 4 Legacy.film_page
  = Legacy.addIcon 4 Top2000.movie_parameters Legacy.film_page.
Proof.
  apply (proj1 (top2000_every_hit_gets_a_badge 7) 4 Legacy.film_page); lia.
Defined.

(** ** The continuations together *)

Lemma find_from_readable (type : Z) (id : number) (items : list jsval) :
  forall (i : nat) (p : page),
    fst (fst (find_from (getData_callback type id) items i p))
    = add_badges type (ranks_from (is_hit id) (readable items) i) p.
Proof.
  induction items as [| item rest IH]; intros i p; [reflexivity |].
  cbn [find_from readable]. unfold getData_callback at 1.
  destruct (has_properties item) eqn:Hitem.
  - rewrite (is_film_has_properties id item Hitem). cbn [ranks_from].
    destruct (is_hit id item); cbn [app];
      match goal with
      | |- context [find_from ?f rest ?j ?q] =>
          specialize (IH j q); destruct (find_from f rest j q) as [[p' n] c]
      end; exact IH.
  - now rewrite (unreadable_is_film id item Hitem).
Qed.

Lemma add_badge_unregistered (type ranking : Z) (p : page) :
  (1 <=? type) && (type <=? 28) = false -> add_badge type ranking p = p.
Proof.
  intros Htype. unfold add_badge.
  destruct (Z.eqb_spec type 1) as [-> | _]; [discriminate Htype |].
  destruct type as [| q | q]; try reflexivity.
  do 5 (try destruct q as [q | q |]); try reflexivity; discriminate Htype.
Qed.

Lemma add_badges_unregistered (type : Z) (ranks : list Z) (p : page) :
  (1 <=? type) && (type <=? 28) = false -> add_badges type ranks p = p.
Proof.
  intros Htype. unfold add_badges.
  induction ranks as [| r rest IH]; cbn [fold_left]; [reflexivity |].
  now rewrite add_badge_unregistered.
Qed.

Lemma resume_observer_count (normalize : string -> string)
    (network : string -> promise response) (t : task) (p : page) :
  List.length (observers (fst (resume normalize network t p)))
  = (List.length (observers p) + hits network t)%nat.
Proof.
  destruct t as [type id json_link | json_link castAnchors];
    cbn [resume hits].
  - unfold getData, then_, json.
    destruct (network json_link) as [res | e];
      [| destruct ((1 <=? type) && (type <=? 28)); cbn; lia].
    destruct (body res) as [out |];
      [| destruct ((1 <=? type) && (type <=? 28)); cbn; lia].
    destruct out as [| | b | z | s | items | fields];
      try (destruct ((1 <=? type) && (type <=? 28)); cbn; lia).
    cbn [find].
    pose proof (find_from_readable type id items 0 p) as Hfind.
    destruct (find_from (getData_callback type id) items 0 p)
      as [[p' visits] found].
    cbn [fst] in Hfind |- *. subst p'.
    destruct ((1 <=? type) && (type <=? 28)) eqn:Htype.
    + rewrite add_badges_observers, ranks_from_length; [reflexivity | lia].
    + rewrite add_badges_unregistered by exact Htype. lia.
  - destruct (getActors_only_casts normalize castAnchors (network json_link) p)
      as (Hobservers & _).
    rewrite Hobservers. lia.
Qed.

(** X18: one observer for every hit, across all the files.  After the
    continuations of any tasks have run, in any order, the page has as many
    observers more as the files had hits: the entries that are the film
    among those before the first unreadable entry, counted with their
    repetitions, in the files that are arrays.  A fetch that fails, a file
    that is no array and the actor file add none. *)
Theorem resume_all_observer_count (normalize : string -> string)
    (network : string -> promise response) (schedule : list task) (p : page) :
  List.length (observers (fst (resume_all normalize network schedule p)))
  = (List.length (observers p) + list_sum (map (hits network) schedule))%nat.
Proof.
  revert p. induction schedule as [| t rest IH]; intros p.
  - cbn. lia.
  - cbn [resume_all].
    pose proof (resume_observer_count normalize network t p) as Ht.
    destruct (resume normalize network t p) as [p' pr].
    specialize (IH p').
    destruct (resume_all normalize network rest p') as [p'' prs].
    cbn [fst] in *.
    change (list_sum (map (hits network) (t :: rest)))
      with (hits network t + list_sum (map (hits network) rest))%nat.
    lia.
Qed.

(** ** The whole cast *)

Lemma count_in_not_in (i : nat) (n : node) :
  ~ In i (idents_in n) ->
  count_in (fun e => Nat.eqb (ident e) i) n = 0%nat.
Proof.
  induction n as [e children IH | data] using node_forall_ind;
    [| reflexivity].
  cbn [idents_in count_in]. intros Hnot.
  replace (Nat.eqb (ident e) i) with false
    by (symmetry; apply Nat.eqb_neq; intros He; apply Hnot; now left).
  cbn [Nat.add].
  assert (Hchildren : ~ In i (flat_map idents_in children))
    by (intros Hin; apply Hnot; now right).
  clear Hnot.
  induction IH as [| c rest IHc _ IHrest]; [reflexivity |].
  cbn [flat_map] in Hchildren. rewrite in_app_iff in Hchildren.
  change (list_sum (map (count_in (fun e0 => Nat.eqb (ident e0) i))
                      (c :: rest)))
    with (count_in (fun e0 => Nat.eqb (ident e0) i) c
          + list_sum (map (count_in (fun e0 => Nat.eqb (ident e0) i)) rest))%nat.
  rewrite IHc, IHrest; tauto.
Qed.

Lemma lookup_in_absent (i : nat) (n : node) :
  count_in (fun e => Nat.eqb (ident e) i) n = 0%nat -> lookup_in i n = None.
Proof.
  induction n as [e children IH | data] using node_forall_ind;
    [| reflexivity].
  cbn [count_in lookup_in]. intros Hcount.
  destruct (Nat.eqb (ident e) i); [lia |].
  cbn [Nat.add] in Hcount. apply list_sum_zero in Hcount.
  rewrite Forall_map in Hcount.
  induction IH as [| c rest IHc _ IHrest]; [reflexivity |].
  inversion Hcount as [| ? ? Hc Hrest]; subst.
  cbn [map first_some fold_right]. rewrite (IHc Hc).
  now apply IHrest.
Qed.

Lemma lookup_forest_absent (i : nat) (l : list node) :
  absent_in i l -> lookup_forest i l = None.
Proof.
  unfold absent_in, count_forest, lookup_forest. intros Hcount.
  apply list_sum_zero in Hcount. rewrite Forall_map in Hcount.
  induction Hcount as [| n rest Hn _ IH]; [reflexivity |].
  cbn [map first_some fold_right]. now rewrite (lookup_in_absent i n Hn).
Qed.

Lemma lookup_forest_app (i : nat) (l1 l2 : list node) :
  lookup_forest i l1 = None ->
  lookup_forest i (l1 ++ l2) = lookup_forest i l2.
Proof.
  induction l1 as [| n rest IH]; [reflexivity |].
  cbn [app]. rewrite !lookup_forest_cons.
  destruct (lookup_in i n); [discriminate | exact IH].
Qed.

Lemma append_in_absent (i : nat) (b n : node) :
  count_in (fun e => Nat.eqb (ident e) i) n = 0%nat -> append_in i b n = n.
Proof.
  induction n as [e children IH | data] using node_forall_ind;
    [| reflexivity].
  cbn [count_in append_in]. intros Hcount.
  destruct (Nat.eqb (ident e) i); [lia |].
  cbn [Nat.add] in Hcount. apply list_sum_zero in Hcount.
  rewrite Forall_map in Hcount. f_equal.
  induction IH as [| c rest IHc _ IHrest]; [reflexivity |].
  inversion Hcount as [| ? ? Hc Hrest]; subst.
  cbn [map]. rewrite (IHc Hc). f_equal. now apply IHrest.
Qed.

Lemma map_append_in_absent (i : nat) (b : node) (l : list node) :
  absent_in i l -> map (append_in i b) l = l.
Proof.
  unfold absent_in, count_forest. intros Hcount.
  apply list_sum_zero in Hcount. rewrite Forall_map in Hcount.
  induction Hcount as [| n rest Hn _ IH]; [reflexivity |].
  cbn [map]. now rewrite (append_in_absent i b n Hn), IH.
Qed.

Lemma absent_in_not_in (i : nat) (l : list node) :
  ~ In i (flat_map idents_in l) -> absent_in i l.
Proof.
  unfold absent_in, count_forest.
  induction l as [| n rest IH]; [reflexivity |].
  cbn [flat_map]. rewrite in_app_iff. intros Hnot.
  change (list_sum (map (count_in (fun e => Nat.eqb (ident e) i)) (n :: rest)))
    with (count_in (fun e => Nat.eqb (ident e) i) n
          + list_sum (map (count_in (fun e => Nat.eqb (ident e) i)) rest))%nat.
  rewrite (count_in_not_in i n), IH; tauto.
Qed.

Lemma absent_in_simple_anchors (i : nat) (anchors : list (element * string)) :
  ~ In i (map anchor_ident anchors) ->
  absent_in i (map simple_anchor anchors).
Proof.
  intros Hnot. apply absent_in_not_in.
  induction anchors as [| a rest IH]; [exact (fun H => H) |].
  cbn [map flat_map simple_anchor idents_in app] in *.
  intros [Ha | Hrest]; [apply Hnot; now left |].
  apply IH; [| exact Hrest]. intros Hin. apply Hnot. now right.
Qed.

Lemma actor_badge_at_next (ranking : Z) (p : page) :
  fst (actor_badge ranking actors_parameters p)
  = actor_badge_at (next_ident p) ranking.
Proof. reflexivity. Qed.

Lemma actor_badge_at_idents (n : nat) (ranking : Z) :
  idents_in (actor_badge_at n ranking) = [n; S n].
Proof. reflexivity. Qed.

Lemma addActorIcon_next_ident (target : nat) (ranking : Z) (p : page) :
  next_ident (addActorIcon target ranking actors_parameters p)
  = S (S (next_ident p)).
Proof. reflexivity. Qed.

Section Row.

Variable normalize : string -> string.
Variable names : list string.

(** The turns of [castAnchors.forEach] over the anchors still to visit,
    when those visited before are in [done]. *)
Lemma fold_cast_visit_row (todo : list (element * string)) :
  forall (p : page) (done : list node),
    cast_list p = done ++ map simple_anchor todo ->
    NoDup (map anchor_ident todo) ->
    Forall (fun a => (anchor_ident a < next_ident p)%nat) todo ->
    Forall (fun a => absent_in (anchor_ident a) done) todo ->
    cast_list
      (fold_left (cast_visit normalize names) (map anchor_ident todo) p)
    = done ++ decorate normalize names todo (next_ident p).
Proof.
  induction todo as [| a rest IH]; intros p done Hcast Hnodup Hbelow Hdone.
  - exact Hcast.
  - cbn [map fold_left decorate].
    apply NoDup_cons_iff in Hnodup as [Ha Hnodup].
    inversion Hbelow as [| ? ? Hlt Hbelow']; subst.
    inversion Hdone as [| ? ? Habsent Hdone']; subst.
    assert (Hfound : lookup_forest (anchor_ident a) (cast_list p)
                     = Some (fst a, [TextNode (snd a)])).
    { rewrite Hcast, lookup_forest_app
        by now apply lookup_forest_absent.
      cbn [map]. rewrite lookup_forest_cons. unfold simple_anchor at 1.
      cbn [lookup_in]. unfold anchor_ident. now rewrite Nat.eqb_refl. }
    unfold cast_visit at 2. rewrite Hfound.
    cbn [textContent map String.concat].
    destruct (0 <=? indexOf (normalize (snd a)) names) eqn:Hposition.
    + set (ranking := indexOf (normalize (snd a)) names + 1).
      rewrite (IH (addActorIcon (anchor_ident a) ranking actors_parameters p)
                 (done ++ [Element (fst a)
                             [TextNode (snd a);
                              actor_badge_at (next_ident p) ranking]])).
      * rewrite addActorIcon_next_ident, <- app_assoc. reflexivity.
      * rewrite addActorIcon_cast_list, Hcast, map_app, actor_badge_at_next.
        rewrite (map_append_in_absent _ _ done Habsent), <- app_assoc.
        f_equal. cbn [map app]. f_equal.
        -- unfold simple_anchor, anchor_ident. cbn [append_in map].
           now rewrite Nat.eqb_refl.
        -- apply map_append_in_absent.
           now apply absent_in_simple_anchors.
      * exact Hnodup.
      * rewrite addActorIcon_next_ident.
        apply Forall_impl with (2 := Hbelow'). cbn beta. intros b Hb. lia.
      * apply Forall_forall. intros b Hb.
        apply absent_in_app;
          [exact (proj1 (Forall_forall _ _) Hdone' b Hb) |].
        apply absent_in_not_in. cbn [flat_map idents_in app].
        rewrite actor_badge_at_idents. cbn [app In].
        pose proof (proj1 (Forall_forall _ _) Hbelow' b Hb) as Hltb.
        cbn beta in Hltb.
        intros [Heq | [Heq | [Heq | []]]]; try lia.
        apply Ha. unfold anchor_ident at 1. rewrite Heq.
        now apply in_map.
    + rewrite (IH p (done ++ [simple_anchor a])).
      * now rewrite <- app_assoc.
      * now rewrite Hcast, <- app_assoc.
      * exact Hnodup.
      * exact Hbelow'.
      * apply Forall_forall. intros b Hb.
        apply absent_in_app;
          [exact (proj1 (Forall_forall _ _) Hdone' b Hb) |].
        apply (absent_in_simple_anchors _ [a]). cbn [map In].
        intros [Heq | []]. apply Ha. rewrite Heq. now apply in_map.
Qed.

End Row.



